(** * IBC channel keeper: the packet life cycle

    A shallow embedding of [x/ibc/04-channel/keeper/packet.go]
    (SendPacket, RecvPacket, PacketExecuted, AcknowledgePacket,
    AcknowledgementExecuted, CleanupPacket) together with the key-value
    store the keeper reads and writes, and the properties of the packet
    pipeline proved over it. *)

From Stdlib Require Import ZArith Lia Sorted.
From stdpp Require Import base option strings gmap list.

Local Open Scope Z_scope.

(** ** Machine integers *)

(** Go's [uint64]: arithmetic is modulo 2^64. *)
Definition U64_MOD : Z := 2 ^ 64.
Definition MaxUint64 : Z := U64_MOD - 1.
Definition wrap64 (z : Z) : Z := z mod U64_MOD.

(** The conversion [uint64(h)] of an [int64] block height. *)
Definition uint64_of_int64 (h : Z) : Z := wrap64 h.

(** ** Bytes *)

#[global] Instance byte_eq_dec : EqDecision Byte.byte := Byte.byte_eq_dec.

(** [bytes.Equal]: a nil slice and an empty slice are equal, so both are
    the empty list here. *)
Definition bytes_Equal (a b : list Byte.byte) : bool := bool_decide (a = b).

(** ** Data model

    The types of packets, channel ends, connection ends and client states
    are declared outside [packet.go]; they are taken from section 3 of the
    specification, with the field and getter names the keeper uses. *)

Module exported.

(** Modelled from the spec: the channel states, "{INIT, TRYOPEN, OPEN,
    CLOSED}". *)
Inductive State := INIT | TRYOPEN | OPEN | CLOSED.

(** Modelled from the spec: the channel ordering, "{ORDERED, UNORDERED}",
    and "any other ordering value", which a stored channel record may
    carry and CleanupPacket's switch treats in its default case. *)
Inductive Order := ORDERED | UNORDERED | OtherOrder (value : Z).

#[global] Instance State_eq_dec : EqDecision State.
Proof. solve_decision. Defined.

#[global] Instance Order_eq_dec : EqDecision Order.
Proof. solve_decision. Defined.

End exported.

Module connectionexported.

(** Modelled from the spec: the connection states, "{UNINITIALIZED, INIT,
    TRYOPEN, OPEN}". *)
Inductive State := UNINITIALIZED | INIT | TRYOPEN | OPEN.

#[global] Instance State_eq_dec : EqDecision State.
Proof. solve_decision. Defined.

End connectionexported.

(** Modelled from the spec: "counterparty: {port_id, channel_id}". *)
Record ChannelCounterparty := mkCounterparty {
  PortID : string;
  ChannelID : string
}.

(** Modelled from the spec: ChannelEnd, "{state; ordering; counterparty;
    connection_hops}". *)
Record Channel := mkChannel {
  State : exported.State;
  Ordering : exported.Order;
  Counterparty : ChannelCounterparty;
  ConnectionHops : list string
}.

(** Modelled from the spec: ConnectionEnd, "{state; client_id}", with the
    getters of the Go interface. *)
Record ConnectionEnd := mkConnectionEnd {
  GetState : connectionexported.State;
  GetClientID : string
}.

(** Modelled from the spec: ClientState, which "exposes at minimum
    latest_height()". *)
Record ClientState := mkClientState {
  GetLatestHeight : Z
}.

(** Modelled from the spec: Packet, "{source_port, source_channel,
    dest_port, dest_channel; sequence: u64; data: bytes; timeout_height:
    u64}", with the getters of the Go interface. *)
Record Packet := mkPacket {
  GetSequence : Z;
  GetTimeoutHeight : Z;
  GetSourcePort : string;
  GetSourceChannel : string;
  GetDestPort : string;
  GetDestChannel : string;
  GetData : list Byte.byte
}.

(** The errors the keeper returns. [sdkerrors.Wrap] only adds a message
    to an error, so an error is identified with its root. *)
Inductive Error :=
| ErrChannelNotFound
| ErrInvalidChannelState
| ErrInvalidChannelOrdering
| ErrInvalidPacket
| ErrPacketTimeout
| ErrSequenceSendNotFound
| ErrSequenceReceiveNotFound
| ErrConnectionNotFound
| ErrInvalidConnectionState
| ErrConsensusStateNotFound
| ErrCommitmentVerificationFailed.

#[global] Instance Error_eq_dec : EqDecision Error.
Proof. solve_decision. Defined.

(** Run-time panics: the explicit [panic] of CleanupPacket's default
    branch, the index expression [ConnectionHops[0]] on an empty slice,
    and a method call on a nil interface value. *)
Inductive PanicReason :=
| PanicInvalidChannelOrdering
| PanicIndexOutOfRange
| PanicNilDereference.

Inductive Outcome (A : Type) :=
| Ok (a : A)
| Err (e : Error)
| Panic (r : PanicReason).

Arguments Ok {A} a.
Arguments Err {A} e.
Arguments Panic {A} r.

(** ** The store *)

(** One finite map per keyspace; the keyspaces are disjoint by
    construction. *)
Record KVStore := mkKVStore {
  channels : gmap (string * string) Channel;
  connections : gmap string ConnectionEnd;
  clientStates : gmap string ClientState;
  nextSequenceSend : gmap (string * string) Z;
  nextSequenceRecv : gmap (string * string) Z;
  packetCommitments : gmap (string * string * Z) (list Byte.byte);
  packetAcknowledgements : gmap (string * string * Z) (list Byte.byte)
}.

(** A call of one of the connection keeper's verification functions,
    with the arguments it was given. *)
Inductive VerifierCall :=
| CallVerifyPacketCommitment
    (connectionEnd : ConnectionEnd) (proofHeight : Z) (proof : list Byte.byte)
    (portID channelID : string) (sequence : Z) (commitmentBytes : list Byte.byte)
| CallVerifyPacketAcknowledgement
    (connectionEnd : ConnectionEnd) (proofHeight : Z) (proof : list Byte.byte)
    (portID channelID : string) (sequence : Z) (acknowledgement : list Byte.byte)
| CallVerifyNextSequenceRecv
    (connectionEnd : ConnectionEnd) (proofHeight : Z) (proof : list Byte.byte)
    (portID channelID : string) (nextSequenceRecv : Z).

(** [sdk.Context]: the block height, the store, and (a ghost field) the
    trace of verifier calls made so far, latest first. *)
Record Context := mkContext {
  BlockHeight : Z;
  kvStore : KVStore;
  verifierCalls : list VerifierCall
}.

(** ** A state-and-error monad for keeper methods

    A keeper method mutates the store of its context in place and then
    returns, returns an error, or panics; writes made before an error
    are not undone by the method. *)
Definition M (A : Type) : Type := Context -> Outcome A * Context.

Definition ret {A} (a : A) : M A := fun c => (Ok a, c).

Definition bind {A B} (m : M A) (f : A -> M B) : M B :=
  fun c =>
    match m c with
    | (Ok a, c') => f a c'
    | (Err e, c') => (Err e, c')
    | (Panic r, c') => (Panic r, c')
    end.

Definition throw {A} (e : Error) : M A := fun c => (Err e, c).

Definition panic {A} (r : PanicReason) : M A := fun c => (Panic r, c).

Definition gets {A} (f : Context -> A) : M A := fun c => (Ok (f c), c).

Definition modifyStore (f : KVStore -> KVStore) : M unit :=
  fun c => (Ok tt, mkContext (BlockHeight c) (f (kvStore c)) (verifierCalls c)).

Notation "'do' x <- m ; k" := (bind m (fun x => k))
  (at level 10, x name, m at level 100, k at level 200,
   format "'[v' 'do'  x  <-  m ; '/' k ']'").
Notation "'run' m ; k" := (bind m (fun _ => k))
  (at level 10, m at level 100, k at level 200,
   format "'[v' 'run'  m ; '/' k ']'").

(** [if cond { return err }] *)
Definition failIf (cond : bool) (e : Error) : M unit :=
  if cond then throw e else ret tt.

(** [v, found := ...; if !found { return err }] *)
Definition orFail {A} (o : option A) (e : Error) : M A :=
  match o with
  | Some a => ret a
  | None => throw e
  end.

(** [if err := f(); err != nil { return err }] *)
Definition failWith (err : option Error) : M unit :=
  match err with
  | Some e => throw e
  | None => ret tt
  end.

(** [hops[0]] *)
Definition index0 (hops : list string) : M string :=
  match hops with
  | [] => panic PanicIndexOutOfRange
  | h :: _ => ret h
  end.

(** ** Keeper store accessors *)

(** The channel keeper's store methods (section 4.2 of the spec,
    "Sequence & Commitment Store") and the registry lookups (section 6)
    are declared outside [packet.go]; each is a point lookup, write or
    delete in its own keyspace. *)

(** Modelled from the spec: [get_channel(port_id, channel_id)], a point
    lookup in the channel registry. *)
Definition GetChannel (portID channelID : string) : M (option Channel) :=
  gets (fun c => channels (kvStore c) !! (portID, channelID)).

(** Modelled from the spec: [get_connection(connection_id)], a point
    lookup in the connection registry. *)
Definition GetConnection (connectionID : string) : M (option ConnectionEnd) :=
  gets (fun c => connections (kvStore c) !! connectionID).

(** Modelled from the spec: [get_client_state(client_id)], a point lookup
    in the light-client store. *)
Definition GetClientState (clientID : string) : M (option ClientState) :=
  gets (fun c => clientStates (kvStore c) !! clientID).

(** Modelled from the spec: [get_next_sequence_send], "not found" when the
    channel was never opened. *)
Definition GetNextSequenceSend (portID channelID : string) : M (option Z) :=
  gets (fun c => nextSequenceSend (kvStore c) !! (portID, channelID)).

(** Modelled from the spec: [set_next_sequence_send]. *)
Definition SetNextSequenceSend (portID channelID : string) (sequence : Z) : M unit :=
  modifyStore (fun s =>
    mkKVStore (channels s) (connections s) (clientStates s)
              (<[(portID, channelID) := sequence]> (nextSequenceSend s))
              (nextSequenceRecv s) (packetCommitments s)
              (packetAcknowledgements s)).

(** Modelled from the spec: [get_next_sequence_recv], "not found" when the
    channel was never opened. *)
Definition GetNextSequenceRecv (portID channelID : string) : M (option Z) :=
  gets (fun c => nextSequenceRecv (kvStore c) !! (portID, channelID)).

(** Modelled from the spec: [set_next_sequence_recv]. *)
Definition SetNextSequenceRecv (portID channelID : string) (sequence : Z) : M unit :=
  modifyStore (fun s =>
    mkKVStore (channels s) (connections s) (clientStates s)
              (nextSequenceSend s)
              (<[(portID, channelID) := sequence]> (nextSequenceRecv s))
              (packetCommitments s) (packetAcknowledgements s)).

(** Modelled from the spec: [get_packet_commitment] "returns empty/absent
    if none": the stored bytes, or nil (the empty list). *)
Definition GetPacketCommitment (portID channelID : string) (sequence : Z)
  : M (list Byte.byte) :=
  gets (fun c =>
    match packetCommitments (kvStore c) !! (portID, channelID, sequence) with
    | Some bz => bz
    | None => []
    end).

(** Modelled from the spec: [set_packet_commitment]. *)
Definition SetPacketCommitment (portID channelID : string) (sequence : Z)
    (commitmentHash : list Byte.byte) : M unit :=
  modifyStore (fun s =>
    mkKVStore (channels s) (connections s) (clientStates s)
              (nextSequenceSend s) (nextSequenceRecv s)
              (<[(portID, channelID, sequence) := commitmentHash]> (packetCommitments s))
              (packetAcknowledgements s)).

(** Modelled from the spec: [delete_packet_commitment]; deleting an
    absent key is a no-op. *)
Definition deletePacketCommitment (portID channelID : string) (sequence : Z) : M unit :=
  modifyStore (fun s =>
    mkKVStore (channels s) (connections s) (clientStates s)
              (nextSequenceSend s) (nextSequenceRecv s)
              (delete (portID, channelID, sequence) (packetCommitments s))
              (packetAcknowledgements s)).

(** Modelled from the spec: [set_packet_acknowledgement]. *)
Definition SetPacketAcknowledgement (portID channelID : string) (sequence : Z)
    (ackHash : list Byte.byte) : M unit :=
  modifyStore (fun s =>
    mkKVStore (channels s) (connections s) (clientStates s)
              (nextSequenceSend s) (nextSequenceRecv s)
              (packetCommitments s)
              (<[(portID, channelID, sequence) := ackHash]> (packetAcknowledgements s))).

(** Modelled from the spec: [Packet.ValidateBasic] is declared outside
    [packet.go]; section 4.3 gives it as "non-empty identifiers,
    sequence > 0, data non-empty", failing with InvalidPacket. *)
Definition ValidateBasic (packet : Packet) : option Error :=
  if bool_decide (GetSourcePort packet = "")
     || bool_decide (GetSourceChannel packet = "")
     || bool_decide (GetDestPort packet = "")
     || bool_decide (GetDestChannel packet = "")
     || (GetSequence packet <=? 0)
     || bool_decide (GetData packet = [])
  then Some ErrInvalidPacket
  else None.

(** ** The keeper *)

Section Keeper.

(** Modelled from the spec: [types.CommitPacket], the digest of packet
    data (section 4.1); declared outside [packet.go]. *)
Variable CommitPacket : list Byte.byte -> list Byte.byte.

(** Modelled from the spec: [types.CommitAcknowledgement], the digest of
    an acknowledgement, which may be absent (section 4.1). *)
Variable CommitAcknowledgement : option (list Byte.byte) -> list Byte.byte.

(** Modelled from the spec: the connection keeper's proof verifier
    (section 6), an external collaborator giving pass ([None]) or an
    error for a call, as a function of the block height and the store
    it reads. *)
Variable verifier : Z -> KVStore -> VerifierCall -> option Error.

(** A verification call: recorded in the trace, answered by the
    verifier. *)
Definition verify (call : VerifierCall) : M unit :=
  fun c =>
    let c' := mkContext (BlockHeight c) (kvStore c) (call :: verifierCalls c) in
    match verifier (BlockHeight c) (kvStore c) call with
    | None => (Ok tt, c')
    | Some e => (Err e, c')
    end.

(** The connection keeper's three verification functions, declared
    outside [packet.go]. *)
Definition VerifyPacketCommitment connectionEnd proofHeight proof
    portID channelID sequence commitmentBytes : M unit :=
  verify (CallVerifyPacketCommitment connectionEnd proofHeight proof
            portID channelID sequence commitmentBytes).

Definition VerifyPacketAcknowledgement connectionEnd proofHeight proof
    portID channelID sequence acknowledgement : M unit :=
  verify (CallVerifyPacketAcknowledgement connectionEnd proofHeight proof
            portID channelID sequence acknowledgement).

Definition VerifyNextSequenceRecv connectionEnd proofHeight proof
    portID channelID nextSequenceRecv : M unit :=
  verify (CallVerifyNextSequenceRecv connectionEnd proofHeight proof
            portID channelID nextSequenceRecv).

(** [acknowledgement.GetBytes()] on an interface value that may be nil. *)
Definition GetBytes (acknowledgement : option (list Byte.byte)) : M (list Byte.byte) :=
  match acknowledgement with
  | Some bz => ret bz
  | None => panic PanicNilDereference
  end.

(** [SendPacket] ([packet.go], lines 20-107): structural validation,
    then the channel, counterparty, connection, client, timeout and
    sequence checks, then the two writes. *)
Definition SendPacket (packet : Packet) : M unit :=
  run failWith (ValidateBasic packet);
  do found <- GetChannel (GetSourcePort packet) (GetSourceChannel packet);
  do channel <- orFail found ErrChannelNotFound;
  run failIf (bool_decide (State channel = exported.CLOSED)) ErrInvalidChannelState;
  run failIf (bool_decide (GetDestPort packet <> PortID (Counterparty channel)))
             ErrInvalidPacket;
  run failIf (bool_decide (GetDestChannel packet <> ChannelID (Counterparty channel)))
             ErrInvalidPacket;
  do hop <- index0 (ConnectionHops channel);
  do found <- GetConnection hop;
  do connectionEnd <- orFail found ErrConnectionNotFound;
  run failIf (bool_decide (GetState connectionEnd = connectionexported.UNINITIALIZED))
             ErrInvalidConnectionState;
  do found <- GetClientState (GetClientID connectionEnd);
  do clientState <- orFail found ErrConsensusStateNotFound;
  run failIf (GetTimeoutHeight packet <=? GetLatestHeight clientState) ErrPacketTimeout;
  do found <- GetNextSequenceSend (GetSourcePort packet) (GetSourceChannel packet);
  do nextSequenceSend <- orFail found ErrSequenceSendNotFound;
  run failIf (bool_decide (GetSequence packet <> nextSequenceSend)) ErrInvalidPacket;
  run SetNextSequenceSend (GetSourcePort packet) (GetSourceChannel packet)
                          (wrap64 (nextSequenceSend + 1));
  run SetPacketCommitment (GetSourcePort packet) (GetSourceChannel packet)
                          (GetSequence packet) (CommitPacket (GetData packet));
  ret tt.

(** [RecvPacket] (lines 111-173): the channel is looked up under the
    packet's destination identifiers. *)
Definition RecvPacket (packet : Packet) (proof : list Byte.byte) (proofHeight : Z)
  : M Packet :=
  do found <- GetChannel (GetDestPort packet) (GetDestChannel packet);
  do channel <- orFail found ErrChannelNotFound;
  run failIf (bool_decide (State channel <> exported.OPEN)) ErrInvalidChannelState;
  run failIf (bool_decide (GetSourcePort packet <> PortID (Counterparty channel)))
             ErrInvalidPacket;
  run failIf (bool_decide (GetSourceChannel packet <> ChannelID (Counterparty channel)))
             ErrInvalidPacket;
  do hop <- index0 (ConnectionHops channel);
  do found <- GetConnection hop;
  do connectionEnd <- orFail found ErrConnectionNotFound;
  run failIf (bool_decide (GetState connectionEnd <> connectionexported.OPEN))
             ErrInvalidConnectionState;
  do height <- gets BlockHeight;
  run failIf (GetTimeoutHeight packet <=? uint64_of_int64 height) ErrPacketTimeout;
  run VerifyPacketCommitment connectionEnd proofHeight proof
        (GetSourcePort packet) (GetSourceChannel packet) (GetSequence packet)
        (CommitPacket (GetData packet));
  ret packet.

(** [PacketExecuted] (lines 178-224): the acknowledgement is written
    (lines 196-201) before the receive sequence of an ORDERED channel is
    loaded and compared (lines 203-219). *)
Definition PacketExecuted (packet : Packet)
    (acknowledgement : option (list Byte.byte)) : M unit :=
  do found <- GetChannel (GetDestPort packet) (GetDestChannel packet);
  do channel <- orFail found ErrChannelNotFound;
  run failIf (bool_decide (State channel <> exported.OPEN)) ErrInvalidChannelState;
  run (if bool_decide (acknowledgement <> None)
          || bool_decide (Ordering channel = exported.UNORDERED)
       then SetPacketAcknowledgement
              (GetDestPort packet) (GetDestChannel packet) (GetSequence packet)
              (CommitAcknowledgement acknowledgement)
       else ret tt);
  run (if bool_decide (Ordering channel = exported.ORDERED)
       then
         do found <- GetNextSequenceRecv (GetDestPort packet) (GetDestChannel packet);
         do nextSequenceRecv <- orFail found ErrSequenceReceiveNotFound;
         run failIf (bool_decide (GetSequence packet <> nextSequenceRecv))
                    ErrInvalidPacket;
         SetNextSequenceRecv (GetDestPort packet) (GetDestChannel packet)
                             (wrap64 (nextSequenceRecv + 1))
       else ret tt);
  ret tt.

(** [AcknowledgePacket] (lines 231-295). The counterparty test compares
    the packet's source identifiers, as the code does (lines 254-266). *)
Definition AcknowledgePacket (packet : Packet)
    (acknowledgement : option (list Byte.byte))
    (proof : list Byte.byte) (proofHeight : Z) : M Packet :=
  do found <- GetChannel (GetSourcePort packet) (GetSourceChannel packet);
  do channel <- orFail found ErrChannelNotFound;
  run failIf (bool_decide (State channel <> exported.OPEN)) ErrInvalidChannelState;
  run failIf (bool_decide (GetSourcePort packet <> PortID (Counterparty channel)))
             ErrInvalidPacket;
  run failIf (bool_decide (GetSourceChannel packet <> ChannelID (Counterparty channel)))
             ErrInvalidPacket;
  do hop <- index0 (ConnectionHops channel);
  do found <- GetConnection hop;
  do connectionEnd <- orFail found ErrConnectionNotFound;
  run failIf (bool_decide (GetState connectionEnd <> connectionexported.OPEN))
             ErrInvalidConnectionState;
  do commitment <- GetPacketCommitment (GetSourcePort packet) (GetSourceChannel packet)
                                       (GetSequence packet);
  run failIf (negb (bytes_Equal commitment (CommitPacket (GetData packet))))
             ErrInvalidPacket;
  do ackBytes <- GetBytes acknowledgement;
  run VerifyPacketAcknowledgement connectionEnd proofHeight proof
        (GetDestPort packet) (GetDestChannel packet) (GetSequence packet) ackBytes;
  ret packet.

(** [AcknowledgementExecuted] (lines 299-301). *)
Definition AcknowledgementExecuted (packet : Packet) : M unit :=
  deletePacketCommitment (GetSourcePort packet) (GetSourceChannel packet)
                         (GetSequence packet).

(** [CleanupPacket] (lines 313-399): the connection is only required to
    exist (lines 358-361); the switch on the ordering panics in its
    default case (lines 389-390). *)
Definition CleanupPacket (packet : Packet) (proof : list Byte.byte)
    (proofHeight nextSequenceRecv : Z) (acknowledgement : list Byte.byte)
  : M Packet :=
  do found <- GetChannel (GetSourcePort packet) (GetSourceChannel packet);
  do channel <- orFail found ErrChannelNotFound;
  run failIf (bool_decide (State channel <> exported.OPEN)) ErrInvalidChannelState;
  run failIf (bool_decide (GetDestPort packet <> PortID (Counterparty channel)))
             ErrInvalidPacket;
  run failIf (bool_decide (GetDestChannel packet <> ChannelID (Counterparty channel)))
             ErrInvalidPacket;
  do hop <- index0 (ConnectionHops channel);
  do found <- GetConnection hop;
  do connectionEnd <- orFail found ErrConnectionNotFound;
  run failIf (nextSequenceRecv <=? GetSequence packet) ErrInvalidPacket;
  do commitment <- GetPacketCommitment (GetSourcePort packet) (GetSourceChannel packet)
                                       (GetSequence packet);
  run failIf (negb (bytes_Equal commitment (CommitPacket (GetData packet))))
             ErrInvalidPacket;
  run match Ordering channel with
      | exported.ORDERED =>
          VerifyNextSequenceRecv connectionEnd proofHeight proof
            (GetDestPort packet) (GetDestChannel packet) nextSequenceRecv
      | exported.UNORDERED =>
          VerifyPacketAcknowledgement connectionEnd proofHeight proof
            (GetDestPort packet) (GetDestChannel packet) (GetSequence packet)
            acknowledgement
      | _ => panic PanicInvalidChannelOrdering
      end;
  run deletePacketCommitment (GetSourcePort packet) (GetSourceChannel packet)
                             (GetSequence packet);
  ret packet.

(** A call of one of the keeper's six entry points. *)
Inductive Call :=
| DoSendPacket (packet : Packet)
| DoRecvPacket (packet : Packet) (proof : list Byte.byte) (proofHeight : Z)
| DoPacketExecuted (packet : Packet) (acknowledgement : option (list Byte.byte))
| DoAcknowledgePacket (packet : Packet)
    (acknowledgement : option (list Byte.byte))
    (proof : list Byte.byte) (proofHeight : Z)
| DoAcknowledgementExecuted (packet : Packet)
| DoCleanupPacket (packet : Packet) (proof : list Byte.byte)
    (proofHeight nextSequenceRecv : Z) (acknowledgement : list Byte.byte).

Definition call (k : Call) : M unit :=
  match k with
  | DoSendPacket p => SendPacket p
  | DoRecvPacket p proof proofHeight =>
      run RecvPacket p proof proofHeight; ret tt
  | DoPacketExecuted p ack => PacketExecuted p ack
  | DoAcknowledgePacket p ack proof proofHeight =>
      run AcknowledgePacket p ack proof proofHeight; ret tt
  | DoAcknowledgementExecuted p => AcknowledgementExecuted p
  | DoCleanupPacket p proof proofHeight nextSequenceRecv ack =>
      run CleanupPacket p proof proofHeight nextSequenceRecv ack; ret tt
  end.

(** The packets that SendPacket accepted, in order, when the calls are
    made one after another on the same context. *)
Fixpoint sent (calls : list Call) (c : Context) : list Packet :=
  match calls with
  | [] => []
  | k :: rest =>
      let r := call k c in
      match k, fst r with
      | DoSendPacket p, Ok _ => p :: sent rest (snd r)
      | _, _ => sent rest (snd r)
      end
  end.

(** The sequences sent on one channel. *)
Definition sentOn (portID channelID : string) (calls : list Call) (c : Context)
  : list Z :=
  GetSequence <$>
    filter (fun p => (GetSourcePort p, GetSourceChannel p) = (portID, channelID))
           (sent calls c).

End Keeper.

(** ** Preconditions, as the operations check them *)

(** SendPacket's channel, counterparty, connection and client checks
    pass: the source channel exists and is not CLOSED, the packet's
    destination is the channel's counterparty, the first-hop connection
    exists and is not UNINITIALIZED, and its client state exists. *)
Record send_prechecks (s : KVStore) (p : Packet)
    (ch : Channel) (conn : ConnectionEnd) (cs : ClientState) : Prop := {
  send_channel_found :
    channels s !! (GetSourcePort p, GetSourceChannel p) = Some ch;
  send_channel_not_closed : State ch <> exported.CLOSED;
  send_dest_port : GetDestPort p = PortID (Counterparty ch);
  send_dest_channel : GetDestChannel p = ChannelID (Counterparty ch);
  send_connection_found :
    exists hop, head (ConnectionHops ch) = Some hop /\ connections s !! hop = Some conn;
  send_connection_initialized : GetState conn <> connectionexported.UNINITIALIZED;
  send_client_found : clientStates s !! GetClientID conn = Some cs
}.

(** The checks AcknowledgePacket makes before it looks at the stored
    commitment: the source channel exists and is OPEN, the packet's
    source identifiers equal the channel's counterparty (the comparison
    the code makes), and the first-hop connection exists and is OPEN. *)
Record ack_prechecks (s : KVStore) (p : Packet)
    (ch : Channel) (conn : ConnectionEnd) : Prop := {
  ack_channel_found :
    channels s !! (GetSourcePort p, GetSourceChannel p) = Some ch;
  ack_channel_open : State ch = exported.OPEN;
  ack_source_port : GetSourcePort p = PortID (Counterparty ch);
  ack_source_channel : GetSourceChannel p = ChannelID (Counterparty ch);
  ack_connection_found :
    exists hop, head (ConnectionHops ch) = Some hop /\ connections s !! hop = Some conn;
  ack_connection_open : GetState conn = connectionexported.OPEN
}.

(** The lookups CleanupPacket makes before its first InvalidPacket test:
    the source channel exists and is OPEN and the first-hop connection
    exists, in any state. *)
Record cleanup_lookups (s : KVStore) (p : Packet)
    (ch : Channel) (conn : ConnectionEnd) : Prop := {
  cleanup_channel_found :
    channels s !! (GetSourcePort p, GetSourceChannel p) = Some ch;
  cleanup_channel_open : State ch = exported.OPEN;
  cleanup_connection_found :
    exists hop, head (ConnectionHops ch) = Some hop /\ connections s !! hop = Some conn
}.

(** CleanupPacket reaches its switch on the channel ordering: the lookups
    succeed, the packet's destination is the channel's counterparty, the
    claimed receive sequence is past the packet's, and the stored
    commitment is the packet's. *)
Record cleanup_prechecks (CommitPacket : list Byte.byte -> list Byte.byte)
    (s : KVStore) (p : Packet) (nextSequenceRecv : Z)
    (ch : Channel) (conn : ConnectionEnd) : Prop := {
  cleanup_found : cleanup_lookups s p ch conn;
  cleanup_dest_port : GetDestPort p = PortID (Counterparty ch);
  cleanup_dest_channel : GetDestChannel p = ChannelID (Counterparty ch);
  cleanup_received : GetSequence p < nextSequenceRecv;
  cleanup_commitment :
    packetCommitments s !! (GetSourcePort p, GetSourceChannel p, GetSequence p)
    = Some (CommitPacket (GetData p))
}.

(** The packet's destination identifiers name a channel whose
    counterparty is the packet's source end: the channel the packet
    belongs to. *)
Definition names_packet_channel (s : KVStore) (p : Packet) : Prop :=
  exists ch,
    channels s !! (GetDestPort p, GetDestChannel p) = Some ch
    /\ GetSourcePort p = PortID (Counterparty ch)
    /\ GetSourceChannel p = ChannelID (Counterparty ch).

(** The store with another receive-sequence keyspace. *)
Definition withNextSequenceRecv (m : gmap (string * string) Z) (c : Context)
  : Context :=
  mkContext (BlockHeight c)
    (mkKVStore (channels (kvStore c)) (connections (kvStore c))
               (clientStates (kvStore c)) (nextSequenceSend (kvStore c))
               m (packetCommitments (kvStore c))
               (packetAcknowledgements (kvStore c)))
    (verifierCalls c).

(** The store after a successful SendPacket of [p]: the send counter of
    the packet's source channel holds the successor of the packet's
    sequence (as a uint64) and the packet's commitment is stored. *)
Definition sentStore (CommitPacket : list Byte.byte -> list Byte.byte)
    (p : Packet) (s : KVStore) : KVStore :=
  mkKVStore (channels s) (connections s) (clientStates s)
    (<[(GetSourcePort p, GetSourceChannel p) := wrap64 (GetSequence p + 1)]>
       (nextSequenceSend s))
    (nextSequenceRecv s)
    (<[(GetSourcePort p, GetSourceChannel p, GetSequence p)
       := CommitPacket (GetData p)]> (packetCommitments s))
    (packetAcknowledgements s).

(** The store once the packet [p] is resolved: its commitment under
    (source port, source channel, sequence) is deleted. *)
Definition resolvedStore (p : Packet) (s : KVStore) : KVStore :=
  mkKVStore (channels s) (connections s) (clientStates s)
    (nextSequenceSend s) (nextSequenceRecv s)
    (delete (GetSourcePort p, GetSourceChannel p, GetSequence p)
            (packetCommitments s))
    (packetAcknowledgements s).

(** The verification CleanupPacket asks for, by channel ordering; none
    for an ordering that is neither ORDERED nor UNORDERED. *)
Definition cleanupCall (ch : Channel) (conn : ConnectionEnd) (p : Packet)
    (proof : list Byte.byte) (proofHeight nextSequenceRecv : Z)
    (acknowledgement : list Byte.byte) : option VerifierCall :=
  match Ordering ch with
  | exported.ORDERED =>
      Some (CallVerifyNextSequenceRecv conn proofHeight proof
              (GetDestPort p) (GetDestChannel p) nextSequenceRecv)
  | exported.UNORDERED =>
      Some (CallVerifyPacketAcknowledgement conn proofHeight proof
              (GetDestPort p) (GetDestChannel p) (GetSequence p) acknowledgement)
  | exported.OtherOrder _ => None
  end.

(** The store with the digest of [ack] written as the acknowledgement of
    the packet [p] on the receiving chain. *)
Definition acknowledgedStore
    (CommitAcknowledgement : option (list Byte.byte) -> list Byte.byte)
    (p : Packet) (ack : option (list Byte.byte)) (s : KVStore) : KVStore :=
  mkKVStore (channels s) (connections s) (clientStates s)
    (nextSequenceSend s) (nextSequenceRecv s) (packetCommitments s)
    (<[(GetDestPort p, GetDestChannel p, GetSequence p)
       := CommitAcknowledgement ack]> (packetAcknowledgements s)).

(** Two packets with the same identity on the sending chain. *)
Definition same_packet_key (p' p : Packet) : Prop :=
  GetSourcePort p' = GetSourcePort p
  /\ GetSourceChannel p' = GetSourceChannel p
  /\ GetSequence p' = GetSequence p.

(** One of the lookups and checks that AcknowledgePacket makes before it
    compares the stored commitment fails, those before it having passed;
    the index is the outcome AcknowledgePacket has then: the error of
    that check, or the panic of [ConnectionHops[0]] on a channel record
    without connection hops. *)
Inductive ack_precheck_fails (s : KVStore) (p : Packet)
  : Outcome Packet -> Prop :=
| ack_channel_missing :
    channels s !! (GetSourcePort p, GetSourceChannel p) = None ->
    ack_precheck_fails s p (Err ErrChannelNotFound)
| ack_channel_not_open (ch : Channel) :
    channels s !! (GetSourcePort p, GetSourceChannel p) = Some ch ->
    State ch <> exported.OPEN ->
    ack_precheck_fails s p (Err ErrInvalidChannelState)
| ack_counterparty_mismatch (ch : Channel) :
    channels s !! (GetSourcePort p, GetSourceChannel p) = Some ch ->
    State ch = exported.OPEN ->
    GetSourcePort p <> PortID (Counterparty ch)
    \/ GetSourceChannel p <> ChannelID (Counterparty ch) ->
    ack_precheck_fails s p (Err ErrInvalidPacket)
| ack_no_connection_hops (ch : Channel) :
    channels s !! (GetSourcePort p, GetSourceChannel p) = Some ch ->
    State ch = exported.OPEN ->
    GetSourcePort p = PortID (Counterparty ch) ->
    GetSourceChannel p = ChannelID (Counterparty ch) ->
    ConnectionHops ch = [] ->
    ack_precheck_fails s p (Panic PanicIndexOutOfRange)
| ack_connection_missing (ch : Channel) (hop : string) :
    channels s !! (GetSourcePort p, GetSourceChannel p) = Some ch ->
    State ch = exported.OPEN ->
    GetSourcePort p = PortID (Counterparty ch) ->
    GetSourceChannel p = ChannelID (Counterparty ch) ->
    head (ConnectionHops ch) = Some hop ->
    connections s !! hop = None ->
    ack_precheck_fails s p (Err ErrConnectionNotFound)
| ack_connection_not_open (ch : Channel) (hop : string) (conn : ConnectionEnd) :
    channels s !! (GetSourcePort p, GetSourceChannel p) = Some ch ->
    State ch = exported.OPEN ->
    GetSourcePort p = PortID (Counterparty ch) ->
    GetSourceChannel p = ChannelID (Counterparty ch) ->
    head (ConnectionHops ch) = Some hop ->
    connections s !! hop = Some conn ->
    GetState conn <> connectionexported.OPEN ->
    ack_precheck_fails s p (Err ErrInvalidConnectionState).

(** The same for CleanupPacket, which compares the packet's destination
    with the counterparty, does not look at the connection's state, and
    requires the claimed receive sequence to be past the packet's. *)
Inductive cleanup_precheck_fails (s : KVStore) (p : Packet)
    (nextSequenceRecv : Z) : Outcome Packet -> Prop :=
| cleanup_channel_missing :
    channels s !! (GetSourcePort p, GetSourceChannel p) = None ->
    cleanup_precheck_fails s p nextSequenceRecv (Err ErrChannelNotFound)
| cleanup_channel_not_open (ch : Channel) :
    channels s !! (GetSourcePort p, GetSourceChannel p) = Some ch ->
    State ch <> exported.OPEN ->
    cleanup_precheck_fails s p nextSequenceRecv (Err ErrInvalidChannelState)
| cleanup_counterparty_mismatch (ch : Channel) :
    channels s !! (GetSourcePort p, GetSourceChannel p) = Some ch ->
    State ch = exported.OPEN ->
    GetDestPort p <> PortID (Counterparty ch)
    \/ GetDestChannel p <> ChannelID (Counterparty ch) ->
    cleanup_precheck_fails s p nextSequenceRecv (Err ErrInvalidPacket)
| cleanup_no_connection_hops (ch : Channel) :
    channels s !! (GetSourcePort p, GetSourceChannel p) = Some ch ->
    State ch = exported.OPEN ->
    GetDestPort p = PortID (Counterparty ch) ->
    GetDestChannel p = ChannelID (Counterparty ch) ->
    ConnectionHops ch = [] ->
    cleanup_precheck_fails s p nextSequenceRecv (Panic PanicIndexOutOfRange)
| cleanup_connection_missing (ch : Channel) (hop : string) :
    channels s !! (GetSourcePort p, GetSourceChannel p) = Some ch ->
    State ch = exported.OPEN ->
    GetDestPort p = PortID (Counterparty ch) ->
    GetDestChannel p = ChannelID (Counterparty ch) ->
    head (ConnectionHops ch) = Some hop ->
    connections s !! hop = None ->
    cleanup_precheck_fails s p nextSequenceRecv (Err ErrConnectionNotFound)
| cleanup_not_received (ch : Channel) (hop : string) (conn : ConnectionEnd) :
    channels s !! (GetSourcePort p, GetSourceChannel p) = Some ch ->
    State ch = exported.OPEN ->
    GetDestPort p = PortID (Counterparty ch) ->
    GetDestChannel p = ChannelID (Counterparty ch) ->
    head (ConnectionHops ch) = Some hop ->
    connections s !! hop = Some conn ->
    nextSequenceRecv <= GetSequence p ->
    cleanup_precheck_fails s p nextSequenceRecv (Err ErrInvalidPacket).

(** In the context [c] the packet [p] is treated as one that was never
    sent or is already resolved: whatever the acknowledgement, proof and
    claimed receive sequence, neither AcknowledgePacket nor CleanupPacket
    returns the packet; each returns InvalidPacket as soon as the lookups
    and checks it makes before comparing the stored commitment pass, and
    the outcome of the first of them that fails otherwise; in every case
    the context comes back as it was given. *)
Definition rejected_as_unsent
    (CommitPacket : list Byte.byte -> list Byte.byte)
    (verifier : Z -> KVStore -> VerifierCall -> option Error)
    (c : Context) (p : Packet) : Prop :=
  forall (ack : option (list Byte.byte)) (proof : list Byte.byte)
         (proofHeight nextSequenceRecv : Z) (ackBytes : list Byte.byte),
    let acknowledge :=
      AcknowledgePacket CommitPacket verifier p ack proof proofHeight c in
    let cleanup :=
      CleanupPacket CommitPacket verifier p proof proofHeight
                    nextSequenceRecv ackBytes c in
    (forall q, fst acknowledge <> Ok q)
    /\ (forall q, fst cleanup <> Ok q)
    /\ (forall ch conn,
          ack_prechecks (kvStore c) p ch conn ->
          acknowledge = (Err ErrInvalidPacket, c))
    /\ (forall ch conn,
          cleanup_lookups (kvStore c) p ch conn ->
          cleanup = (Err ErrInvalidPacket, c))
    /\ (forall o,
          ack_precheck_fails (kvStore c) p o -> acknowledge = (o, c))
    /\ (forall o,
          cleanup_precheck_fails (kvStore c) p nextSequenceRecv o ->
          cleanup = (o, c))
    /\ snd acknowledge = c
    /\ snd cleanup = c.

(** The send counter of a channel, when stored, is a uint64 and is either
    0 or past [lo]. *)
Definition counter_past (portID channelID : string) (lo : Z) (c : Context) : Prop :=
  forall n, nextSequenceSend (kvStore c) !! (portID, channelID) = Some n ->
            0 <= n < U64_MOD /\ (n = 0 \/ lo < n).

(** ** Test fixtures

    Stand-ins for the collaborators and a small store, used to run the
    keeper on concrete inputs. *)

Module fixture.

(** A stand-in digest: injective and never empty. *)
Definition commitPacket (data : list Byte.byte) : list Byte.byte :=
  Byte.x01 :: data.

Definition commitAcknowledgement (ack : option (list Byte.byte))
  : list Byte.byte :=
  match ack with
  | None => [Byte.x00]
  | Some bz => Byte.x02 :: bz
  end.

(** A verifier that accepts every proof, and one that rejects every
    proof. *)
Definition acceptAll : Z -> KVStore -> VerifierCall -> option Error :=
  fun _ _ _ => None.

Definition rejectAll : Z -> KVStore -> VerifierCall -> option Error :=
  fun _ _ _ => Some ErrCommitmentVerificationFailed.

Definition testPort : string := "transfer".
Definition testChannel : string := "channel-0".
Definition testConnection : string := "connection-0".
Definition testClient : string := "client-0".

(** Both ends of the test channel are named alike, as on two chains that
    each opened their first channel on the same port. *)
Definition channelEnd (st : exported.State) (ord : exported.Order) : Channel :=
  mkChannel st ord (mkCounterparty testPort testChannel) [testConnection].

Definition store (ch : Channel) (connState : connectionexported.State)
    (nextSend nextRecv : option Z)
    (commitments : gmap (string * string * Z) (list Byte.byte)) : KVStore :=
  mkKVStore
    {[ (testPort, testChannel) := ch ]}
    {[ testConnection := mkConnectionEnd connState testClient ]}
    {[ testClient := mkClientState 10 ]}
    (from_option (fun n => {[ (testPort, testChannel) := n ]}) ∅ nextSend)
    (from_option (fun n => {[ (testPort, testChannel) := n ]}) ∅ nextRecv)
    commitments
    ∅.

Definition emptyStore : KVStore := mkKVStore ∅ ∅ ∅ ∅ ∅ ∅ ∅.

Definition context (s : KVStore) : Context := mkContext 20 s [].

Definition packetData : list Byte.byte := [Byte.x68; Byte.x69].

(** A packet on the test channel with timeout height 100. *)
Definition packet (sequence : Z) : Packet :=
  mkPacket sequence 100 testPort testChannel testPort testChannel packetData.

(** A store on which the packet with sequence 3 has been sent: its
    commitment is stored. *)
Definition sentContext (ord : exported.Order)
    (connState : connectionexported.State) : Context :=
  context (store (channelEnd exported.OPEN ord) connState (Some 4) None
                 {[ (testPort, testChannel, 3) := commitPacket packetData ]}).

End fixture.

(** ** Further preconditions and store shapes *)

(** The checks RecvPacket makes before it compares heights: the
    destination channel exists and is OPEN, the packet's source is the
    channel's counterparty, and the first-hop connection exists and is
    OPEN. *)
Record recv_prechecks (s : KVStore) (p : Packet)
    (ch : Channel) (conn : ConnectionEnd) : Prop := {
  recv_channel_found :
    channels s !! (GetDestPort p, GetDestChannel p) = Some ch;
  recv_channel_open : State ch = exported.OPEN;
  recv_source_port : GetSourcePort p = PortID (Counterparty ch);
  recv_source_channel : GetSourceChannel p = ChannelID (Counterparty ch);
  recv_connection_found :
    exists hop, head (ConnectionHops ch) = Some hop /\ connections s !! hop = Some conn;
  recv_connection_open : GetState conn = connectionexported.OPEN
}.

(** The packet a call is about. *)
Definition callPacket (k : Call) : Packet :=
  match k with
  | DoSendPacket p => p
  | DoRecvPacket p _ _ => p
  | DoPacketExecuted p _ => p
  | DoAcknowledgePacket p _ _ _ => p
  | DoAcknowledgementExecuted p => p
  | DoCleanupPacket p _ _ _ _ => p
  end.

(** Every stored commitment belongs to a sequence that the send counter
    of its channel has already passed. *)
Definition commitments_claimed (s : KVStore) : Prop :=
  forall portID channelID sequence bz,
    packetCommitments s !! (portID, channelID, sequence) = Some bz ->
    exists n, nextSequenceSend s !! (portID, channelID) = Some n
              /\ sequence < n.

(** ** Executions, one call after another *)

Section KeeperTraces.

Variable CommitPacket : list Byte.byte -> list Byte.byte.
Variable CommitAcknowledgement : option (list Byte.byte) -> list Byte.byte.
Variable verifier : Z -> KVStore -> VerifierCall -> option Error.

(** The packets that PacketExecuted accepted, in order, when the calls
    are made one after another on the same context. *)
Fixpoint executed (calls : list Call) (c : Context) : list Packet :=
  match calls with
  | [] => []
  | k :: rest =>
      let r := call CommitPacket CommitAcknowledgement verifier k c in
      match k, fst r with
      | DoPacketExecuted p _, Ok _ => p :: executed rest (snd r)
      | _, _ => executed rest (snd r)
      end
  end.

(** The sequences executed on one receiving channel. *)
Definition executedOn (portID channelID : string) (calls : list Call)
    (c : Context) : list Z :=
  GetSequence <$>
    filter (fun p => (GetDestPort p, GetDestChannel p) = (portID, channelID))
           (executed calls c).

End KeeperTraces.

(** ** Staking: unbonding delegations and redelegations

    The delegation types of the staking module: entry constructors,
    maturity, and the entry lists of unbonding delegations and
    redelegations. Addresses are byte strings, [sdk.Int] is an integer,
    [sdk.Dec] is carried as its underlying integer, heights are [int64],
    and a [time.Time] is taken as its instant on the time line. *)

Module staking.

Definition AccAddress : Type := list Byte.byte.
Definition ValAddress : Type := list Byte.byte.
Definition Time : Type := Z.

(** [t.After(u)]: the instant [t] is after [u]. *)
Definition After (t u : Time) : bool := u <? t.

(** The slice expression [s[:i]]; [None] is the run-time panic "slice
    bounds out of range". A slice may be extended up to its capacity, at
    least its length; an index between the two is taken as out of range
    here, where the second operand of [RemoveEntry] panics in any case. *)
Definition sliceTo {A} (s : list A) (i : Z) : option (list A) :=
  if (0 <=? i) && (i <=? Z.of_nat (length s))
  then Some (take (Z.to_nat i) s)
  else None.

(** The slice expression [s[i:]]. *)
Definition sliceFrom {A} (s : list A) (i : Z) : option (list A) :=
  if (0 <=? i) && (i <=? Z.of_nat (length s))
  then Some (drop (Z.to_nat i) s)
  else None.

Module UnbondingDelegationEntry.

Record t := mk {
  CreationHeight : Z;
  CompletionTime : Time;
  InitialBalance : Z;
  Balance : Z
}.

(** [IsMature]: the completion time is not after the current time. *)
Definition IsMature (e : t) (currentTime : Time) : bool :=
  negb (After (CompletionTime e) currentTime).

End UnbondingDelegationEntry.

Definition NewUnbondingDelegationEntry (creationHeight : Z)
    (completionTime : Time) (balance : Z) : UnbondingDelegationEntry.t :=
  UnbondingDelegationEntry.mk creationHeight completionTime balance balance.

Module UnbondingDelegation.

Record t := mk {
  DelegatorAddress : AccAddress;
  ValidatorAddress : ValAddress;
  Entries : list UnbondingDelegationEntry.t
}.

(** [AddEntry]: append a new entry. *)
Definition AddEntry (d : t) (creationHeight : Z) (minTime : Time) (balance : Z)
  : t :=
  let entry := NewUnbondingDelegationEntry creationHeight minTime balance in
  mk (DelegatorAddress d) (ValidatorAddress d) (Entries d ++ [entry]).

(** [RemoveEntry]:
    [d.Entries = append(d.Entries[:i], d.Entries[i+1:]...)]. *)
Definition RemoveEntry (d : t) (i : Z) : option t :=
  match sliceTo (Entries d) i with
  | None => None
  | Some front =>
      match sliceFrom (Entries d) (i + 1) with
      | None => None
      | Some back =>
          Some (mk (DelegatorAddress d) (ValidatorAddress d) (front ++ back))
      end
  end.

End UnbondingDelegation.

Definition NewUnbondingDelegation (delegatorAddr : AccAddress)
    (validatorAddr : ValAddress) (creationHeight : Z) (minTime : Time)
    (balance : Z) : UnbondingDelegation.t :=
  UnbondingDelegation.mk delegatorAddr validatorAddr
    [NewUnbondingDelegationEntry creationHeight minTime balance].

Module RedelegationEntry.

Record t := mk {
  CreationHeight : Z;
  CompletionTime : Time;
  InitialBalance : Z;
  SharesDst : Z
}.

Definition IsMature (e : t) (currentTime : Time) : bool :=
  negb (After (CompletionTime e) currentTime).

End RedelegationEntry.

Definition NewRedelegationEntry (creationHeight : Z) (completionTime : Time)
    (balance : Z) (sharesDst : Z) : RedelegationEntry.t :=
  RedelegationEntry.mk creationHeight completionTime balance sharesDst.

Module Redelegation.

Record t := mk {
  DelegatorAddress : AccAddress;
  ValidatorSrcAddress : ValAddress;
  ValidatorDstAddress : ValAddress;
  Entries : list RedelegationEntry.t
}.

Definition AddEntry (d : t) (creationHeight : Z) (minTime : Time)
    (balance : Z) (sharesDst : Z) : t :=
  let entry := NewRedelegationEntry creationHeight minTime balance sharesDst in
  mk (DelegatorAddress d) (ValidatorSrcAddress d) (ValidatorDstAddress d)
     (Entries d ++ [entry]).

Definition RemoveEntry (d : t) (i : Z) : option t :=
  match sliceTo (Entries d) i with
  | None => None
  | Some front =>
      match sliceFrom (Entries d) (i + 1) with
      | None => None
      | Some back =>
          Some (mk (DelegatorAddress d) (ValidatorSrcAddress d)
                   (ValidatorDstAddress d) (front ++ back))
      end
  end.

End Redelegation.

Definition NewRedelegation (delegatorAddr : AccAddress)
    (validatorSrcAddr validatorDstAddr : ValAddress) (creationHeight : Z)
    (minTime : Time) (balance : Z) (sharesDst : Z) : Redelegation.t :=
  Redelegation.mk delegatorAddr validatorSrcAddr validatorDstAddr
    [NewRedelegationEntry creationHeight minTime balance sharesDst].

End staking.

(** ** Further fixtures *)

Module fixture_more.

Import fixture.

(** A context whose block height, 200, is past the timeout height of the
    fixture packets. *)
Definition lateContext (s : KVStore) : Context := mkContext 200 s [].

(** A store whose only channel has no connection hops. *)
Definition noHopsStore : KVStore :=
  mkKVStore
    {[ (testPort, testChannel)
       := mkChannel exported.OPEN exported.ORDERED
            (mkCounterparty testPort testChannel) [] ]}
    ∅ ∅ {[ (testPort, testChannel) := 1 ]} ∅ ∅ ∅.

(** An unbonding delegation with entries completing at times 10, 20, 30. *)
Definition unbonding : staking.UnbondingDelegation.t :=
  staking.UnbondingDelegation.mk [Byte.x01] [Byte.x02]
    [staking.NewUnbondingDelegationEntry 1 10 100;
     staking.NewUnbondingDelegationEntry 2 20 200;
     staking.NewUnbondingDelegationEntry 3 30 300].

(** A redelegation with entries completing at times 10 and 20. *)
Definition redelegation : staking.Redelegation.t :=
  staking.Redelegation.mk [Byte.x01] [Byte.x02] [Byte.x03]
    [staking.NewRedelegationEntry 1 10 100 7;
     staking.NewRedelegationEntry 2 20 200 8].

End fixture_more.

(** ** Symbolic execution of keeper methods *)

(** One equation per monadic primitive: what [bind] does after it. *)
Lemma bind_ret {A B} (a : A) (k : A -> M B) c : bind (ret a) k c = k a c.
Proof. reflexivity. Qed.

Lemma bind_throw {A B} (e : Error) (k : A -> M B) c :
  bind (throw e) k c = (Err e, c).
Proof. reflexivity. Qed.

Lemma bind_panic {A B} (r : PanicReason) (k : A -> M B) c :
  bind (panic r) k c = (Panic r, c).
Proof. reflexivity. Qed.

Lemma bind_gets {A B} (f : Context -> A) (k : A -> M B) c :
  bind (gets f) k c = k (f c) c.
Proof. reflexivity. Qed.

Lemma bind_modifyStore {B} (f : KVStore -> KVStore) (k : unit -> M B) c :
  bind (modifyStore f) k c
  = k tt (mkContext (BlockHeight c) (f (kvStore c)) (verifierCalls c)).
Proof. reflexivity. Qed.

Lemma bind_failIf {B} (b : bool) (e : Error) (k : unit -> M B) c :
  bind (failIf b e) k c = if b then (Err e, c) else k tt c.
Proof. destruct b; reflexivity. Qed.

Lemma bind_failWith {B} (o : option Error) (k : unit -> M B) c :
  bind (failWith o) k c
  = match o with Some e => (Err e, c) | None => k tt c end.
Proof. destruct o; reflexivity. Qed.

Lemma bind_orFail {A B} (o : option A) (e : Error) (k : A -> M B) c :
  bind (orFail o e) k c
  = match o with Some a => k a c | None => (Err e, c) end.
Proof. destruct o; reflexivity. Qed.

Lemma bind_index0 {B} (hops : list string) (k : string -> M B) c :
  bind (index0 hops) k c
  = match head hops with
    | Some h => k h c
    | None => (Panic PanicIndexOutOfRange, c)
    end.
Proof. destruct hops; reflexivity. Qed.

Lemma bind_GetBytes {B} (ack : option (list Byte.byte))
    (k : list Byte.byte -> M B) c :
  bind (GetBytes ack) k c
  = match ack with
    | Some bz => k bz c
    | None => (Panic PanicNilDereference, c)
    end.
Proof. destruct ack; reflexivity. Qed.

Lemma bind_verify {B} verifier (call : VerifierCall) (k : unit -> M B) c :
  bind (verify verifier call) k c
  = let c' := mkContext (BlockHeight c) (kvStore c) (call :: verifierCalls c) in
    match verifier (BlockHeight c) (kvStore c) call with
    | None => k tt c'
    | Some e => (Err e, c')
    end.
Proof.
  unfold bind, verify. simpl.
  destruct (verifier (BlockHeight c) (kvStore c) call); reflexivity.
Qed.

Lemma bind_if {A B} (b : bool) (m1 m2 : M A) (k : A -> M B) c :
  bind (if b then m1 else m2) k c = if b then bind m1 k c else bind m2 k c.
Proof. destruct b; reflexivity. Qed.

Lemma bind_bind {A B C} (m : M A) (f : A -> M B) (k : B -> M C) c :
  bind (bind m f) k c = bind m (fun a => bind (f a) k) c.
Proof.
  unfold bind. destruct (m c) as [[a|e|r] c']; reflexivity.
Qed.

Lemma ret_run {A} (a : A) c : ret a c = (Ok a, c).
Proof. reflexivity. Qed.

Lemma modifyStore_run (f : KVStore -> KVStore) c :
  modifyStore f c
  = (Ok tt, mkContext (BlockHeight c) (f (kvStore c)) (verifierCalls c)).
Proof. reflexivity. Qed.

(** Unfold a keeper method and execute it up to the lookups and tests
    it branches on. *)
Ltac keeper_unfold :=
  unfold SendPacket, RecvPacket, PacketExecuted, AcknowledgePacket,
         AcknowledgementExecuted, CleanupPacket,
         VerifyPacketCommitment, VerifyPacketAcknowledgement,
         VerifyNextSequenceRecv,
         GetChannel, GetConnection, GetClientState,
         GetNextSequenceSend, SetNextSequenceSend,
         GetNextSequenceRecv, SetNextSequenceRecv,
         GetPacketCommitment, SetPacketCommitment, deletePacketCommitment,
         SetPacketAcknowledgement.

Ltac keeper_step :=
  first
    [ rewrite bind_bind | rewrite bind_if
    | rewrite bind_gets | rewrite bind_modifyStore
    | rewrite bind_failIf | rewrite bind_failWith | rewrite bind_orFail
    | rewrite bind_index0 | rewrite bind_GetBytes | rewrite bind_verify
    | rewrite bind_ret | rewrite bind_throw | rewrite bind_panic
    | rewrite ret_run | rewrite modifyStore_run ];
  cbn beta iota zeta delta
    [BlockHeight kvStore verifierCalls channels connections clientStates
     nextSequenceSend nextSequenceRecv packetCommitments
     packetAcknowledgements].

Lemma bytes_Equal_refl (a : list Byte.byte) : bytes_Equal a a = true.
Proof. apply bool_decide_eq_true. reflexivity. Qed.

(** Use what the hypotheses say about a lookup or a test. *)
Ltac keeper_known :=
  match goal with
  | H : @lookup _ _ _ _ ?k ?m = _ |- context [@lookup _ _ _ _ ?k ?m] => rewrite H
  | H : head ?l = _ |- context [head ?l] => rewrite H
  | H : ValidateBasic ?p = _ |- context [ValidateBasic ?p] => rewrite H
  | H : Z.leb ?a ?b = _ |- context [Z.leb ?a ?b] => rewrite H
  | H : bytes_Equal ?a ?b = _ |- context [bytes_Equal ?a ?b] => rewrite H
  | |- context [bytes_Equal ?a ?a] => rewrite (bytes_Equal_refl a)
  | H : Ordering ?ch = _ |- context [Ordering ?ch] => rewrite H
  | |- context [bool_decide ?P] =>
      first
        [ rewrite (bool_decide_eq_true_2 P)
            by (first [assumption | congruence])
        | rewrite (bool_decide_eq_false_2 P)
            by (first [assumption | congruence | tauto]) ]
  end;
  cbn beta iota zeta delta [negb orb andb].

(** Branch on the next lookup or test. *)
Ltac keeper_split :=
  first [ case_bool_decide | case_match ];
  cbn beta iota zeta delta
    [negb orb andb BlockHeight kvStore verifierCalls channels connections
     clientStates nextSequenceSend nextSequenceRecv packetCommitments
     packetAcknowledgements] in *.

Ltac keeper_run := keeper_unfold; repeat first [ keeper_step | keeper_known ].

Ltac keeper_cases :=
  keeper_unfold; repeat first [ keeper_step | keeper_known | keeper_split ].

Section KeeperFacts.

Variable CommitPacket : list Byte.byte -> list Byte.byte.
Variable CommitAcknowledgement : option (list Byte.byte) -> list Byte.byte.
Variable verifier : Z -> KVStore -> VerifierCall -> option Error.

Local Abbreviation SendPacket := (SendPacket CommitPacket).
Local Abbreviation RecvPacket := (RecvPacket CommitPacket verifier).
Local Abbreviation PacketExecuted := (PacketExecuted CommitAcknowledgement).
Local Abbreviation AcknowledgePacket := (AcknowledgePacket CommitPacket verifier).
Local Abbreviation CleanupPacket := (CleanupPacket CommitPacket verifier).
Local Abbreviation call := (call CommitPacket CommitAcknowledgement verifier).
Local Abbreviation sent := (sent CommitPacket CommitAcknowledgement verifier).
Local Abbreviation sentOn := (sentOn CommitPacket CommitAcknowledgement verifier).
Local Abbreviation rejected_as_unsent := (rejected_as_unsent CommitPacket verifier).

(** C6. When SendPacket's structural, channel, counterparty and
    connection checks pass and the client state exists, a packet whose
    timeout height the client's latest height has reached is rejected
    with PacketTimeout, and the context (the store with it) is returned
    exactly as it was: no counter increment, no commitment write. *)
Theorem SendPacket_timeout_precedence (c : Context) (p : Packet)
    (ch : Channel) (conn : ConnectionEnd) (cs : ClientState) :
  ValidateBasic p = None ->
  send_prechecks (kvStore c) p ch conn cs ->
  GetLatestHeight cs >= GetTimeoutHeight p ->
  SendPacket p c = (Err ErrPacketTimeout, c).
Proof.
  intros Hvb [Hch Hst Hdp Hdc (hop & Hhop & Hconn) Hcst Hcl] Hto.
  assert ((GetTimeoutHeight p <=? GetLatestHeight cs) = true) as Hle
    by (apply Z.leb_le; lia).
  keeper_run. reflexivity.
Qed.

(** *** Rejected calls and the store *)

(** SendPacket writes only after its last check: a rejected call returns
    the context it was given. *)
Lemma SendPacket_rejected_unchanged (c c' : Context) (p : Packet) (e : Error) :
  SendPacket p c = (Err e, c') -> c' = c.
Proof.
  keeper_cases; intros Hrun; inversion Hrun; reflexivity.
Qed.

(** RecvPacket writes nothing to the store, whatever it returns. *)
Lemma RecvPacket_store (c : Context) (p : Packet) proof proofHeight :
  kvStore (snd (RecvPacket p proof proofHeight c)) = kvStore c.
Proof. keeper_cases; reflexivity. Qed.

(** AcknowledgePacket writes nothing to the store, whatever it returns. *)
Lemma AcknowledgePacket_store (c : Context) (p : Packet) ack proof proofHeight :
  kvStore (snd (AcknowledgePacket p ack proof proofHeight c)) = kvStore c.
Proof. keeper_cases; reflexivity. Qed.

(** CleanupPacket deletes the commitment only after its last check. *)
Lemma CleanupPacket_rejected_store (c : Context) (p : Packet)
    proof proofHeight nextSequenceRecv ack :
  fst (CleanupPacket p proof proofHeight nextSequenceRecv ack c) <> Ok p ->
  kvStore (snd (CleanupPacket p proof proofHeight nextSequenceRecv ack c))
  = kvStore c.
Proof. keeper_cases; simpl; intros Hrun; congruence. Qed.

(** C8. RecvPacket and AcknowledgePacket never mutate the store: whether
    they return the packet, an error or panic, every keyspace (sequence
    counters, packet commitments, packet acknowledgements, and the
    registry) is after the call what it was before. *)
Theorem RecvPacket_AcknowledgePacket_read_only
    (c : Context) (p : Packet) ack proof proofHeight :
  (kvStore (snd (RecvPacket p proof proofHeight c)) = kvStore c
   /\ forall q, fst (RecvPacket p proof proofHeight c) = Ok q -> q = p)
  /\ (kvStore (snd (AcknowledgePacket p ack proof proofHeight c)) = kvStore c
      /\ forall q, fst (AcknowledgePacket p ack proof proofHeight c) = Ok q -> q = p).
Proof.
  split; split.
  - apply RecvPacket_store.
  - intros q. keeper_cases; simpl; congruence.
  - apply AcknowledgePacket_store.
  - intros q. keeper_cases; simpl; congruence.
Qed.

(** *** Channel state *)

Lemma RecvPacket_channel_not_open (c : Context) (p : Packet) (ch : Channel)
    proof proofHeight :
  channels (kvStore c) !! (GetDestPort p, GetDestChannel p) = Some ch ->
  State ch <> exported.OPEN ->
  RecvPacket p proof proofHeight c = (Err ErrInvalidChannelState, c).
Proof. intros Hch Hst. keeper_run. reflexivity. Qed.

Lemma PacketExecuted_channel_not_open (c : Context) (p : Packet) (ch : Channel) ack :
  channels (kvStore c) !! (GetDestPort p, GetDestChannel p) = Some ch ->
  State ch <> exported.OPEN ->
  PacketExecuted p ack c = (Err ErrInvalidChannelState, c).
Proof. intros Hch Hst. keeper_run. reflexivity. Qed.

Lemma AcknowledgePacket_channel_not_open (c : Context) (p : Packet) (ch : Channel)
    ack proof proofHeight :
  channels (kvStore c) !! (GetSourcePort p, GetSourceChannel p) = Some ch ->
  State ch <> exported.OPEN ->
  AcknowledgePacket p ack proof proofHeight c = (Err ErrInvalidChannelState, c).
Proof. intros Hch Hst. keeper_run. reflexivity. Qed.

Lemma CleanupPacket_channel_not_open (c : Context) (p : Packet) (ch : Channel)
    proof proofHeight nextSequenceRecv ack :
  channels (kvStore c) !! (GetSourcePort p, GetSourceChannel p) = Some ch ->
  State ch <> exported.OPEN ->
  CleanupPacket p proof proofHeight nextSequenceRecv ack c
  = (Err ErrInvalidChannelState, c).
Proof. intros Hch Hst. keeper_run. reflexivity. Qed.

Lemma SendPacket_channel_closed (c : Context) (p : Packet) (ch : Channel) :
  channels (kvStore c) !! (GetSourcePort p, GetSourceChannel p) = Some ch ->
  State ch = exported.CLOSED ->
  SendPacket p c = (Err (default ErrInvalidChannelState (ValidateBasic p)), c).
Proof.
  intros Hch Hst. keeper_run.
  destruct (ValidateBasic p); reflexivity.
Qed.

(** C4, as the code has it. RecvPacket, PacketExecuted, AcknowledgePacket
    and CleanupPacket reject with InvalidChannelState, leaving the context
    untouched, whenever the channel record they look up (under the
    packet's destination identifiers for the first two, under its source
    identifiers for the last two) is in a state other than OPEN; nothing
    is asked of the channel the operation does not look up. SendPacket
    rejects a CLOSED channel (with InvalidChannelState, or with the
    structural validation error when that check fails first) and has no
    test that excludes INIT or TRYOPEN: on a channel that is not CLOSED
    it does not return InvalidChannelState for a valid packet, and it
    accepts the packet when its other checks pass. *)
Theorem channel_state_gate (c : Context) (p : Packet)
    ack proof proofHeight nextSequenceRecv ackBytes :
  (forall chd,
     channels (kvStore c) !! (GetDestPort p, GetDestChannel p) = Some chd ->
     State chd <> exported.OPEN ->
     RecvPacket p proof proofHeight c = (Err ErrInvalidChannelState, c)
     /\ PacketExecuted p ack c = (Err ErrInvalidChannelState, c))
  /\ (forall chs,
       channels (kvStore c) !! (GetSourcePort p, GetSourceChannel p) = Some chs ->
       (State chs <> exported.OPEN ->
        AcknowledgePacket p ack proof proofHeight c
        = (Err ErrInvalidChannelState, c)
        /\ CleanupPacket p proof proofHeight nextSequenceRecv ackBytes c
           = (Err ErrInvalidChannelState, c))
       /\ (State chs = exported.CLOSED ->
           exists e, SendPacket p c = (Err e, c)
                     /\ (ValidateBasic p = None -> e = ErrInvalidChannelState))
       /\ (State chs <> exported.CLOSED ->
           (ValidateBasic p = None ->
            fst (SendPacket p c) <> Err ErrInvalidChannelState)
           /\ (forall conn cs,
                 ValidateBasic p = None ->
                 send_prechecks (kvStore c) p chs conn cs ->
                 GetLatestHeight cs < GetTimeoutHeight p ->
                 nextSequenceSend (kvStore c)
                 !! (GetSourcePort p, GetSourceChannel p)
                 = Some (GetSequence p) ->
                 fst (SendPacket p c) = Ok tt))).
Proof.
  split.
  - intros chd Hd Hst. split.
    + eapply RecvPacket_channel_not_open; eassumption.
    + eapply PacketExecuted_channel_not_open; eassumption.
  - intros chs Hs. split; [|split].
    + intros Hst. split.
      * eapply AcknowledgePacket_channel_not_open; eassumption.
      * eapply CleanupPacket_channel_not_open; eassumption.
    + intros Hst. eexists. split.
      * eapply SendPacket_channel_closed; eassumption.
      * intros ->. reflexivity.
    + intros Hst. split.
      * intros Hvb. keeper_cases; simpl; congruence.
      * intros conn cs Hvb [Hch _ Hdp Hdc (hop & Hhop & Hconn) Hcst Hcl] Hto Hseq.
        assert ((GetTimeoutHeight p <=? GetLatestHeight cs) = false) as Hle
          by (apply Z.leb_gt; lia).
        keeper_run. reflexivity.
Qed.

(** *** Receive-side sequencing *)

Lemma wrap64_succ (n : Z) : 0 <= n < MaxUint64 -> wrap64 (n + 1) = n + 1.
Proof.
  unfold wrap64, MaxUint64, U64_MOD. intros Hn.
  apply Z.mod_small. lia.
Qed.

Lemma wrap64_succ_neq (n : Z) : wrap64 (n + 1) <> n.
Proof.
  unfold wrap64, U64_MOD. intros Heq.
  pose proof (Z.div_mod (n + 1) (2 ^ 64) ltac:(lia)) as Hdm.
  rewrite Heq in Hdm. lia.
Qed.

(** On an ORDERED channel a successful PacketExecuted found the packet's
    sequence in the receive counter and stored its successor, modulo
    2^64. *)
Lemma PacketExecuted_ordered_Ok (c : Context) (p : Packet) (ch : Channel) ack :
  channels (kvStore c) !! (GetDestPort p, GetDestChannel p) = Some ch ->
  Ordering ch = exported.ORDERED ->
  fst (PacketExecuted p ack c) = Ok tt ->
  nextSequenceRecv (kvStore c) !! (GetDestPort p, GetDestChannel p)
  = Some (GetSequence p)
  /\ nextSequenceRecv (kvStore (snd (PacketExecuted p ack c)))
     !! (GetDestPort p, GetDestChannel p)
     = Some (wrap64 (GetSequence p + 1)).
Proof.
  intros Hch Hord. keeper_cases; simpl; try discriminate.
  all: intros _; subst; split; [reflexivity | apply lookup_insert_eq].
Qed.

Lemma PacketExecuted_ordered_in_order (c : Context) (p : Packet) (ch : Channel) ack :
  channels (kvStore c) !! (GetDestPort p, GetDestChannel p) = Some ch ->
  State ch = exported.OPEN ->
  Ordering ch = exported.ORDERED ->
  nextSequenceRecv (kvStore c) !! (GetDestPort p, GetDestChannel p)
  = Some (GetSequence p) ->
  fst (PacketExecuted p ack c) = Ok tt.
Proof.
  intros Hch Hst Hord Hseq. keeper_cases; simpl; congruence.
Qed.

Lemma PacketExecuted_ordered_no_counter (c : Context) (p : Packet) (ch : Channel) ack :
  channels (kvStore c) !! (GetDestPort p, GetDestChannel p) = Some ch ->
  State ch = exported.OPEN ->
  Ordering ch = exported.ORDERED ->
  nextSequenceRecv (kvStore c) !! (GetDestPort p, GetDestChannel p) = None ->
  fst (PacketExecuted p ack c) = Err ErrSequenceReceiveNotFound.
Proof.
  intros Hch Hst Hord Hseq. keeper_cases; simpl; congruence.
Qed.

Lemma PacketExecuted_ordered_out_of_order (c : Context) (p : Packet) (ch : Channel)
    ack (n : Z) :
  channels (kvStore c) !! (GetDestPort p, GetDestChannel p) = Some ch ->
  State ch = exported.OPEN ->
  Ordering ch = exported.ORDERED ->
  nextSequenceRecv (kvStore c) !! (GetDestPort p, GetDestChannel p) = Some n ->
  n <> GetSequence p ->
  fst (PacketExecuted p ack c) = Err ErrInvalidPacket.
Proof.
  intros Hch Hst Hord Hseq Hne. keeper_cases; simpl; congruence.
Qed.

(** On an UNORDERED channel PacketExecuted neither reads nor writes the
    receive counters: with any other counter keyspace it returns the same
    outcome and makes the same writes. *)
Lemma PacketExecuted_unordered_counter_free (c : Context) (p : Packet) (ch : Channel)
    (ack : option (list Byte.byte)) (m : gmap (string * string) Z) :
  channels (kvStore c) !! (GetDestPort p, GetDestChannel p) = Some ch ->
  Ordering ch = exported.UNORDERED ->
  nextSequenceRecv (kvStore (snd (PacketExecuted p ack c)))
  = nextSequenceRecv (kvStore c)
  /\ PacketExecuted p ack (withNextSequenceRecv m c)
     = (fst (PacketExecuted p ack c),
        withNextSequenceRecv m (snd (PacketExecuted p ack c))).
Proof.
  intros Hch Hord.
  assert (channels (kvStore (withNextSequenceRecv m c))
          !! (GetDestPort p, GetDestChannel p) = Some ch) as Hch' by exact Hch.
  split.
  - keeper_cases; reflexivity.
  - keeper_cases; try reflexivity; congruence.
Qed.

Lemma PacketExecuted_unordered_Ok (c : Context) (p : Packet) (ch : Channel) ack :
  channels (kvStore c) !! (GetDestPort p, GetDestChannel p) = Some ch ->
  State ch = exported.OPEN ->
  Ordering ch = exported.UNORDERED ->
  fst (PacketExecuted p ack c) = Ok tt.
Proof.
  intros Hch Hst Hord. keeper_cases; simpl; congruence.
Qed.

(** C3, as the code has it. For a packet whose destination channel is
    ORDERED: PacketExecuted succeeds only when the packet's sequence is
    the stored next_sequence_recv, and then stores its successor modulo
    2^64 (the successor itself below the largest uint64, 0 at it); once
    the channel-state check has passed, it succeeds when the two are
    equal, rejects any other sequence with InvalidPacket and an absent
    counter with SequenceReceiveNotFound. For an UNORDERED channel no
    sequence condition is imposed (an OPEN channel accepts any sequence)
    and next_sequence_recv is neither read nor written. Whatever the
    ordering, a channel that is not OPEN is rejected with
    InvalidChannelState before the sequence is looked at, and the context
    comes back as it was given. *)
Theorem PacketExecuted_sequencing (c : Context) (p : Packet) (ch : Channel)
    (ack : option (list Byte.byte)) :
  channels (kvStore c) !! (GetDestPort p, GetDestChannel p) = Some ch ->
  let key := (GetDestPort p, GetDestChannel p) in
  let stored := nextSequenceRecv (kvStore c) !! key in
  let r := PacketExecuted p ack c in
  (Ordering ch = exported.ORDERED ->
     (fst r = Ok tt ->
        stored = Some (GetSequence p)
        /\ nextSequenceRecv (kvStore (snd r)) !! key
           = Some (wrap64 (GetSequence p + 1))
        /\ (0 <= GetSequence p < MaxUint64 ->
            nextSequenceRecv (kvStore (snd r)) !! key
            = Some (GetSequence p + 1))
        /\ (GetSequence p = MaxUint64 ->
            nextSequenceRecv (kvStore (snd r)) !! key = Some 0))
     /\ (State ch = exported.OPEN ->
         (stored = Some (GetSequence p) -> fst r = Ok tt)
         /\ (stored = None -> fst r = Err ErrSequenceReceiveNotFound)
         /\ (forall n, stored = Some n -> n <> GetSequence p ->
                       fst r = Err ErrInvalidPacket)))
  /\ (Ordering ch = exported.UNORDERED ->
      (State ch = exported.OPEN -> fst r = Ok tt)
      /\ nextSequenceRecv (kvStore (snd r)) = nextSequenceRecv (kvStore c)
      /\ (forall m, PacketExecuted p ack (withNextSequenceRecv m c)
                    = (fst r, withNextSequenceRecv m (snd r))))
  /\ (State ch <> exported.OPEN -> r = (Err ErrInvalidChannelState, c)).
Proof.
  intros Hch key stored r. split; [|split].
  - intros Hord. split.
    + intros Hok.
      destruct (PacketExecuted_ordered_Ok c p ch ack Hch Hord Hok) as [Hs Hn].
      split; [exact Hs|]. split; [exact Hn|]. split.
      * intros Hrange. subst key r. rewrite Hn. f_equal.
        apply wrap64_succ. exact Hrange.
      * intros Hmax. subst key r. rewrite Hn, Hmax. reflexivity.
    + intros Hst. repeat split.
      * apply PacketExecuted_ordered_in_order with ch; assumption.
      * apply PacketExecuted_ordered_no_counter with ch; assumption.
      * intros n Hn Hne.
        apply PacketExecuted_ordered_out_of_order with ch n; assumption.
  - intros Hord. split.
    + intros Hst. apply PacketExecuted_unordered_Ok with ch; assumption.
    + split.
      * apply (PacketExecuted_unordered_counter_free c p ch ack ∅ Hch Hord).
      * intros m.
        apply (PacketExecuted_unordered_counter_free c p ch ack m Hch Hord).
  - intros Hst. apply PacketExecuted_channel_not_open with ch; assumption.
Qed.

(** PacketExecuted writes the acknowledgement before it checks the
    receive sequence: when it rejects a packet on an OPEN ORDERED channel
    for which an acknowledgement was given, the digest stays written; in
    every other rejected call the store is as it was. *)
Lemma PacketExecuted_rejected_store (c : Context) (p : Packet)
    (ack : option (list Byte.byte)) (e : Error) :
  fst (PacketExecuted p ack c) = Err e ->
  kvStore (snd (PacketExecuted p ack c)) = kvStore c
  \/ (ack <> None
      /\ (exists ch,
            channels (kvStore c) !! (GetDestPort p, GetDestChannel p) = Some ch
            /\ State ch = exported.OPEN /\ Ordering ch = exported.ORDERED)
      /\ kvStore (snd (PacketExecuted p ack c))
         = acknowledgedStore CommitAcknowledgement p ack (kvStore c)).
Proof.
  keeper_cases; simpl; try discriminate; intros _;
    try (left; reflexivity).
  all: right; split; [assumption|]; split; [|reflexivity].
  all: eexists; repeat split; first [reflexivity | assumption].
Qed.

(** *** Send-side sequencing *)

Lemma ValidateBasic_sequence (p : Packet) :
  ValidateBasic p = None -> 0 < GetSequence p.
Proof.
  unfold ValidateBasic.
  destruct (GetSequence p <=? 0) eqn:Hle.
  - rewrite !orb_true_r. simpl. discriminate.
  - intros _. apply Z.leb_gt in Hle. exact Hle.
Qed.

(** A successful SendPacket passed the structural validation and found
    the packet's sequence in the send counter. *)
Lemma SendPacket_Ok_inv (c : Context) (p : Packet) :
  fst (SendPacket p c) = Ok tt ->
  ValidateBasic p = None
  /\ nextSequenceSend (kvStore c) !! (GetSourcePort p, GetSourceChannel p)
     = Some (GetSequence p).
Proof.
  keeper_cases; simpl; try discriminate.
  intros _. split; [reflexivity | congruence].
Qed.

Lemma SendPacket_in_sequence (c : Context) (p : Packet)
    (ch : Channel) (conn : ConnectionEnd) (cs : ClientState) :
  ValidateBasic p = None ->
  send_prechecks (kvStore c) p ch conn cs ->
  GetLatestHeight cs < GetTimeoutHeight p ->
  nextSequenceSend (kvStore c) !! (GetSourcePort p, GetSourceChannel p)
  = Some (GetSequence p) ->
  SendPacket p c
  = (Ok tt, mkContext (BlockHeight c) (sentStore CommitPacket p (kvStore c))
                      (verifierCalls c)).
Proof.
  intros Hvb [Hch Hst Hdp Hdc (hop & Hhop & Hconn) Hcst Hcl] Hto Hseq.
  assert ((GetTimeoutHeight p <=? GetLatestHeight cs) = false) as Hle
    by (apply Z.leb_gt; lia).
  keeper_run. reflexivity.
Qed.

Lemma SendPacket_no_counter (c : Context) (p : Packet)
    (ch : Channel) (conn : ConnectionEnd) (cs : ClientState) :
  ValidateBasic p = None ->
  send_prechecks (kvStore c) p ch conn cs ->
  GetLatestHeight cs < GetTimeoutHeight p ->
  nextSequenceSend (kvStore c) !! (GetSourcePort p, GetSourceChannel p) = None ->
  SendPacket p c = (Err ErrSequenceSendNotFound, c).
Proof.
  intros Hvb [Hch Hst Hdp Hdc (hop & Hhop & Hconn) Hcst Hcl] Hto Hseq.
  assert ((GetTimeoutHeight p <=? GetLatestHeight cs) = false) as Hle
    by (apply Z.leb_gt; lia).
  keeper_run. reflexivity.
Qed.

Lemma SendPacket_out_of_sequence (c : Context) (p : Packet)
    (ch : Channel) (conn : ConnectionEnd) (cs : ClientState) (n : Z) :
  ValidateBasic p = None ->
  send_prechecks (kvStore c) p ch conn cs ->
  GetLatestHeight cs < GetTimeoutHeight p ->
  nextSequenceSend (kvStore c) !! (GetSourcePort p, GetSourceChannel p) = Some n ->
  n <> GetSequence p ->
  SendPacket p c = (Err ErrInvalidPacket, c).
Proof.
  intros Hvb [Hch Hst Hdp Hdc (hop & Hhop & Hconn) Hcst Hcl] Hto Hseq Hne.
  assert ((GetTimeoutHeight p <=? GetLatestHeight cs) = false) as Hle
    by (apply Z.leb_gt; lia).
  keeper_run. reflexivity.
Qed.

(** Once the sequence of [p] has been sent, the send counter of its
    channel no longer holds it: a second SendPacket with that sequence on
    that channel does not succeed. *)
Lemma SendPacket_not_twice (c : Context) (p p' : Packet) :
  GetSourcePort p' = GetSourcePort p ->
  GetSourceChannel p' = GetSourceChannel p ->
  GetSequence p' = GetSequence p ->
  fst (SendPacket p' (mkContext (BlockHeight c)
                                (sentStore CommitPacket p (kvStore c))
                                (verifierCalls c))) <> Ok tt.
Proof.
  intros Hport Hchan Hseq Hok.
  apply SendPacket_Ok_inv in Hok as [_ Hstored].
  cbn [kvStore sentStore nextSequenceSend] in Hstored.
  rewrite Hport, Hchan, Hseq, lookup_insert_eq in Hstored.
  injection Hstored as Hwrap.
  exact (wrap64_succ_neq _ Hwrap).
Qed.

(** *** Calls one after another *)

Lemma SendPacket_Ok_store (c : Context) (p : Packet) :
  fst (SendPacket p c) = Ok tt ->
  kvStore (snd (SendPacket p c)) = sentStore CommitPacket p (kvStore c).
Proof.
  keeper_cases; simpl; try discriminate.
  intros _. subst. reflexivity.
Qed.

(** Only a successful SendPacket writes a send counter. *)
Lemma call_nextSequenceSend (k : Call) (c : Context) :
  (exists p, k = DoSendPacket p /\ fst (call k c) = Ok tt)
  \/ nextSequenceSend (kvStore (snd (call k c))) = nextSequenceSend (kvStore c).
Proof.
  destruct k as [p|p pr h|p ack|p ack pr h|p|p pr h n ack]; unfold call.
  - destruct (SendPacket p c) as [[[]|e|r] c'] eqn:Hrun.
    + left. exists p. split; reflexivity.
    + right. apply SendPacket_rejected_unchanged in Hrun. subst. reflexivity.
    + right. revert Hrun. keeper_cases; intros Hrun; inversion Hrun; reflexivity.
  - right. keeper_cases; reflexivity.
  - right. keeper_cases; reflexivity.
  - right. keeper_cases; reflexivity.
  - right. reflexivity.
  - right. keeper_cases; reflexivity.
Qed.

Lemma SendPacket_Ok_counter_changes (c : Context) (p : Packet) :
  fst (SendPacket p c) = Ok tt ->
  nextSequenceSend (kvStore (snd (SendPacket p c)))
  <> nextSequenceSend (kvStore c).
Proof.
  intros Hok Hsame.
  pose proof (SendPacket_Ok_store c p Hok) as Hstore.
  pose proof (SendPacket_Ok_inv c p Hok) as [_ Hseq].
  rewrite Hstore in Hsame. cbn [sentStore nextSequenceSend] in Hsame.
  rewrite <- Hsame, lookup_insert_eq in Hseq.
  injection Hseq as Hwrap. exact (wrap64_succ_neq _ Hwrap).
Qed.

Lemma sent_cons_accepted (p : Packet) (rest : list Call) (c : Context) :
  fst (SendPacket p c) = Ok tt ->
  sent (DoSendPacket p :: rest) c = p :: sent rest (snd (SendPacket p c)).
Proof.
  intros Hok. cbn [sent]. cbv zeta. unfold call at 1 2. rewrite Hok.
  reflexivity.
Qed.

Lemma sent_cons_other (k : Call) (rest : list Call) (c : Context) :
  nextSequenceSend (kvStore (snd (call k c))) = nextSequenceSend (kvStore c) ->
  sent (k :: rest) c = sent rest (snd (call k c)).
Proof.
  intros Hsame. cbn [sent]. cbv zeta.
  destruct k as [p|p pr h|p ack|p ack pr h|p|p pr h n ack]; try reflexivity.
  destruct (fst (call (DoSendPacket p) c)) as [[]|e|r] eqn:Hfst; try reflexivity.
  exfalso. exact (SendPacket_Ok_counter_changes c p Hfst Hsame).
Qed.

Lemma sentOn_increasing (portID channelID : string) (calls : list Call) :
  forall (c : Context) (lo : Z),
    counter_past portID channelID lo c ->
    Forall (Z.lt lo) (sentOn portID channelID calls c)
    /\ StronglySorted Z.lt (sentOn portID channelID calls c).
Proof.
  induction calls as [|k rest IH]; intros c lo Hinv.
  - split; constructor.
  - unfold sentOn.
    destruct (call_nextSequenceSend k c) as [(p & -> & Hok) | Hsame].
    + unfold call in Hok.
      rewrite (sent_cons_accepted p rest c Hok).
      pose proof (SendPacket_Ok_store c p Hok) as Hstore.
      pose proof (SendPacket_Ok_inv c p Hok) as [Hvb Hseq].
      apply ValidateBasic_sequence in Hvb.
      destruct (decide ((GetSourcePort p, GetSourceChannel p)
                        = (portID, channelID))) as [Hkey|Hkey].
      * rewrite filter_cons_True by exact Hkey. rewrite fmap_cons.
        rewrite Hkey in Hseq. destruct (Hinv _ Hseq) as [Hrange Hlo].
        assert (lo < GetSequence p) as Hlt by lia.
        assert (counter_past portID channelID (GetSequence p)
                             (snd (SendPacket p c))) as Hinv'.
        { intros n Hn. rewrite Hstore in Hn.
          cbn [sentStore nextSequenceSend] in Hn.
          rewrite Hkey, lookup_insert_eq in Hn. injection Hn as <-.
          unfold wrap64, U64_MOD in *.
          pose proof (Z.mod_pos_bound (GetSequence p + 1) (2 ^ 64) ltac:(lia)).
          split; [lia|].
          destruct (decide (GetSequence p + 1 = 2 ^ 64)) as [Hmax|Hmax].
          - left. rewrite Hmax. apply Z.mod_same. lia.
          - right. rewrite Z.mod_small by lia. lia. }
        destruct (IH _ _ Hinv') as [Hall Hsorted].
        split.
        -- constructor; [exact Hlt|].
           eapply Forall_impl; [exact Hall|]. intros x Hx. simpl in Hx. lia.
        -- constructor; assumption.
      * rewrite filter_cons_False by exact Hkey.
        apply IH. intros n Hn. apply Hinv. rewrite Hstore in Hn.
        cbn [sentStore nextSequenceSend] in Hn.
        rewrite lookup_insert_ne in Hn by exact Hkey. exact Hn.
    + rewrite (sent_cons_other k rest c Hsame).
      apply IH. intros n Hn. apply Hinv. rewrite <- Hsame. exact Hn.
Qed.

Lemma StronglySorted_lt_NoDup (l : list Z) : StronglySorted Z.lt l -> NoDup l.
Proof.
  induction 1 as [|x l Hsorted IH Hall]; constructor.
  - intros Hin. rewrite Forall_forall in Hall.
    specialize (Hall x Hin). lia.
  - exact IH.
Qed.

(** C1, as the code has it. For a packet that passes the structural
    validation, on a store in which SendPacket's channel, counterparty,
    connection, client and timeout checks pass: SendPacket succeeds exactly
    when the packet's sequence is the stored next_sequence_send; it
    returns SequenceSendNotFound when the counter is absent and
    InvalidPacket on any other sequence, leaving the context untouched.
    On success the counter becomes its old value plus 1 modulo 2^64 (the
    old value plus 1 below the largest uint64), the commitment of the
    packet's data is stored under (source port, source channel, sequence),
    and nothing else changes. A sequence is sent at most once: the next
    SendPacket with that sequence on that channel is rejected, and over any
    series of keeper calls made from a store whose counter is a uint64 the
    sequences sent on the channel are strictly increasing. *)
Theorem SendPacket_sequencing (c : Context) (p : Packet)
    (ch : Channel) (conn : ConnectionEnd) (cs : ClientState) :
  ValidateBasic p = None ->
  send_prechecks (kvStore c) p ch conn cs ->
  GetLatestHeight cs < GetTimeoutHeight p ->
  let key := (GetSourcePort p, GetSourceChannel p) in
  let stored := nextSequenceSend (kvStore c) !! key in
  let c' := snd (SendPacket p c) in
  (fst (SendPacket p c) = Ok tt <-> stored = Some (GetSequence p))
  /\ (stored = None -> SendPacket p c = (Err ErrSequenceSendNotFound, c))
  /\ (forall n, stored = Some n -> n <> GetSequence p ->
                SendPacket p c = (Err ErrInvalidPacket, c))
  /\ (stored = Some (GetSequence p) ->
      kvStore c' = sentStore CommitPacket p (kvStore c)
      /\ nextSequenceSend (kvStore c') !! key = Some (wrap64 (GetSequence p + 1))
      /\ (GetSequence p < MaxUint64 ->
          nextSequenceSend (kvStore c') !! key = Some (GetSequence p + 1))
      /\ packetCommitments (kvStore c')
         !! (GetSourcePort p, GetSourceChannel p, GetSequence p)
         = Some (CommitPacket (GetData p))
      /\ (forall p', GetSourcePort p' = GetSourcePort p ->
                     GetSourceChannel p' = GetSourceChannel p ->
                     GetSequence p' = GetSequence p ->
                     fst (SendPacket p' c') <> Ok tt))
  /\ (forall calls,
        (forall n, stored = Some n -> 0 <= n < U64_MOD) ->
        StronglySorted Z.lt (sentOn (GetSourcePort p) (GetSourceChannel p) calls c)
        /\ NoDup (sentOn (GetSourcePort p) (GetSourceChannel p) calls c)).
Proof.
  intros Hvb Hpre Hto key stored c'.
  assert (stored = Some (GetSequence p) ->
          SendPacket p c
          = (Ok tt, mkContext (BlockHeight c) (sentStore CommitPacket p (kvStore c))
                              (verifierCalls c))) as Hrun.
  { intros Hseq. apply SendPacket_in_sequence with ch conn cs; assumption. }
  split; [|split; [|split; [|split]]].
  - split.
    + intros Hok. apply SendPacket_Ok_inv in Hok as [_ Hseq]. exact Hseq.
    + intros Hseq. rewrite (Hrun Hseq). reflexivity.
  - intros Hnone. apply SendPacket_no_counter with ch conn cs; assumption.
  - intros n Hn Hne.
    apply SendPacket_out_of_sequence with ch conn cs n; assumption.
  - intros Hseq. subst c'. rewrite (Hrun Hseq). cbn [snd kvStore].
    assert (nextSequenceSend (sentStore CommitPacket p (kvStore c)) !! key
            = Some (wrap64 (GetSequence p + 1))) as Hnext
      by apply lookup_insert_eq.
    split; [reflexivity|]. split; [exact Hnext|]. split; [|split].
    + intros Hmax. rewrite Hnext. f_equal. apply wrap64_succ.
      apply ValidateBasic_sequence in Hvb. lia.
    + apply lookup_insert_eq.
    + intros p' Hport Hchan Hs. apply SendPacket_not_twice; assumption.
  - intros calls Hu64.
    assert (counter_past (GetSourcePort p) (GetSourceChannel p) (-1) c) as Hinv.
    { intros n Hn. specialize (Hu64 n Hn). split; [exact Hu64 | lia]. }
    destruct (sentOn_increasing _ _ calls c (-1) Hinv) as [_ Hsorted].
    split; [exact Hsorted | apply StronglySorted_lt_NoDup; exact Hsorted].
Qed.

(** *** Resolution: acknowledgement and clean-up *)

Lemma AcknowledgementExecuted_run (c : Context) (p : Packet) :
  AcknowledgementExecuted p c
  = (Ok tt, mkContext (BlockHeight c) (resolvedStore p (kvStore c))
                      (verifierCalls c)).
Proof. reflexivity. Qed.

(** A successful CleanupPacket returns its packet and has deleted the
    packet's commitment, and nothing else. *)
Lemma CleanupPacket_Ok_store (c : Context) (p q : Packet)
    proof proofHeight nextSequenceRecv ack :
  fst (CleanupPacket p proof proofHeight nextSequenceRecv ack c) = Ok q ->
  q = p
  /\ kvStore (snd (CleanupPacket p proof proofHeight nextSequenceRecv ack c))
     = resolvedStore p (kvStore c).
Proof.
  keeper_cases; simpl; try discriminate.
  all: intros Hq; injection Hq as <-; split; reflexivity.
Qed.

Lemma resolvedStore_commitment (p p' : Packet) (s : KVStore) :
  same_packet_key p' p ->
  packetCommitments (resolvedStore p s)
  !! (GetSourcePort p', GetSourceChannel p', GetSequence p') = None.
Proof.
  intros (-> & -> & ->). apply lookup_delete_eq.
Qed.

(** A failing lookup or check gives its outcome, with the context as it
    was given, whatever the stored commitment. *)
Lemma ack_precheck_fails_run (c : Context) (p : Packet)
    ack proof proofHeight (o : Outcome Packet) :
  ack_precheck_fails (kvStore c) p o ->
  AcknowledgePacket p ack proof proofHeight c = (o, c).
Proof.
  intros [Hch | ch Hch Hst | ch Hch Hst Hcp | ch Hch Hst Hsp Hsc Hhops
          | ch hop Hch Hst Hsp Hsc Hhop Hconn
          | ch hop conn Hch Hst Hsp Hsc Hhop Hconn Hcst].
  - keeper_run. reflexivity.
  - keeper_run. reflexivity.
  - destruct Hcp; keeper_cases; first [reflexivity | contradiction | congruence].
  - assert (head (ConnectionHops ch) = None) as Hhop by (rewrite Hhops; reflexivity).
    keeper_run. reflexivity.
  - keeper_run. reflexivity.
  - keeper_run. reflexivity.
Qed.

Lemma cleanup_precheck_fails_run (c : Context) (p : Packet)
    proof proofHeight nextSequenceRecv ackBytes (o : Outcome Packet) :
  cleanup_precheck_fails (kvStore c) p nextSequenceRecv o ->
  CleanupPacket p proof proofHeight nextSequenceRecv ackBytes c = (o, c).
Proof.
  intros [Hch | ch Hch Hst | ch Hch Hst Hcp | ch Hch Hst Hdp Hdc Hhops
          | ch hop Hch Hst Hdp Hdc Hhop Hconn
          | ch hop conn Hch Hst Hdp Hdc Hhop Hconn Hseq].
  - keeper_run. reflexivity.
  - keeper_run. reflexivity.
  - destruct Hcp; keeper_cases; first [reflexivity | contradiction | congruence].
  - assert (head (ConnectionHops ch) = None) as Hhop by (rewrite Hhops; reflexivity).
    keeper_run. reflexivity.
  - keeper_run. reflexivity.
  - assert ((nextSequenceRecv <=? GetSequence p) = true) as Hle
      by (apply Z.leb_le; exact Hseq).
    keeper_run. reflexivity.
Qed.

(** The cases are all there are: in every store either the lookups and
    checks before the commitment comparison pass, or one of them is the
    first to fail. *)
Lemma ack_prechecks_or_fails (s : KVStore) (p : Packet) :
  (exists ch conn, ack_prechecks s p ch conn)
  \/ (exists o, ack_precheck_fails s p o).
Proof.
  destruct (channels s !! (GetSourcePort p, GetSourceChannel p))
    as [ch|] eqn:Hch; [|right; eexists; apply ack_channel_missing; exact Hch].
  destruct (decide (State ch = exported.OPEN)) as [Hst|Hst];
    [|right; eexists; eapply ack_channel_not_open; eassumption].
  destruct (decide (GetSourcePort p = PortID (Counterparty ch))) as [Hsp|Hsp];
    [|right; eexists; eapply ack_counterparty_mismatch; eauto].
  destruct (decide (GetSourceChannel p = ChannelID (Counterparty ch)))
    as [Hsc|Hsc];
    [|right; eexists; eapply ack_counterparty_mismatch; eauto].
  destruct (ConnectionHops ch) as [|hop hops] eqn:Hhops;
    [right; eexists; eapply ack_no_connection_hops; eassumption|].
  assert (head (ConnectionHops ch) = Some hop) as Hhop
    by (rewrite Hhops; reflexivity).
  destruct (connections s !! hop) as [conn|] eqn:Hconn;
    [|right; eexists; eapply ack_connection_missing; eassumption].
  destruct (decide (GetState conn = connectionexported.OPEN)) as [Hcst|Hcst];
    [|right; eexists; eapply ack_connection_not_open; eassumption].
  left. exists ch, conn. constructor; try assumption.
  exists hop. split; assumption.
Qed.

Lemma cleanup_lookups_or_fails (s : KVStore) (p : Packet) (nextSequenceRecv : Z) :
  (exists ch conn, cleanup_lookups s p ch conn)
  \/ (exists o, cleanup_precheck_fails s p nextSequenceRecv o).
Proof.
  destruct (channels s !! (GetSourcePort p, GetSourceChannel p))
    as [ch|] eqn:Hch; [|right; eexists; apply cleanup_channel_missing; exact Hch].
  destruct (decide (State ch = exported.OPEN)) as [Hst|Hst];
    [|right; eexists; eapply cleanup_channel_not_open; eassumption].
  destruct (decide (GetDestPort p = PortID (Counterparty ch))) as [Hdp|Hdp];
    [|right; eexists; eapply cleanup_counterparty_mismatch; eauto].
  destruct (decide (GetDestChannel p = ChannelID (Counterparty ch)))
    as [Hdc|Hdc];
    [|right; eexists; eapply cleanup_counterparty_mismatch; eauto].
  destruct (ConnectionHops ch) as [|hop hops] eqn:Hhops;
    [right; eexists; eapply cleanup_no_connection_hops; eassumption|].
  assert (head (ConnectionHops ch) = Some hop) as Hhop
    by (rewrite Hhops; reflexivity).
  destruct (connections s !! hop) as [conn|] eqn:Hconn;
    [|right; eexists; eapply cleanup_connection_missing; eassumption].
  left. exists ch, conn. constructor; try assumption.
  exists hop. split; assumption.
Qed.

Section Unsent.

(** Modelled from the spec: a commitment digest has a fixed size
    (section 2, "fixed-size commitment digests"), so it is never the
    empty byte string. *)
Hypothesis CommitPacket_nonempty : forall data, CommitPacket data <> [].

Lemma commitment_mismatch (s : KVStore) (p : Packet) :
  packetCommitments s !! (GetSourcePort p, GetSourceChannel p, GetSequence p)
  <> Some (CommitPacket (GetData p)) ->
  bytes_Equal
    match packetCommitments s
          !! (GetSourcePort p, GetSourceChannel p, GetSequence p) with
    | Some bz => bz
    | None => []
    end
    (CommitPacket (GetData p)) = false.
Proof.
  intros Hne. unfold bytes_Equal. apply bool_decide_eq_false. intros Heq.
  destruct (packetCommitments s
            !! (GetSourcePort p, GetSourceChannel p, GetSequence p))
    as [stored|]; simpl in Heq.
  - apply Hne. rewrite Heq. reflexivity.
  - symmetry in Heq. exact (CommitPacket_nonempty _ Heq).
Qed.

Lemma unsent_rejected (c : Context) (p : Packet) :
  packetCommitments (kvStore c)
  !! (GetSourcePort p, GetSourceChannel p, GetSequence p)
  <> Some (CommitPacket (GetData p)) ->
  rejected_as_unsent c p.
Proof.
  intros Hne ack proof proofHeight nextSequenceRecv ackBytes.
  pose proof (commitment_mismatch (kvStore c) p Hne) as Hcheck.
  repeat apply conj.
  - intros q. keeper_cases; simpl; discriminate.
  - intros q. keeper_cases; simpl; discriminate.
  - intros ch conn [Hch Hst Hsp Hsc (hop & Hhop & Hconn) Hcst].
    keeper_run. reflexivity.
  - intros ch conn [Hch Hst (hop & Hhop & Hconn)].
    keeper_cases; reflexivity.
  - intros o. apply ack_precheck_fails_run.
  - intros o. apply cleanup_precheck_fails_run.
  - keeper_cases; reflexivity.
  - keeper_cases; reflexivity.
Qed.

Lemma CleanupPacket_Ok_lookups (c : Context) (p q : Packet)
    proof proofHeight nextSequenceRecv ack :
  fst (CleanupPacket p proof proofHeight nextSequenceRecv ack c) = Ok q ->
  exists ch conn, cleanup_lookups (kvStore c) p ch conn.
Proof.
  keeper_cases; simpl; try discriminate.
  all: intros _; do 2 eexists; constructor;
    [eassumption | assumption | eexists; split; eassumption].
Qed.

Lemma AcknowledgePacket_Ok_prechecks (c : Context) (p q : Packet)
    ack proof proofHeight :
  fst (AcknowledgePacket p ack proof proofHeight c) = Ok q ->
  exists ch conn, ack_prechecks (kvStore c) p ch conn.
Proof.
  keeper_cases; simpl; try discriminate.
  all: intros _; do 2 eexists; constructor;
    [eassumption | assumption | assumption | assumption
    | eexists; split; eassumption | assumption].
Qed.

(** Deleting a commitment leaves the registry as it was. *)
Lemma cleanup_lookups_resolved (s : KVStore) (p q : Packet) ch conn :
  cleanup_lookups s p ch conn -> cleanup_lookups (resolvedStore q s) p ch conn.
Proof. intros [Hch Hst Hconn]. constructor; assumption. Qed.

Lemma ack_prechecks_resolved (s : KVStore) (p q : Packet) ch conn :
  ack_prechecks s p ch conn -> ack_prechecks (resolvedStore q s) p ch conn.
Proof. intros [Hch Hst Hsp Hsc Hconn Hcst]. constructor; assumption. Qed.

(** C5, as the code has it. Whenever the stored packet_commitment entry
    at (source_port, source_channel, s) is absent or differs from
    commit_packet(packet.data), neither AcknowledgePacket nor
    CleanupPacket returns the packet, and the context comes back as it
    was given: each fails with InvalidPacket once the channel and
    connection lookups and checks that come before the commitment
    comparison have passed, and otherwise has the outcome of the first of
    them that fails: ChannelNotFound, InvalidChannelState, InvalidPacket
    (counterparty mismatch; for CleanupPacket also a claimed receive
    sequence not past the packet's), an index-out-of-range panic on a
    channel record without connection hops, ConnectionNotFound, and for
    AcknowledgePacket InvalidConnectionState; one of these cases always
    applies. Consequently, after AcknowledgementExecuted or a successful
    CleanupPacket has deleted the commitment for s, any later
    AcknowledgePacket or CleanupPacket for the same s is rejected in that
    way; in particular CleanupPacket repeated after a successful
    CleanupPacket, and AcknowledgePacket repeated after a successful
    AcknowledgePacket followed by AcknowledgementExecuted, fail with
    InvalidPacket. *)
Theorem at_most_once_resolution (c : Context) (p : Packet)
    (ack : option (list Byte.byte)) (proof : list Byte.byte)
    (proofHeight nextSequenceRecv : Z) (ackBytes : list Byte.byte) :
  let cleaned :=
    snd (CleanupPacket p proof proofHeight nextSequenceRecv ackBytes c) in
  let acknowledged :=
    snd (AcknowledgementExecuted p
           (snd (AcknowledgePacket p ack proof proofHeight c))) in
  (packetCommitments (kvStore c)
   !! (GetSourcePort p, GetSourceChannel p, GetSequence p)
   <> Some (CommitPacket (GetData p)) ->
   rejected_as_unsent c p)
  /\ (forall p', same_packet_key p' p ->
        rejected_as_unsent (snd (AcknowledgementExecuted p c)) p')
  /\ (fst (CleanupPacket p proof proofHeight nextSequenceRecv ackBytes c) = Ok p ->
      (forall p', same_packet_key p' p -> rejected_as_unsent cleaned p')
      /\ (forall proof' proofHeight' nextSequenceRecv' ackBytes',
            CleanupPacket p proof' proofHeight' nextSequenceRecv' ackBytes' cleaned
            = (Err ErrInvalidPacket, cleaned)))
  /\ (fst (AcknowledgePacket p ack proof proofHeight c) = Ok p ->
      forall ack' proof' proofHeight',
        AcknowledgePacket p ack' proof' proofHeight' acknowledged
        = (Err ErrInvalidPacket, acknowledged))
  /\ ((exists ch conn, ack_prechecks (kvStore c) p ch conn)
      \/ (exists o, ack_precheck_fails (kvStore c) p o))
  /\ ((exists ch conn, cleanup_lookups (kvStore c) p ch conn)
      \/ (exists o, cleanup_precheck_fails (kvStore c) p nextSequenceRecv o)).
Proof.
  intros cleaned acknowledged.
  assert (same_packet_key p p) as Hself by (repeat split; reflexivity).
  split; [|split; [|split; [|split; [|split]]]];
    [| | | |apply ack_prechecks_or_fails|apply cleanup_lookups_or_fails].
  - apply unsent_rejected.
  - intros p' Hkey. apply unsent_rejected.
    rewrite AcknowledgementExecuted_run. cbn [snd kvStore].
    rewrite (resolvedStore_commitment p p' _ Hkey). discriminate.
  - intros Hok.
    destruct (CleanupPacket_Ok_store c p p _ _ _ _ Hok) as [_ Hstore].
    assert (forall p', same_packet_key p' p -> rejected_as_unsent cleaned p')
      as Hrejected.
    { intros p' Hkey. apply unsent_rejected. subst cleaned. rewrite Hstore.
      rewrite (resolvedStore_commitment p p' _ Hkey). discriminate. }
    split; [exact Hrejected|].
    intros proof' proofHeight' nextSequenceRecv' ackBytes'.
    destruct (CleanupPacket_Ok_lookups c p p _ _ _ _ Hok) as (ch & conn & Hlook).
    destruct (Hrejected p Hself None proof' proofHeight' nextSequenceRecv' ackBytes')
      as (_ & _ & _ & Hcleanup & _).
    apply (Hcleanup ch conn). subst cleaned. rewrite Hstore.
    apply cleanup_lookups_resolved. exact Hlook.
  - intros Hok ack' proof' proofHeight'.
    destruct (AcknowledgePacket_Ok_prechecks c p p _ _ _ Hok) as (ch & conn & Hpre).
    assert (kvStore acknowledged = resolvedStore p (kvStore c)) as Hstore.
    { subst acknowledged. rewrite AcknowledgementExecuted_run. cbn [snd kvStore].
      rewrite AcknowledgePacket_store. reflexivity. }
    assert (rejected_as_unsent acknowledged p) as Hrejected.
    { apply unsent_rejected. rewrite Hstore.
      rewrite (resolvedStore_commitment p p _ Hself). discriminate. }
    destruct (Hrejected ack' proof' proofHeight' 0 []) as (_ & _ & Hack & _).
    apply (Hack ch conn). rewrite Hstore.
    apply ack_prechecks_resolved. exact Hpre.
Qed.

End Unsent.

(** *** Receiving on the wrong channel *)

(** C7, as the code has it. When the packet's destination identifiers do
    not name the channel the packet belongs to, RecvPacket fails before
    any proof verification: the context comes back as it was, so the
    trace of verifier calls has not grown. The error is InvalidPacket when
    the identifiers name some other channel that is OPEN, ChannelNotFound
    when they name no channel, and InvalidChannelState when they name a
    channel that is not OPEN. *)
Theorem RecvPacket_wrong_destination (c : Context) (p : Packet)
    (proof : list Byte.byte) (proofHeight : Z) :
  ~ names_packet_channel (kvStore c) p ->
  exists e,
    RecvPacket p proof proofHeight c = (Err e, c)
    /\ verifierCalls (snd (RecvPacket p proof proofHeight c)) = verifierCalls c
    /\ match channels (kvStore c) !! (GetDestPort p, GetDestChannel p) with
       | None => e = ErrChannelNotFound
       | Some ch =>
           if bool_decide (State ch = exported.OPEN)
           then e = ErrInvalidPacket
           else e = ErrInvalidChannelState
       end.
Proof.
  intros Hwrong. unfold names_packet_channel in Hwrong.
  destruct (channels (kvStore c) !! (GetDestPort p, GetDestChannel p))
    as [ch|] eqn:Hch.
  - destruct (decide (State ch = exported.OPEN)) as [Hopen|Hopen].
    + exists ErrInvalidPacket.
      rewrite (bool_decide_eq_true_2 _ Hopen).
      assert (RecvPacket p proof proofHeight c = (Err ErrInvalidPacket, c)) as Hrun.
      { keeper_cases; try reflexivity.
        all: exfalso; apply Hwrong; exists ch;
          repeat split; first [reflexivity | assumption]. }
      rewrite Hrun. repeat split.
    + exists ErrInvalidChannelState.
      rewrite (bool_decide_eq_false_2 _ Hopen).
      rewrite (RecvPacket_channel_not_open c p ch proof proofHeight Hch Hopen).
      repeat split.
  - exists ErrChannelNotFound.
    assert (RecvPacket p proof proofHeight c = (Err ErrChannelNotFound, c)) as Hrun
      by (keeper_run; reflexivity).
    rewrite Hrun. repeat split.
Qed.

(** *** Clean-up: ordering and connection state *)

(** CleanupPacket with its checks passed and its proof accepted: the
    packet comes back, its commitment is deleted, and the one verification
    made is recorded. The state of the connection plays no part. *)
Lemma CleanupPacket_accepted (c : Context) (p : Packet)
    proof proofHeight nextSequenceRecv ack
    (ch : Channel) (conn : ConnectionEnd) (v : VerifierCall) :
  cleanup_prechecks CommitPacket (kvStore c) p nextSequenceRecv ch conn ->
  cleanupCall ch conn p proof proofHeight nextSequenceRecv ack = Some v ->
  verifier (BlockHeight c) (kvStore c) v = None ->
  CleanupPacket p proof proofHeight nextSequenceRecv ack c
  = (Ok p, mkContext (BlockHeight c) (resolvedStore p (kvStore c))
                     (v :: verifierCalls c)).
Proof.
  intros [[Hch Hst (hop & Hhop & Hconn)] Hdp Hdc Hrecv Hcommit] Hcall Hverify.
  assert ((nextSequenceRecv <=? GetSequence p) = false) as Hle
    by (apply Z.leb_gt; lia).
  unfold cleanupCall in Hcall.
  keeper_run.
  destruct (Ordering ch); try discriminate; injection Hcall as <-;
    keeper_run; rewrite Hverify; reflexivity.
Qed.

Lemma CleanupPacket_unknown_ordering (c : Context) (p : Packet)
    proof proofHeight nextSequenceRecv ack
    (ch : Channel) (conn : ConnectionEnd) :
  cleanup_prechecks CommitPacket (kvStore c) p nextSequenceRecv ch conn ->
  Ordering ch <> exported.ORDERED ->
  Ordering ch <> exported.UNORDERED ->
  CleanupPacket p proof proofHeight nextSequenceRecv ack c
  = (Panic PanicInvalidChannelOrdering, c).
Proof.
  intros [[Hch Hst (hop & Hhop & Hconn)] Hdp Hdc Hrecv Hcommit] Ho Hu.
  assert ((nextSequenceRecv <=? GetSequence p) = false) as Hle
    by (apply Z.leb_gt; lia).
  keeper_run.
  destruct (Ordering ch); try congruence. keeper_run. reflexivity.
Qed.

Lemma CleanupPacket_ordering_panic_inv (c : Context) (p : Packet)
    proof proofHeight nextSequenceRecv ack :
  fst (CleanupPacket p proof proofHeight nextSequenceRecv ack c)
  = Panic PanicInvalidChannelOrdering ->
  exists ch,
    channels (kvStore c) !! (GetSourcePort p, GetSourceChannel p) = Some ch
    /\ Ordering ch <> exported.ORDERED
    /\ Ordering ch <> exported.UNORDERED.
Proof.
  keeper_cases; simpl; try discriminate.
  all: intros _; eexists; split; [reflexivity|]; split; congruence.
Qed.

(** C9. When CleanupPacket reaches its switch on a channel whose ordering
    is neither ORDERED nor UNORDERED the call panics: the outcome is not an
    error return, and the store is left as it was. When the ordering of
    the channel it looks up is ORDERED or UNORDERED, that panic cannot
    occur. *)
Theorem CleanupPacket_ordering_invariant (c : Context) (p : Packet)
    (proof : list Byte.byte) (proofHeight nextSequenceRecv : Z)
    (ack : list Byte.byte) :
  let r := CleanupPacket p proof proofHeight nextSequenceRecv ack c in
  (forall ch conn,
     cleanup_prechecks CommitPacket (kvStore c) p nextSequenceRecv ch conn ->
     Ordering ch <> exported.ORDERED ->
     Ordering ch <> exported.UNORDERED ->
     r = (Panic PanicInvalidChannelOrdering, c)
     /\ (forall e, fst r <> Err e))
  /\ ((forall ch,
         channels (kvStore c) !! (GetSourcePort p, GetSourceChannel p) = Some ch ->
         Ordering ch = exported.ORDERED \/ Ordering ch = exported.UNORDERED) ->
      fst r <> Panic PanicInvalidChannelOrdering).
Proof.
  intros r. split.
  - intros ch conn Hpre Ho Hu. subst r.
    rewrite (CleanupPacket_unknown_ordering c p _ _ _ _ ch conn Hpre Ho Hu).
    split; [reflexivity | discriminate].
  - intros Hord Hpanic.
    apply CleanupPacket_ordering_panic_inv in Hpanic as (ch & Hch & Ho & Hu).
    destruct (Hord ch Hch); contradiction.
Qed.



End KeeperFacts.

(** ** Clean-up and the state of the connection *)


(** ** The keeper on concrete stores *)

Module examples.

Import fixture.

(** C4, counterexample. On a channel still in state INIT, with everything
    else in place, SendPacket accepts the packet. *)
Lemma SendPacket_accepts_INIT_channel :
  let ch := channelEnd exported.INIT exported.ORDERED in
  let c := context (store ch connectionexported.OPEN (Some 1) None ∅) in
  channels (kvStore c) !! (GetSourcePort (packet 1), GetSourceChannel (packet 1))
  = Some ch
  /\ State ch <> exported.OPEN
  /\ fst (SendPacket commitPacket (packet 1) c) = Ok tt.
Proof. vm_compute. repeat split; congruence. Qed.

(** Witness for [channel_state_gate]: a CLOSED channel; a packet whose
    destination names a CLOSED channel and whose source names none; and a
    channel in state TRYOPEN, on which SendPacket accepts the packet. *)
Lemma channel_state_gate_witness :
  let ch := channelEnd exported.CLOSED exported.ORDERED in
  let c := context (store ch connectionexported.OPEN (Some 1) (Some 1) ∅) in
  let incoming :=
    mkPacket 1 100 testPort "channel-9" testPort testChannel packetData in
  let tryopen := channelEnd exported.TRYOPEN exported.ORDERED in
  let c2 := context (store tryopen connectionexported.OPEN (Some 1) None ∅) in
  (RecvPacket commitPacket acceptAll (packet 1) [] 5 c
     = (Err ErrInvalidChannelState, c)
   /\ AcknowledgePacket commitPacket acceptAll (packet 1) None [] 5 c
      = (Err ErrInvalidChannelState, c)
   /\ exists e, SendPacket commitPacket (packet 1) c = (Err e, c))
  /\ (channels (kvStore c) !! (GetSourcePort incoming, GetSourceChannel incoming)
      = None
      /\ RecvPacket commitPacket acceptAll incoming [] 5 c
         = (Err ErrInvalidChannelState, c)
      /\ PacketExecuted commitAcknowledgement incoming None c
         = (Err ErrInvalidChannelState, c))
  /\ fst (SendPacket commitPacket (packet 1) c2) = Ok tt.
Proof.
  intros ch c incoming tryopen c2. split; [|split].
  - destruct (channel_state_gate commitPacket commitAcknowledgement acceptAll
                c (packet 1) None [] 5 2 []) as (Hdest & Hsource).
    destruct (Hdest ch eq_refl ltac:(discriminate)) as [Hrecv _].
    destruct (Hsource ch eq_refl) as (Hack & Hsend & _).
    split; [exact Hrecv|].
    split; [apply Hack; discriminate|].
    destruct (Hsend eq_refl) as (e & He & _). exists e. exact He.
  - split; [reflexivity|].
    destruct (channel_state_gate commitPacket commitAcknowledgement acceptAll
                c incoming None [] 5 2 []) as (Hdest & _).
    apply (Hdest ch eq_refl). discriminate.
  - destruct (channel_state_gate commitPacket commitAcknowledgement acceptAll
                c2 (packet 1) None [] 5 2 []) as (_ & Hsource).
    destruct (Hsource tryopen eq_refl) as (_ & _ & Hopen).
    destruct (Hopen ltac:(discriminate)) as [_ Haccepts].
    apply (Haccepts (mkConnectionEnd connectionexported.OPEN testClient)
             (mkClientState 10)).
    + reflexivity.
    + constructor; try reflexivity; try discriminate.
      exists testConnection. split; reflexivity.
    + reflexivity.
    + reflexivity.
Defined.

(** C3, counterexample. With the receive counter of an OPEN ORDERED
    channel at the largest uint64, PacketExecuted accepts that sequence
    and stores 0, not the counter plus 1; and on an ORDERED channel that
    is CLOSED an out-of-order sequence is rejected with
    InvalidChannelState, not InvalidPacket. *)
Lemma PacketExecuted_counter_wraps :
  let c := context (store (channelEnd exported.OPEN exported.ORDERED)
                          connectionexported.OPEN (Some 1) (Some MaxUint64) ∅) in
  let r := PacketExecuted commitAcknowledgement (packet MaxUint64) None c in
  let c2 := context (store (channelEnd exported.CLOSED exported.ORDERED)
                           connectionexported.OPEN (Some 1) (Some 7) ∅) in
  (nextSequenceRecv (kvStore c) !! (testPort, testChannel) = Some MaxUint64
   /\ fst r = Ok tt
   /\ nextSequenceRecv (kvStore (snd r)) !! (testPort, testChannel) = Some 0
   /\ 0 <> MaxUint64 + 1)
  /\ (nextSequenceRecv (kvStore c2) !! (testPort, testChannel) = Some 7
      /\ fst (PacketExecuted commitAcknowledgement (packet 9) None c2)
         = Err ErrInvalidChannelState).
Proof. vm_compute. repeat split; congruence. Qed.

(** Witness for [PacketExecuted_sequencing]: the packet with sequence 7 on
    an OPEN ORDERED channel whose receive counter is 7, and the same
    packet on that channel once CLOSED. *)
Lemma PacketExecuted_sequencing_witness :
  let c := context (store (channelEnd exported.OPEN exported.ORDERED)
                          connectionexported.OPEN (Some 1) (Some 7) ∅) in
  let r := PacketExecuted commitAcknowledgement (packet 7) None c in
  let closed := context (store (channelEnd exported.CLOSED exported.ORDERED)
                               connectionexported.OPEN (Some 1) (Some 7) ∅) in
  fst r = Ok tt
  /\ nextSequenceRecv (kvStore (snd r)) !! (testPort, testChannel) = Some 8
  /\ PacketExecuted commitAcknowledgement (packet 7) None closed
     = (Err ErrInvalidChannelState, closed).
Proof.
  intros c r closed.
  destruct (PacketExecuted_sequencing commitAcknowledgement c (packet 7)
              (channelEnd exported.OPEN exported.ORDERED) None eq_refl)
    as [Hordered _].
  destruct (Hordered eq_refl) as [Hok Hopen].
  destruct (Hopen eq_refl) as (Hin & _ & _).
  pose proof (Hin eq_refl) as Hfst.
  split; [exact Hfst|]. split.
  - destruct (Hok Hfst) as (_ & _ & Hsucc & _).
    apply Hsucc. vm_compute. split; congruence.
  - destruct (PacketExecuted_sequencing commitAcknowledgement closed (packet 7)
                (channelEnd exported.CLOSED exported.ORDERED) None eq_refl)
      as (_ & _ & Hstate).
    apply Hstate. discriminate.
Defined.

(** C2, the failing input. On an OPEN ORDERED channel whose receive
    counter is 7, PacketExecuted with an acknowledgement for the packet
    with sequence 9 returns InvalidPacket, and with no receive counter
    stored it returns SequenceReceiveNotFound; in both cases the
    acknowledgement digest it wrote before the sequence check stays in the
    store, which is no longer the store the call was given. *)
Lemma PacketExecuted_rejected_after_write :
  let ack := Some [Byte.x6f; Byte.x6b] in
  let key := (testPort, testChannel, 9) in
  let c := context (store (channelEnd exported.OPEN exported.ORDERED)
                          connectionexported.OPEN (Some 1) (Some 7) ∅) in
  let r := PacketExecuted commitAcknowledgement (packet 9) ack c in
  let c2 := context (store (channelEnd exported.OPEN exported.ORDERED)
                           connectionexported.OPEN (Some 1) None ∅) in
  let r2 := PacketExecuted commitAcknowledgement (packet 9) ack c2 in
  (fst r = Err ErrInvalidPacket
   /\ packetAcknowledgements (kvStore c) !! key = None
   /\ packetAcknowledgements (kvStore (snd r)) !! key
      = Some (commitAcknowledgement ack)
   /\ kvStore (snd r) <> kvStore c)
  /\ (fst r2 = Err ErrSequenceReceiveNotFound
      /\ packetAcknowledgements (kvStore c2) !! key = None
      /\ packetAcknowledgements (kvStore (snd r2)) !! key
         = Some (commitAcknowledgement ack)
      /\ kvStore (snd r2) <> kvStore c2).
Proof.
  intros ack key c r c2 r2.
  assert (forall (s s' : KVStore) v,
            packetAcknowledgements s !! key = None ->
            packetAcknowledgements s' !! key = Some v -> s' <> s) as Hdiff.
  { intros s s' v Hnone Hsome Heq. rewrite Heq in Hsome. congruence. }
  repeat split; try reflexivity.
  - apply (Hdiff _ _ (commitAcknowledgement ack)); reflexivity.
  - apply (Hdiff _ _ (commitAcknowledgement ack)); reflexivity.
Qed.

(** The fixture store passes SendPacket's channel, counterparty,
    connection and client checks for every packet of the fixture. *)
Lemma fixture_send_prechecks (st : exported.State) (ord : exported.Order)
    (nextSend nextRecv : option Z) (seq : Z) :
  st <> exported.CLOSED ->
  send_prechecks
    (store (channelEnd st ord) connectionexported.OPEN nextSend nextRecv ∅)
    (packet seq) (channelEnd st ord)
    (mkConnectionEnd connectionexported.OPEN testClient) (mkClientState 10).
Proof.
  intros Hst. constructor; try reflexivity; try discriminate.
  - exact Hst.
  - exists testConnection. split; reflexivity.
Qed.

(** C1, counterexample. With the channel, counterparty, connection, client
    and timeout checks passing and the packet's sequence equal to the
    stored counter, SendPacket still rejects a packet without data; and
    with the counter at the largest uint64 a successful SendPacket stores
    0, not the counter plus 1. *)
Lemma SendPacket_sequence_counterexample :
  let ch := channelEnd exported.OPEN exported.ORDERED in
  let conn := mkConnectionEnd connectionexported.OPEN testClient in
  let cs := mkClientState 10 in
  let c := context (store ch connectionexported.OPEN (Some 5) None ∅) in
  let noData := mkPacket 5 100 testPort testChannel testPort testChannel [] in
  let c2 := context (store ch connectionexported.OPEN (Some MaxUint64) None ∅) in
  let r2 := SendPacket commitPacket (packet MaxUint64) c2 in
  (send_prechecks (kvStore c) noData ch conn cs
   /\ GetLatestHeight cs < GetTimeoutHeight noData
   /\ nextSequenceSend (kvStore c) !! (testPort, testChannel)
      = Some (GetSequence noData)
   /\ fst (SendPacket commitPacket noData c) = Err ErrInvalidPacket)
  /\ (nextSequenceSend (kvStore c2) !! (testPort, testChannel) = Some MaxUint64
      /\ fst r2 = Ok tt
      /\ nextSequenceSend (kvStore (snd r2)) !! (testPort, testChannel) = Some 0
      /\ 0 <> MaxUint64 + 1).
Proof.
  intros ch conn cs c noData c2 r2. split.
  - split.
    + constructor; try reflexivity; try discriminate.
      exists testConnection. split; reflexivity.
    + repeat split; reflexivity.
  - vm_compute. repeat split; congruence.
Qed.

(** Witness for [SendPacket_sequencing]: the packet with sequence 5 when
    the send counter is 5. *)
Lemma SendPacket_sequencing_witness :
  let c := context (store (channelEnd exported.OPEN exported.ORDERED)
                          connectionexported.OPEN (Some 5) None ∅) in
  let r := SendPacket commitPacket (packet 5) c in
  fst r = Ok tt
  /\ nextSequenceSend (kvStore (snd r)) !! (testPort, testChannel) = Some 6
  /\ packetCommitments (kvStore (snd r)) !! (testPort, testChannel, 5)
     = Some (commitPacket packetData)
  /\ fst (SendPacket commitPacket (packet 5) (snd r)) <> Ok tt.
Proof.
  intros c r.
  destruct (SendPacket_sequencing commitPacket commitAcknowledgement acceptAll
              c (packet 5) _ _ _ eq_refl
              (fixture_send_prechecks exported.OPEN exported.ORDERED
                 (Some 5) None 5 ltac:(discriminate))
              ltac:(reflexivity))
    as (Hiff & _ & _ & Hsent & _).
  split; [apply Hiff; reflexivity|].
  destruct (Hsent eq_refl) as (_ & _ & Hnext & Hcommit & Honce).
  split; [apply Hnext; reflexivity|].
  split; [exact Hcommit|].
  apply Honce; reflexivity.
Defined.

(** The scenario of the specification: with next_sequence_send at 5,
    sending sequence 5 succeeds and moves the counter to 6; sending 5
    again is rejected with InvalidPacket; sending 6 then succeeds. *)
Example SendPacket_scenario :
  let c := context (store (channelEnd exported.OPEN exported.ORDERED)
                          connectionexported.OPEN (Some 5) None ∅) in
  let r1 := SendPacket commitPacket (packet 5) c in
  let r2 := SendPacket commitPacket (packet 5) (snd r1) in
  let r3 := SendPacket commitPacket (packet 6) (snd r2) in
  fst r1 = Ok tt
  /\ nextSequenceSend (kvStore (snd r1)) !! (testPort, testChannel) = Some 6
  /\ fst r2 = Err ErrInvalidPacket
  /\ fst r3 = Ok tt
  /\ sentOn commitPacket commitAcknowledgement acceptAll testPort testChannel
       [DoSendPacket (packet 5); DoSendPacket (packet 5); DoSendPacket (packet 6)] c
     = [5; 6].
Proof. vm_compute. repeat split; reflexivity. Qed.

Lemma commitPacket_nonempty (data : list Byte.byte) : commitPacket data <> [].
Proof. discriminate. Qed.

(** C5, counterexample. On the empty store no commitment is stored, yet
    AcknowledgePacket and CleanupPacket fail with ChannelNotFound, not
    InvalidPacket; and after a CleanupPacket that succeeded over a
    connection still in state INIT, AcknowledgePacket for the same packet
    fails with InvalidConnectionState. *)
Lemma resolution_error_counterexample :
  let c := context emptyStore in
  let c1 := sentContext exported.UNORDERED connectionexported.INIT in
  let r1 := CleanupPacket commitPacket acceptAll (packet 3) [] 5 4 [] c1 in
  (packetCommitments (kvStore c) !! (testPort, testChannel, 3) = None
   /\ fst (AcknowledgePacket commitPacket acceptAll (packet 3) (Some []) [] 5 c)
      = Err ErrChannelNotFound
   /\ fst (CleanupPacket commitPacket acceptAll (packet 3) [] 5 4 [] c)
      = Err ErrChannelNotFound)
  /\ (fst r1 = Ok (packet 3)
      /\ packetCommitments (kvStore (snd r1)) !! (testPort, testChannel, 3) = None
      /\ fst (AcknowledgePacket commitPacket acceptAll (packet 3) (Some []) [] 5
                (snd r1))
         = Err ErrInvalidConnectionState).
Proof. vm_compute. repeat split; reflexivity. Qed.

(** Witness for [at_most_once_resolution]: once AcknowledgementExecuted has
    run for the packet with sequence 3, acknowledging or cleaning up that
    packet again is rejected with InvalidPacket; and on the empty store,
    where the packet was never sent, both fail with ChannelNotFound. *)
Lemma at_most_once_resolution_witness :
  let c := sentContext exported.ORDERED connectionexported.OPEN in
  let c' := snd (AcknowledgementExecuted (packet 3) c) in
  let empty := context emptyStore in
  (AcknowledgePacket commitPacket acceptAll (packet 3) (Some []) [] 5 c'
     = (Err ErrInvalidPacket, c')
   /\ CleanupPacket commitPacket acceptAll (packet 3) [] 5 4 [] c'
      = (Err ErrInvalidPacket, c'))
  /\ (AcknowledgePacket commitPacket acceptAll (packet 3) (Some []) [] 5 empty
      = (Err ErrChannelNotFound, empty)
      /\ CleanupPacket commitPacket acceptAll (packet 3) [] 5 4 [] empty
         = (Err ErrChannelNotFound, empty)).
Proof.
  intros c c' empty. split.
  - destruct (at_most_once_resolution commitPacket acceptAll
                commitPacket_nonempty c (packet 3) None [] 5 4 [])
      as (_ & Hexecuted & _).
    assert (same_packet_key (packet 3) (packet 3)) as Hkey
      by (repeat split; reflexivity).
    destruct (Hexecuted (packet 3) Hkey (Some []) [] 5 4 [])
      as (_ & _ & Hack & Hcleanup & _).
    split.
    + apply (Hack (channelEnd exported.OPEN exported.ORDERED)
                  (mkConnectionEnd connectionexported.OPEN testClient)).
      constructor; try reflexivity.
      exists testConnection. split; reflexivity.
    + apply (Hcleanup (channelEnd exported.OPEN exported.ORDERED)
                      (mkConnectionEnd connectionexported.OPEN testClient)).
      constructor; try reflexivity.
      exists testConnection. split; reflexivity.
  - destruct (at_most_once_resolution commitPacket acceptAll
                commitPacket_nonempty empty (packet 3) None [] 5 4 [])
      as (Hunsent & _).
    destruct (Hunsent ltac:(discriminate) (Some []) [] 5 4 [])
      as (_ & _ & _ & _ & Hack & Hcleanup & _).
    split.
    + apply Hack. apply ack_channel_missing. reflexivity.
    + apply Hcleanup. apply cleanup_channel_missing. reflexivity.
Defined.

(** Witness for [SendPacket_timeout_precedence]: a packet whose timeout
    height, 10, the client's latest height has reached. *)
Lemma SendPacket_timeout_precedence_witness :
  let c := context (store (channelEnd exported.OPEN exported.ORDERED)
                          connectionexported.OPEN (Some 5) None ∅) in
  let p := mkPacket 5 10 testPort testChannel testPort testChannel packetData in
  SendPacket commitPacket p c = (Err ErrPacketTimeout, c).
Proof.
  intros c p.
  apply (SendPacket_timeout_precedence commitPacket c p
           (channelEnd exported.OPEN exported.ORDERED)
           (mkConnectionEnd connectionexported.OPEN testClient)
           (mkClientState 10)).
  - reflexivity.
  - constructor; try reflexivity; try discriminate.
    exists testConnection. split; reflexivity.
  - vm_compute. discriminate.
Defined.

(** C7, counterexample. A packet of the test channel whose destination
    channel identifier names no channel at all is rejected with
    ChannelNotFound, not InvalidPacket. *)
Lemma RecvPacket_unknown_destination :
  let c := context (store (channelEnd exported.OPEN exported.UNORDERED)
                          connectionexported.OPEN (Some 1) (Some 1) ∅) in
  let p := mkPacket 1 100 testPort testChannel testPort "channel-7" packetData in
  ~ names_packet_channel (kvStore c) p
  /\ RecvPacket commitPacket acceptAll p [] 5 c = (Err ErrChannelNotFound, c).
Proof.
  intros c p. split.
  - intros (ch & Hch & _). vm_compute in Hch. discriminate.
  - reflexivity.
Qed.

(** Witness for [RecvPacket_wrong_destination]: a packet sent from
    another channel, "channel-5", but addressed to the test channel, whose
    counterparty is not "channel-5". *)
Lemma RecvPacket_wrong_destination_witness :
  let c := context (store (channelEnd exported.OPEN exported.UNORDERED)
                          connectionexported.OPEN (Some 1) (Some 1) ∅) in
  let p := mkPacket 1 100 testPort "channel-5" testPort testChannel packetData in
  exists e, RecvPacket commitPacket acceptAll p [] 5 c = (Err e, c)
            /\ verifierCalls (snd (RecvPacket commitPacket acceptAll p [] 5 c)) = [].
Proof.
  intros c p.
  destruct (RecvPacket_wrong_destination commitPacket acceptAll c p [] 5)
    as (e & Hrun & Hcalls & _).
  - intros (ch & Hch & _ & Hchan).
    vm_compute in Hch. injection Hch as <-. vm_compute in Hchan. discriminate.
  - exists e. split; [exact Hrun | exact Hcalls].
Defined.

(** Witness for [CleanupPacket_ordering_invariant]: a channel record whose
    ordering is the unrecognised value 0 panics; an ORDERED one cannot. *)
Lemma CleanupPacket_ordering_invariant_witness :
  let c := sentContext (exported.OtherOrder 0) connectionexported.OPEN in
  let c' := sentContext exported.ORDERED connectionexported.OPEN in
  CleanupPacket commitPacket acceptAll (packet 3) [] 5 4 [] c
    = (Panic PanicInvalidChannelOrdering, c)
  /\ fst (CleanupPacket commitPacket rejectAll (packet 3) [] 5 4 [] c')
     <> Panic PanicInvalidChannelOrdering.
Proof.
  intros c c'. split.
  - destruct (CleanupPacket_ordering_invariant commitPacket acceptAll
                c (packet 3) [] 5 4 []) as [Hpanic _].
    apply (Hpanic (channelEnd exported.OPEN (exported.OtherOrder 0))
                  (mkConnectionEnd connectionexported.OPEN testClient)).
    + constructor; try reflexivity.
      constructor; try reflexivity.
      exists testConnection. split; reflexivity.
    + discriminate.
    + discriminate.
  - destruct (CleanupPacket_ordering_invariant commitPacket rejectAll
                c' (packet 3) [] 5 4 []) as [_ Hnever].
    apply Hnever. intros ch Hch.
    vm_compute in Hch. injection Hch as <-. left. reflexivity.
Defined.


End examples.

(** * Further properties of the keeper *)

Section KeeperMore.

Variable CommitPacket : list Byte.byte -> list Byte.byte.
Variable CommitAcknowledgement : option (list Byte.byte) -> list Byte.byte.
Variable verifier : Z -> KVStore -> VerifierCall -> option Error.

Local Abbreviation SendPacket := (SendPacket CommitPacket).
Local Abbreviation RecvPacket := (RecvPacket CommitPacket verifier).
Local Abbreviation PacketExecuted := (PacketExecuted CommitAcknowledgement).
Local Abbreviation AcknowledgePacket := (AcknowledgePacket CommitPacket verifier).
Local Abbreviation CleanupPacket := (CleanupPacket CommitPacket verifier).
Local Abbreviation call := (call CommitPacket CommitAcknowledgement verifier).
Local Abbreviation sent := (sent CommitPacket CommitAcknowledgement verifier).
Local Abbreviation sentOn := (sentOn CommitPacket CommitAcknowledgement verifier).
Local Abbreviation executed :=
  (executed CommitPacket CommitAcknowledgement verifier).
Local Abbreviation executedOn :=
  (executedOn CommitPacket CommitAcknowledgement verifier).

(** ** Receiving *)

(** X1. RecvPacket compares the chain's own height, converted to uint64,
    with the packet's timeout height once its channel and connection
    checks have passed: at or past the timeout it returns PacketTimeout
    and the context as it was, so no proof is verified. *)
Theorem RecvPacket_timeout (c : Context) (p : Packet)
    (proof : list Byte.byte) (proofHeight : Z)
    (ch : Channel) (conn : ConnectionEnd) :
  recv_prechecks (kvStore c) p ch conn ->
  GetTimeoutHeight p <= uint64_of_int64 (BlockHeight c) ->
  RecvPacket p proof proofHeight c = (Err ErrPacketTimeout, c).
Proof.
  intros [Hch Hst Hsp Hsc (hop & Hhop & Hconn) Hcst] Hto.
  assert ((GetTimeoutHeight p <=? uint64_of_int64 (BlockHeight c)) = true) as Hle
    by (apply Z.leb_le; exact Hto).
  keeper_run. reflexivity.
Qed.

(** X2. With its own checks passed, RecvPacket asks the verifier exactly
    one question: whether the counterparty stores, under the packet's
    source port, source channel and sequence, the commitment of the
    packet's data. The answer is the result: the packet when the proof
    is accepted, the verifier's error otherwise. *)
Theorem RecvPacket_verification (c : Context) (p : Packet)
    (proof : list Byte.byte) (proofHeight : Z)
    (ch : Channel) (conn : ConnectionEnd) :
  recv_prechecks (kvStore c) p ch conn ->
  uint64_of_int64 (BlockHeight c) < GetTimeoutHeight p ->
  let v := CallVerifyPacketCommitment conn proofHeight proof
             (GetSourcePort p) (GetSourceChannel p) (GetSequence p)
             (CommitPacket (GetData p)) in
  RecvPacket p proof proofHeight c
  = (match verifier (BlockHeight c) (kvStore c) v with
     | None => Ok p
     | Some e => Err e
     end,
     mkContext (BlockHeight c) (kvStore c) (v :: verifierCalls c)).
Proof.
  intros [Hch Hst Hsp Hsc (hop & Hhop & Hconn) Hcst] Hto v.
  assert ((GetTimeoutHeight p <=? uint64_of_int64 (BlockHeight c)) = false) as Hle
    by (apply Z.leb_gt; exact Hto).
  keeper_run. subst v.
  destruct (verifier _ _ _); keeper_run; reflexivity.
Qed.


(** ** Cleaning up *)

(** X3. CleanupPacket rejects a claimed receive sequence that is not
    past the packet's sequence with InvalidPacket as soon as the channel
    and connection are found, whatever the proof: the context comes back
    as it was, the verifier not having been asked. *)
Theorem CleanupPacket_not_yet_received (c : Context) (p : Packet)
    (proof : list Byte.byte) (proofHeight nextSequenceRecv : Z)
    (ack : list Byte.byte) (ch : Channel) (conn : ConnectionEnd) :
  cleanup_lookups (kvStore c) p ch conn ->
  nextSequenceRecv <= GetSequence p ->
  CleanupPacket p proof proofHeight nextSequenceRecv ack c
  = (Err ErrInvalidPacket, c).
Proof.
  intros [Hch Hst (hop & Hhop & Hconn)] Hle.
  assert ((nextSequenceRecv <=? GetSequence p) = true) as Hleb
    by (apply Z.leb_le; exact Hle).
  keeper_cases; reflexivity.
Qed.

(** X4. When CleanupPacket's proof is rejected the verifier's error is
    returned and the commitment stays: the store is the one the call was
    given, and only the trace records the verification. *)
Theorem CleanupPacket_proof_rejected (c : Context) (p : Packet)
    (proof : list Byte.byte) (proofHeight nextSequenceRecv : Z)
    (ack : list Byte.byte) (ch : Channel) (conn : ConnectionEnd)
    (v : VerifierCall) (e : Error) :
  cleanup_prechecks CommitPacket (kvStore c) p nextSequenceRecv ch conn ->
  cleanupCall ch conn p proof proofHeight nextSequenceRecv ack = Some v ->
  verifier (BlockHeight c) (kvStore c) v = Some e ->
  CleanupPacket p proof proofHeight nextSequenceRecv ack c
  = (Err e, mkContext (BlockHeight c) (kvStore c) (v :: verifierCalls c))
  /\ packetCommitments
       (kvStore (snd (CleanupPacket p proof proofHeight nextSequenceRecv ack c)))
     !! (GetSourcePort p, GetSourceChannel p, GetSequence p)
     = Some (CommitPacket (GetData p)).
Proof.
  intros [[Hch Hst (hop & Hhop & Hconn)] Hdp Hdc Hrecv Hcommit] Hcall Hverify.
  assert ((nextSequenceRecv <=? GetSequence p) = false) as Hle
    by (apply Z.leb_gt; lia).
  unfold cleanupCall in Hcall.
  assert (CleanupPacket p proof proofHeight nextSequenceRecv ack c
          = (Err e, mkContext (BlockHeight c) (kvStore c) (v :: verifierCalls c)))
    as Hrun.
  { keeper_run.
    destruct (Ordering ch); try discriminate; injection Hcall as <-;
      keeper_run; rewrite Hverify; reflexivity. }
  split; [exact Hrun|]. rewrite Hrun. exact Hcommit.
Qed.

(** ** Acknowledging *)

(** X5. With its channel, connection and commitment checks passed,
    AcknowledgePacket panics on a nil acknowledgement, before any proof is
    verified; with acknowledgement bytes it asks the verifier one
    question, about the packet's destination port, destination channel
    and sequence and those bytes, and returns the packet or the verifier's
    error accordingly. *)
Theorem AcknowledgePacket_verification (c : Context) (p : Packet)
    (ack : option (list Byte.byte)) (proof : list Byte.byte) (proofHeight : Z)
    (ch : Channel) (conn : ConnectionEnd) :
  ack_prechecks (kvStore c) p ch conn ->
  packetCommitments (kvStore c)
  !! (GetSourcePort p, GetSourceChannel p, GetSequence p)
  = Some (CommitPacket (GetData p)) ->
  AcknowledgePacket p ack proof proofHeight c
  = match ack with
    | None => (Panic PanicNilDereference, c)
    | Some bz =>
        let v := CallVerifyPacketAcknowledgement conn proofHeight proof
                   (GetDestPort p) (GetDestChannel p) (GetSequence p) bz in
        (match verifier (BlockHeight c) (kvStore c) v with
         | None => Ok p
         | Some e => Err e
         end,
         mkContext (BlockHeight c) (kvStore c) (v :: verifierCalls c))
    end.
Proof.
  intros [Hch Hst Hsp Hsc (hop & Hhop & Hconn) Hcst] Hcommit.
  keeper_run. destruct ack as [bz|]; [|reflexivity].
  cbn beta iota zeta. keeper_run.
  destruct (verifier _ _ _); keeper_run; reflexivity.
Qed.


(** ** Channels without connection hops *)

(** X6. A channel record with no connection hops makes the four
    operations that look the connection up panic on [ConnectionHops[0]],
    once the checks that come before that lookup have passed; nothing has
    been written by then. Each operation is concerned only with the
    record it looks up itself: the one under the packet's source
    identifiers for SendPacket, AcknowledgePacket and CleanupPacket, the
    one under its destination identifiers for RecvPacket. *)
Theorem empty_ConnectionHops_panic (c : Context) (p : Packet)
    (ack : option (list Byte.byte)) (proof : list Byte.byte)
    (proofHeight nextSequenceRecv : Z) (ackBytes : list Byte.byte) :
  (forall chs,
     channels (kvStore c) !! (GetSourcePort p, GetSourceChannel p) = Some chs ->
     ConnectionHops chs = [] ->
     (ValidateBasic p = None ->
      State chs <> exported.CLOSED ->
      GetDestPort p = PortID (Counterparty chs) ->
      GetDestChannel p = ChannelID (Counterparty chs) ->
      SendPacket p c = (Panic PanicIndexOutOfRange, c))
     /\ (State chs = exported.OPEN ->
         GetSourcePort p = PortID (Counterparty chs) ->
         GetSourceChannel p = ChannelID (Counterparty chs) ->
         AcknowledgePacket p ack proof proofHeight c
         = (Panic PanicIndexOutOfRange, c))
     /\ (State chs = exported.OPEN ->
         GetDestPort p = PortID (Counterparty chs) ->
         GetDestChannel p = ChannelID (Counterparty chs) ->
         CleanupPacket p proof proofHeight nextSequenceRecv ackBytes c
         = (Panic PanicIndexOutOfRange, c)))
  /\ (forall chd,
       channels (kvStore c) !! (GetDestPort p, GetDestChannel p) = Some chd ->
       ConnectionHops chd = [] ->
       State chd = exported.OPEN ->
       GetSourcePort p = PortID (Counterparty chd) ->
       GetSourceChannel p = ChannelID (Counterparty chd) ->
       RecvPacket p proof proofHeight c = (Panic PanicIndexOutOfRange, c)).
Proof.
  split.
  - intros chs Hs Hhs.
    assert (head (ConnectionHops chs) = None) as Hhead
      by (rewrite Hhs; reflexivity).
    repeat split; intros; keeper_run; reflexivity.
  - intros chd Hd Hhd Hst Hsp Hsc.
    assert (head (ConnectionHops chd) = None) as Hhead
      by (rewrite Hhd; reflexivity).
    keeper_run. reflexivity.
Qed.

(** ** Sending, then resolving *)

(** A successful SendPacket passed every one of its checks. *)
Lemma SendPacket_Ok_prechecks (c : Context) (p : Packet) :
  fst (SendPacket p c) = Ok tt ->
  exists ch conn cs,
    send_prechecks (kvStore c) p ch conn cs
    /\ GetLatestHeight cs < GetTimeoutHeight p.
Proof.
  keeper_cases; simpl; try discriminate.
  intros _. do 3 eexists. split.
  - constructor; try eassumption; try congruence.
    eexists. split; eassumption.
  - apply Z.leb_gt. assumption.
Qed.

(** X7. A packet that SendPacket accepted can be cleaned up: on the
    context SendPacket leaves, with the channel OPEN, a claimed receive
    sequence past the packet's and the proof accepted, CleanupPacket
    returns the packet; if no commitment was stored under the packet's key
    before the send, the commitment keyspace is then back to what it was
    and, of the whole store, only the send counter has moved. *)
Theorem SendPacket_then_CleanupPacket (c : Context) (p : Packet)
    (proof : list Byte.byte) (proofHeight nextRecv : Z)
    (ack : list Byte.byte) (ch : Channel) (conn : ConnectionEnd) (hop : string)
    (v : VerifierCall) :
  fst (SendPacket p c) = Ok tt ->
  channels (kvStore c) !! (GetSourcePort p, GetSourceChannel p) = Some ch ->
  head (ConnectionHops ch) = Some hop ->
  connections (kvStore c) !! hop = Some conn ->
  State ch = exported.OPEN ->
  GetSequence p < nextRecv ->
  cleanupCall ch conn p proof proofHeight nextRecv ack = Some v ->
  verifier (BlockHeight c) (sentStore CommitPacket p (kvStore c)) v = None ->
  let sentContext := snd (SendPacket p c) in
  let r := CleanupPacket p proof proofHeight nextRecv ack sentContext in
  fst r = Ok p
  /\ (packetCommitments (kvStore c)
      !! (GetSourcePort p, GetSourceChannel p, GetSequence p) = None ->
      kvStore (snd r)
      = mkKVStore (channels (kvStore c)) (connections (kvStore c))
          (clientStates (kvStore c))
          (<[(GetSourcePort p, GetSourceChannel p) := wrap64 (GetSequence p + 1)]>
             (nextSequenceSend (kvStore c)))
          (nextSequenceRecv (kvStore c))
          (packetCommitments (kvStore c))
          (packetAcknowledgements (kvStore c))).
Proof.
  intros Hok Hch Hhop Hconn Hopen Hrecv Hcall Hverify sentContext r.
  destruct (SendPacket_Ok_prechecks c p Hok) as (ch' & conn' & cs & Hpre & Hto).
  pose proof (SendPacket_Ok_inv CommitPacket c p Hok) as [Hvb Hseq].
  assert (SendPacket p c
          = (Ok tt, mkContext (BlockHeight c) (sentStore CommitPacket p (kvStore c))
                              (verifierCalls c))) as Hsent
    by (apply SendPacket_in_sequence with ch' conn' cs; assumption).
  destruct Hpre as [Hch' _ Hdp Hdc _ _ _].
  rewrite Hch in Hch'. injection Hch' as <-.
  subst r sentContext. rewrite Hsent. cbn [snd].
  rewrite (CleanupPacket_accepted CommitPacket verifier _ p proof proofHeight
             nextRecv ack ch conn v); cbn [BlockHeight kvStore]; try assumption.
  - cbn [fst snd kvStore]. split; [reflexivity|].
    intros Habsent. unfold resolvedStore, sentStore.
    cbn [channels connections clientStates nextSequenceSend nextSequenceRecv
         packetCommitments packetAcknowledgements].
    rewrite delete_insert_id by exact Habsent. reflexivity.
  - constructor; try assumption.
    + constructor; [exact Hch | exact Hopen |].
      exists hop. split; [exact Hhop | exact Hconn].
    + apply lookup_insert_eq.
Qed.

(** X8. AcknowledgePacket compares the packet's source identifiers, not
    its destination identifiers, with the counterparty of the channel it
    looks up under those same source identifiers. A packet that
    SendPacket accepted (destination equal to the counterparty) is
    therefore returned by AcknowledgePacket, on any context with the same
    channel records, only if its source and destination identifiers
    coincide. *)
Theorem AcknowledgePacket_needs_equal_ends (c c2 : Context) (p q : Packet)
    (ack : option (list Byte.byte)) (proof : list Byte.byte) (proofHeight : Z) :
  fst (SendPacket p c) = Ok tt ->
  channels (kvStore c2) = channels (kvStore c) ->
  fst (AcknowledgePacket p ack proof proofHeight c2) = Ok q ->
  GetSourcePort p = GetDestPort p /\ GetSourceChannel p = GetDestChannel p.
Proof.
  intros Hsend Hsame Hack.
  destruct (SendPacket_Ok_prechecks c p Hsend) as (ch & conn & cs & Hpre & _).
  destruct Hpre as [Hch _ Hdp Hdc _ _ _].
  destruct (AcknowledgePacket_Ok_prechecks CommitPacket verifier c2 p q _ _ _ Hack)
    as (ch2 & conn2 & [Hch2 _ Hsp Hsc _ _]).
  rewrite Hsame, Hch in Hch2. injection Hch2 as <-.
  split; congruence.
Qed.


(** ** Executing received packets *)

(** X9. On an OPEN UNORDERED channel PacketExecuted keeps no record that
    would stop a replay: it accepts the same packet again, leaving the
    store as the first call left it, and a later call with another
    acknowledgement overwrites the stored digest. *)
Theorem PacketExecuted_unordered_replay (c : Context) (p : Packet)
    (ack ack' : option (list Byte.byte)) (ch : Channel) :
  channels (kvStore c) !! (GetDestPort p, GetDestChannel p) = Some ch ->
  State ch = exported.OPEN ->
  Ordering ch = exported.UNORDERED ->
  let c1 := snd (PacketExecuted p ack c) in
  PacketExecuted p ack c = (Ok tt, c1)
  /\ PacketExecuted p ack c1 = (Ok tt, c1)
  /\ fst (PacketExecuted p ack' c1) = Ok tt
  /\ packetAcknowledgements (kvStore (snd (PacketExecuted p ack' c1)))
     !! (GetDestPort p, GetDestChannel p, GetSequence p)
     = Some (CommitAcknowledgement ack').
Proof.
  intros Hch Hst Hord c1.
  assert (forall a c0,
            channels (kvStore c0) !! (GetDestPort p, GetDestChannel p) = Some ch ->
            PacketExecuted p a c0
            = (Ok tt, mkContext (BlockHeight c0)
                        (acknowledgedStore CommitAcknowledgement p a (kvStore c0))
                        (verifierCalls c0))) as Hrun.
  { intros a c0 Hch0. keeper_run. rewrite orb_true_r. keeper_run. reflexivity. }
  subst c1. rewrite (Hrun ack c Hch). cbn [snd].
  split; [reflexivity|]. split; [|split].
  - rewrite Hrun by exact Hch. unfold acknowledgedStore.
    cbn [BlockHeight kvStore verifierCalls channels connections clientStates
         nextSequenceSend nextSequenceRecv packetCommitments
         packetAcknowledgements].
    rewrite insert_insert_eq. reflexivity.
  - rewrite Hrun by exact Hch. reflexivity.
  - rewrite Hrun by exact Hch. apply lookup_insert_eq.
Qed.

(** X10. On an ORDERED channel a packet is executed once: after a
    successful PacketExecuted the receive counter has left the packet's
    sequence, and PacketExecuted with that sequence on that channel is
    rejected with InvalidPacket. *)
Theorem PacketExecuted_ordered_once (c : Context) (p p' : Packet)
    (ack ack' : option (list Byte.byte)) (ch : Channel) :
  channels (kvStore c) !! (GetDestPort p, GetDestChannel p) = Some ch ->
  Ordering ch = exported.ORDERED ->
  fst (PacketExecuted p ack c) = Ok tt ->
  GetDestPort p' = GetDestPort p ->
  GetDestChannel p' = GetDestChannel p ->
  GetSequence p' = GetSequence p ->
  fst (PacketExecuted p' ack' (snd (PacketExecuted p ack c)))
  = Err ErrInvalidPacket.
Proof.
  intros Hch Hord Hok Hport Hchan Hseq.
  destruct (PacketExecuted_ordered_Ok CommitAcknowledgement c p ch ack Hch Hord Hok)
    as [_ Hnext].
  assert (State ch = exported.OPEN) as Hopen.
  { destruct (decide (State ch = exported.OPEN)) as [Ho|Ho]; [exact Ho|].
    rewrite (PacketExecuted_channel_not_open CommitAcknowledgement c p ch ack Hch Ho)
      in Hok. discriminate. }
  apply PacketExecuted_ordered_out_of_order
    with ch (wrap64 (GetSequence p + 1)).
  - rewrite Hport, Hchan.
    assert (channels (kvStore (snd (PacketExecuted p ack c)))
            = channels (kvStore c)) as ->
      by (clear; keeper_cases; reflexivity).
    exact Hch.
  - exact Hopen.
  - exact Hord.
  - rewrite Hport, Hchan. exact Hnext.
  - rewrite Hseq. apply wrap64_succ_neq.
Qed.

(** X11. PacketExecuted never panics, whatever the channel's ordering.
    When it succeeds, the acknowledgement keyspace has the digest of the
    acknowledgement under the packet's destination key if an
    acknowledgement was given or the channel is UNORDERED, and is
    untouched otherwise: an ORDERED channel executed without an
    acknowledgement leaves no receipt. *)
Theorem PacketExecuted_receipt (c : Context) (p : Packet)
    (ack : option (list Byte.byte)) (ch : Channel) :
  channels (kvStore c) !! (GetDestPort p, GetDestChannel p) = Some ch ->
  let r := PacketExecuted p ack c in
  (forall reason, fst r <> Panic reason)
  /\ (fst r = Ok tt ->
      (ack <> None \/ Ordering ch = exported.UNORDERED ->
       packetAcknowledgements (kvStore (snd r))
       = <[(GetDestPort p, GetDestChannel p, GetSequence p)
           := CommitAcknowledgement ack]> (packetAcknowledgements (kvStore c)))
      /\ (ack = None -> Ordering ch <> exported.UNORDERED ->
          packetAcknowledgements (kvStore (snd r))
          = packetAcknowledgements (kvStore c))).
Proof.
  intros Hch r. subst r. split.
  - intros reason. keeper_cases; simpl; discriminate.
  - keeper_cases; simpl; try discriminate; intros _; split;
      first [ reflexivity
            | intros; congruence
            | intros [?|?]; congruence
            | intros; tauto ].
Qed.


(** ** What no call touches *)

Lemma call_channels (k : Call) (c : Context) :
  channels (kvStore (snd (call k c))) = channels (kvStore c).
Proof.
  destruct k as [p|p pr h|p ack|p ack pr h|p|p pr h n ack];
    unfold call; keeper_cases; reflexivity.
Qed.

(** X12. None of the six entry points writes a channel, connection or
    client record, or moves the block height, whatever it returns. *)
Theorem call_registry_unchanged (k : Call) (c : Context) :
  let c' := snd (call k c) in
  channels (kvStore c') = channels (kvStore c)
  /\ connections (kvStore c') = connections (kvStore c)
  /\ clientStates (kvStore c') = clientStates (kvStore c)
  /\ BlockHeight c' = BlockHeight c.
Proof.
  split; [apply call_channels|].
  destruct k as [p|p pr h|p ack|p ack pr h|p|p pr h n ack];
    unfold call; keeper_cases; repeat split; reflexivity.
Qed.

Lemma call_nextSequenceRecv_other (k : Call) (c : Context)
    (key : string * string) :
  key <> (GetDestPort (callPacket k), GetDestChannel (callPacket k)) ->
  nextSequenceRecv (kvStore (snd (call k c))) !! key
  = nextSequenceRecv (kvStore c) !! key.
Proof.
  destruct k as [p|p pr h|p ack|p ack pr h|p|p pr h n ack];
    unfold call, callPacket; keeper_cases; intros Hkey;
    cbn [snd kvStore nextSequenceRecv];
    rewrite ?lookup_insert_ne by congruence; reflexivity.
Qed.

(** X13. A call writes only under the keys of its own packet: the send
    counter of the packet's source channel, the receive counter of its
    destination channel, the commitment under (source port, source
    channel, sequence) and the acknowledgement under (destination port,
    destination channel, sequence). Every other counter, commitment and
    acknowledgement is after the call what it was before. *)
Theorem call_writes_own_keys (k : Call) (c : Context) :
  let p := callPacket k in
  let s := kvStore c in
  let s' := kvStore (snd (call k c)) in
  (forall key, key <> (GetSourcePort p, GetSourceChannel p) ->
               nextSequenceSend s' !! key = nextSequenceSend s !! key)
  /\ (forall key, key <> (GetDestPort p, GetDestChannel p) ->
                  nextSequenceRecv s' !! key = nextSequenceRecv s !! key)
  /\ (forall key, key <> (GetSourcePort p, GetSourceChannel p, GetSequence p) ->
                  packetCommitments s' !! key = packetCommitments s !! key)
  /\ (forall key, key <> (GetDestPort p, GetDestChannel p, GetSequence p) ->
                  packetAcknowledgements s' !! key
                  = packetAcknowledgements s !! key).
Proof.
  destruct k as [p|p pr h|p ack|p ack pr h|p|p pr h n ack];
    unfold call, callPacket; keeper_cases; repeat split; intros key Hkey;
    cbn [snd kvStore nextSequenceSend nextSequenceRecv packetCommitments
         packetAcknowledgements];
    rewrite ?lookup_insert_ne, ?lookup_delete_ne by congruence; reflexivity.
Qed.

(** ** Proofs *)

(** X14. The packet is never handed back without an accepted proof:
    whenever RecvPacket, AcknowledgePacket or CleanupPacket returns a
    packet, it is the packet given, and the verifier has accepted, on the
    store of the call, the commitment of the packet's data under its
    source key (RecvPacket), the given acknowledgement bytes under its
    destination key (AcknowledgePacket), or the verification that
    CleanupPacket makes for the channel's ordering. SendPacket,
    PacketExecuted and AcknowledgementExecuted never ask the verifier. *)
Theorem returned_packet_was_verified (c : Context) (p q : Packet)
    (ack : option (list Byte.byte)) (proof : list Byte.byte)
    (proofHeight nextRecv : Z) (ackBytes : list Byte.byte) :
  (fst (RecvPacket p proof proofHeight c) = Ok q ->
   q = p
   /\ exists conn,
        verifier (BlockHeight c) (kvStore c)
          (CallVerifyPacketCommitment conn proofHeight proof
             (GetSourcePort p) (GetSourceChannel p) (GetSequence p)
             (CommitPacket (GetData p))) = None)
  /\ (fst (AcknowledgePacket p ack proof proofHeight c) = Ok q ->
      q = p
      /\ exists conn bz,
           ack = Some bz
           /\ verifier (BlockHeight c) (kvStore c)
                (CallVerifyPacketAcknowledgement conn proofHeight proof
                   (GetDestPort p) (GetDestChannel p) (GetSequence p) bz) = None)
  /\ (fst (CleanupPacket p proof proofHeight nextRecv ackBytes c) = Ok q ->
      q = p
      /\ exists ch conn v,
           channels (kvStore c) !! (GetSourcePort p, GetSourceChannel p) = Some ch
           /\ cleanupCall ch conn p proof proofHeight nextRecv ackBytes = Some v
           /\ verifier (BlockHeight c) (kvStore c) v = None)
  /\ verifierCalls (snd (SendPacket p c)) = verifierCalls c
  /\ verifierCalls (snd (PacketExecuted p ack c)) = verifierCalls c
  /\ verifierCalls (snd (AcknowledgementExecuted p c)) = verifierCalls c.
Proof.
  split; [|split; [|split; [|split; [|split]]]].
  - keeper_cases; simpl; try discriminate.
    intros Hq. injection Hq as Hq. subst q. split; [reflexivity|].
    eexists. eassumption.
  - keeper_cases; simpl; try discriminate.
    all: intros Hq; injection Hq as Hq; subst q; split; [reflexivity|].
    all: do 2 eexists; split; [reflexivity | eassumption].
  - unfold cleanupCall. keeper_cases; simpl; try discriminate.
    all: intros Hq; injection Hq as Hq; subst q; split; [reflexivity|].
    all: do 3 eexists; split; [reflexivity|];
      match goal with H : Ordering _ = _ |- _ => rewrite H end;
      split; [reflexivity | eassumption].
  - keeper_cases; reflexivity.
  - keeper_cases; reflexivity.
  - reflexivity.
Qed.


(** ** Sequences on a channel *)

(** With no send counter, or the counter at 0, nothing more is sent on
    the channel: no call creates a counter, and no valid packet carries
    sequence 0. *)
Lemma sentOn_blocked (portID channelID : string) (calls : list Call) :
  forall c : Context,
    nextSequenceSend (kvStore c) !! (portID, channelID) = None
    \/ nextSequenceSend (kvStore c) !! (portID, channelID) = Some 0 ->
    sentOn portID channelID calls c = [].
Proof.
  induction calls as [|k rest IH]; intros c Hblocked; [reflexivity|].
  unfold sentOn.
  destruct (call_nextSequenceSend CommitPacket CommitAcknowledgement verifier k c)
    as [(p & -> & Hok) | Hsame].
  - unfold call in Hok.
    rewrite (sent_cons_accepted CommitPacket CommitAcknowledgement verifier
               p rest c Hok).
    pose proof (SendPacket_Ok_store CommitPacket c p Hok) as Hstore.
    pose proof (SendPacket_Ok_inv CommitPacket c p Hok) as [Hvb Hseq].
    apply ValidateBasic_sequence in Hvb.
    destruct (decide ((GetSourcePort p, GetSourceChannel p)
                      = (portID, channelID))) as [Hkey|Hkey].
    + exfalso. rewrite Hkey in Hseq.
      destruct Hblocked as [Hb|Hb]; rewrite Hb in Hseq;
        [discriminate | injection Hseq as Hseq; lia].
    + rewrite filter_cons_False by exact Hkey.
      apply IH. rewrite Hstore. cbn [sentStore nextSequenceSend].
      rewrite lookup_insert_ne by exact Hkey. exact Hblocked.
  - rewrite (sent_cons_other CommitPacket CommitAcknowledgement verifier
               k rest c Hsame).
    apply IH. rewrite Hsame. exact Hblocked.
Qed.

Lemma sentOn_from_counter (portID channelID : string) (calls : list Call) :
  forall (c : Context) (n : Z),
    nextSequenceSend (kvStore c) !! (portID, channelID) = Some n ->
    0 <= n < U64_MOD ->
    forall (i : nat) (s : Z),
      sentOn portID channelID calls c !! i = Some s ->
      s = n + Z.of_nat i /\ s < U64_MOD.
Proof.
  induction calls as [|k rest IH]; intros c n Hn Hrange i s Hi.
  - unfold sentOn in Hi. simpl in Hi. discriminate.
  - unfold sentOn in Hi.
    destruct (call_nextSequenceSend CommitPacket CommitAcknowledgement verifier k c)
      as [(p & -> & Hok) | Hsame].
    + unfold call in Hok.
      rewrite (sent_cons_accepted CommitPacket CommitAcknowledgement verifier
                 p rest c Hok) in Hi.
      pose proof (SendPacket_Ok_store CommitPacket c p Hok) as Hstore.
      pose proof (SendPacket_Ok_inv CommitPacket c p Hok) as [Hvb Hseq].
      apply ValidateBasic_sequence in Hvb.
      destruct (decide ((GetSourcePort p, GetSourceChannel p)
                        = (portID, channelID))) as [Hkey|Hkey].
      * rewrite filter_cons_True in Hi by exact Hkey. rewrite fmap_cons in Hi.
        rewrite Hkey, Hn in Hseq. injection Hseq as Hseq.
        destruct i as [|j]; simpl in Hi.
        -- injection Hi as <-. lia.
        -- fold (sentOn portID channelID rest (snd (SendPacket p c))) in Hi.
           assert (nextSequenceSend (kvStore (snd (SendPacket p c)))
                   !! (portID, channelID) = Some (wrap64 (n + 1))) as Hnext.
           { rewrite Hstore. cbn [sentStore nextSequenceSend].
             rewrite Hkey, <- Hseq. apply lookup_insert_eq. }
           destruct (decide (n + 1 = U64_MOD)) as [Hmax|Hmax].
           ++ exfalso.
              assert (wrap64 (n + 1) = 0) as Hzero.
              { unfold wrap64. rewrite Hmax. apply Z.mod_same.
                unfold U64_MOD. lia. }
              rewrite Hzero in Hnext.
              rewrite (sentOn_blocked portID channelID rest _ (or_intror Hnext))
                in Hi.
              discriminate.
           ++ rewrite wrap64_succ in Hnext by (unfold MaxUint64; lia).
              destruct (IH _ (n + 1) Hnext ltac:(lia) j s Hi) as [Hs Hbound].
              lia.
      * rewrite filter_cons_False in Hi by exact Hkey.
        apply (IH (snd (SendPacket p c)) n); [|exact Hrange | exact Hi].
        rewrite Hstore. cbn [sentStore nextSequenceSend].
        rewrite lookup_insert_ne by exact Hkey. exact Hn.
    + rewrite (sent_cons_other CommitPacket CommitAcknowledgement verifier
                 k rest c Hsame) in Hi.
      apply (IH (snd (call k c)) n); [|exact Hrange | exact Hi].
      rewrite Hsame. exact Hn.
Qed.

(** X15. Sequences are claimed on a channel without gaps. Over any series
    of keeper calls made from a store whose send counter for the channel
    is the uint64 [n], the i-th packet that SendPacket accepts on the
    channel carries sequence [n + i], and none is accepted once the
    counter has wrapped; from a store with no send counter for the
    channel, none is accepted at all. *)
Theorem sentOn_consecutive (portID channelID : string) (calls : list Call)
    (c : Context) :
  (nextSequenceSend (kvStore c) !! (portID, channelID) = None ->
   sentOn portID channelID calls c = [])
  /\ (forall n,
        nextSequenceSend (kvStore c) !! (portID, channelID) = Some n ->
        0 <= n < U64_MOD ->
        forall (i : nat) (s : Z),
          sentOn portID channelID calls c !! i = Some s ->
          s = n + Z.of_nat i /\ s < U64_MOD).
Proof.
  split.
  - intros Hnone. apply sentOn_blocked. left. exact Hnone.
  - intros n. apply sentOn_from_counter.
Qed.


(** ** A store invariant *)

(** X16. Every call keeps the commitments among the claimed sequences:
    if each stored commitment lies below the send counter of its channel
    before a call, it does so after it, provided a packet being sent
    does not carry the largest uint64 as its sequence (the one send after
    which the counter wraps to 0). *)
Theorem call_keeps_commitments_claimed (k : Call) (c : Context) :
  commitments_claimed (kvStore c) ->
  (forall p, k = DoSendPacket p -> GetSequence p < MaxUint64) ->
  commitments_claimed (kvStore (snd (call k c))).
Proof.
  intros Hinv Hmax.
  destruct (call_nextSequenceSend CommitPacket CommitAcknowledgement verifier k c)
    as [(p & -> & Hok) | Hsame].
  - unfold call in *.
    pose proof (SendPacket_Ok_store CommitPacket c p Hok) as Hstore.
    pose proof (SendPacket_Ok_inv CommitPacket c p Hok) as [Hvb Hseq].
    apply ValidateBasic_sequence in Hvb.
    specialize (Hmax p eq_refl).
    rewrite Hstore. intros portID channelID sequence bz.
    cbn [sentStore packetCommitments nextSequenceSend].
    assert (wrap64 (GetSequence p + 1) = GetSequence p + 1) as ->
      by (apply wrap64_succ; lia).
    destruct (decide ((GetSourcePort p, GetSourceChannel p)
                      = (portID, channelID))) as [Hkey|Hkey].
    + injection Hkey as <- <-. rewrite lookup_insert_eq.
      intros Hlookup. exists (GetSequence p + 1). split; [reflexivity|].
      destruct (decide (sequence = GetSequence p)) as [->|Hne]; [lia|].
      rewrite lookup_insert_ne in Hlookup by congruence.
      destruct (Hinv _ _ _ _ Hlookup) as (n & Hn & Hlt).
      rewrite Hseq in Hn. injection Hn as <-. lia.
    + rewrite lookup_insert_ne by congruence.
      rewrite lookup_insert_ne by exact Hkey.
      apply Hinv.
  - intros portID channelID sequence bz Hlookup. rewrite Hsame.
    apply (Hinv portID channelID sequence bz).
    assert (forall key v,
              packetCommitments (kvStore (snd (call k c))) !! key = Some v ->
              packetCommitments (kvStore c) !! key = Some v) as Hsub.
    { clear - Hsame. intros key v.
      destruct k as [p|p pr h|p ack|p ack pr h|p|p pr h n ack];
        unfold call in *; revert Hsame; keeper_cases;
        cbn [snd kvStore packetCommitments nextSequenceSend];
        intros Hsame Hv;
        try exact Hv;
        try (apply lookup_delete_Some in Hv as [_ Hv]; exact Hv).
      exfalso. apply (f_equal (fun m => m !! (GetSourcePort p, GetSourceChannel p)))
        in Hsame.
      rewrite lookup_insert_eq in Hsame.
      match goal with
      | H : nextSequenceSend (kvStore c) !! _ = Some ?z |- _ =>
          rewrite H in Hsame; injection Hsame as Hwrap;
          exact (wrap64_succ_neq _ Hwrap)
      end. }
    apply Hsub. exact Hlookup.
Qed.


(** Only a successful PacketExecuted writes a receive counter. *)
Lemma call_nextSequenceRecv (k : Call) (c : Context) :
  (exists p ack, k = DoPacketExecuted p ack /\ fst (call k c) = Ok tt)
  \/ (nextSequenceRecv (kvStore (snd (call k c))) = nextSequenceRecv (kvStore c)
      /\ executed [k] c = []).
Proof.
  destruct k as [p|p pr h|p ack|p ack pr h|p|p pr h n ack].
  - right. split.
    + unfold call. keeper_cases; reflexivity.
    + cbn. destruct (fst (SendPacket p c)); reflexivity.
  - right. split; [|reflexivity]. unfold call. keeper_cases; reflexivity.
  - destruct (fst (call (DoPacketExecuted p ack) c)) as [[]|e|r] eqn:Hfst.
    + left. exists p, ack. split; reflexivity.
    + right. split;
        [|cbn [executed]; cbv zeta; rewrite Hfst; reflexivity].
      revert Hfst. unfold call.
      keeper_cases; simpl; try discriminate; reflexivity.
    + right. split;
        [|cbn [executed]; cbv zeta; rewrite Hfst; reflexivity].
      revert Hfst. unfold call.
      keeper_cases; simpl; try discriminate; reflexivity.
  - right. split; [|reflexivity]. unfold call. keeper_cases; reflexivity.
  - right. split; reflexivity.
  - right. split; [|reflexivity]. unfold call. keeper_cases; reflexivity.
Qed.

Lemma executed_cons_accepted (p : Packet) (ack : option (list Byte.byte))
    (rest : list Call) (c : Context) :
  fst (PacketExecuted p ack c) = Ok tt ->
  executed (DoPacketExecuted p ack :: rest) c
  = p :: executed rest (snd (PacketExecuted p ack c)).
Proof.
  intros Hok. cbn [executed]. cbv zeta.
  unfold call at 1 2. rewrite Hok. reflexivity.
Qed.

Lemma executed_cons_other (k : Call) (rest : list Call) (c : Context) :
  executed [k] c = [] ->
  executed (k :: rest) c = executed rest (snd (call k c)).
Proof.
  cbn [executed]. cbv zeta.
  destruct k as [p|p pr h|p ack|p ack pr h|p|p pr h n ack]; try reflexivity.
  destruct (fst (call (DoPacketExecuted p ack) c)) as [[]|e|r];
    [discriminate | reflexivity | reflexivity].
Qed.

Lemma wrap64_add_succ (n : Z) (j : nat) :
  wrap64 (wrap64 (n + 1) + Z.of_nat j) = wrap64 (n + Z.of_nat (S j)).
Proof.
  unfold wrap64, U64_MOD. rewrite Z.add_mod_idemp_l by lia.
  f_equal. lia.
Qed.

(** X17. An ORDERED channel executes packets in order. Over any series of
    keeper calls made from a store whose receive counter for the channel
    is the uint64 [n], the i-th packet that PacketExecuted accepts for the
    channel carries sequence [n + i] modulo 2^64. *)
Theorem executedOn_in_order (portID channelID : string) (calls : list Call) :
  forall (c : Context) (ch : Channel) (n : Z),
    channels (kvStore c) !! (portID, channelID) = Some ch ->
    Ordering ch = exported.ORDERED ->
    nextSequenceRecv (kvStore c) !! (portID, channelID) = Some n ->
    0 <= n < U64_MOD ->
    forall (i : nat) (s : Z),
      executedOn portID channelID calls c !! i = Some s ->
      s = wrap64 (n + Z.of_nat i).
Proof.
  induction calls as [|k rest IH]; intros c ch n Hch Hord Hn Hrange i s Hi.
  - unfold executedOn in Hi. simpl in Hi. discriminate.
  - unfold executedOn in Hi.
    pose proof (call_channels k c) as Hchannels.
    destruct (call_nextSequenceRecv k c) as [(p & ack & -> & Hok) | [Hsame Hnil]].
    + unfold call in Hok, Hchannels.
      rewrite (executed_cons_accepted p ack rest c Hok) in Hi.
      destruct (decide ((GetDestPort p, GetDestChannel p)
                        = (portID, channelID))) as [Hkey|Hkey].
      * rewrite filter_cons_True in Hi by exact Hkey. rewrite fmap_cons in Hi.
        injection Hkey as Hport Hchan.
        rewrite <- Hport, <- Hchan in Hch, Hn.
        destruct (PacketExecuted_ordered_Ok CommitAcknowledgement c p ch ack
                    Hch Hord Hok) as [Hstored Hnext].
        rewrite Hn in Hstored. injection Hstored as Hseq.
        destruct i as [|j]; simpl in Hi.
        -- injection Hi as <-. rewrite Z.add_0_r, <- Hseq.
           unfold wrap64. symmetry. apply Z.mod_small. exact Hrange.
        -- fold (executedOn
                   portID channelID rest (snd (PacketExecuted p ack c))) in Hi.
           rewrite <- Hseq in Hnext.
           assert (channels (kvStore (snd (PacketExecuted p ack c)))
                   !! (portID, channelID) = Some ch) as Hch'
             by (rewrite Hchannels, <- Hport, <- Hchan; exact Hch).
           rewrite Hport, Hchan in Hnext.
           assert (0 <= wrap64 (n + 1) < U64_MOD) as Hrange'
             by (unfold wrap64, U64_MOD; apply Z.mod_pos_bound; lia).
           rewrite (IH _ ch _ Hch' Hord Hnext Hrange' j s Hi).
           apply wrap64_add_succ.
      * rewrite filter_cons_False in Hi by exact Hkey.
        pose proof (call_nextSequenceRecv_other (DoPacketExecuted p ack) c
                      (portID, channelID)) as Hrecv.
        unfold call, callPacket in Hrecv.
        apply (IH (snd (PacketExecuted p ack c)) ch n); try assumption.
        -- rewrite Hchannels. exact Hch.
        -- rewrite Hrecv by congruence. exact Hn.
    + rewrite (executed_cons_other k rest c Hnil) in Hi.
      apply (IH (snd (call k c)) ch n); try assumption.
      * rewrite Hchannels. exact Hch.
      * rewrite Hsame. exact Hn.
Qed.

End KeeperMore.

(** * Properties of the staking delegation types *)

Module staking_facts.

Import staking.

(** Removing at an index: the two slice expressions and the append. *)
Lemma remove_at {A} (s : list A) (i : Z) :
  match sliceTo s i, sliceFrom s (i + 1) with
  | Some front, Some back =>
      0 <= i < Z.of_nat (length s) /\ front ++ back = delete (Z.to_nat i) s
  | _, _ => i < 0 \/ Z.of_nat (length s) <= i
  end.
Proof.
  unfold sliceTo, sliceFrom.
  destruct ((0 <=? i) && (i <=? Z.of_nat (length s))) eqn:Hto;
    [|apply andb_false_iff in Hto as [H|H]; apply Z.leb_gt in H; lia].
  apply andb_true_iff in Hto as [H0 H1].
  apply Z.leb_le in H0, H1.
  destruct ((0 <=? i + 1) && (i + 1 <=? Z.of_nat (length s))) eqn:Hfrom.
  - apply andb_true_iff in Hfrom as [_ H2]. apply Z.leb_le in H2.
    split; [lia|].
    rewrite delete_take_drop. do 2 f_equal. lia.
  - apply andb_false_iff in Hfrom as [H|H]; apply Z.leb_gt in H; lia.
Qed.


(** X18. [UnbondingDelegation.RemoveEntry] panics exactly when the index
    is negative or not below the number of entries (so always on an
    empty list); otherwise it removes the entry at that index and nothing
    else: the addresses stay, one entry fewer remains, entries before
    the index keep their place and entries after it move down by one. *)
Theorem UnbondingDelegation_RemoveEntry (d : UnbondingDelegation.t) (i : Z) :
  let n := Z.of_nat (length (UnbondingDelegation.Entries d)) in
  (UnbondingDelegation.RemoveEntry d i = None <-> i < 0 \/ n <= i)
  /\ (forall d',
        UnbondingDelegation.RemoveEntry d i = Some d' ->
        UnbondingDelegation.DelegatorAddress d'
        = UnbondingDelegation.DelegatorAddress d
        /\ UnbondingDelegation.ValidatorAddress d'
           = UnbondingDelegation.ValidatorAddress d
        /\ Z.of_nat (length (UnbondingDelegation.Entries d')) = n - 1
        /\ (forall j : nat,
              Z.of_nat j < i ->
              UnbondingDelegation.Entries d' !! j
              = UnbondingDelegation.Entries d !! j)
        /\ (forall j : nat,
              i <= Z.of_nat j ->
              UnbondingDelegation.Entries d' !! j
              = UnbondingDelegation.Entries d !! S j)).
Proof.
  intros n. subst n. unfold UnbondingDelegation.RemoveEntry.
  pose proof (remove_at (UnbondingDelegation.Entries d) i) as Hat.
  destruct (sliceTo (UnbondingDelegation.Entries d) i) as [front|];
    [destruct (sliceFrom (UnbondingDelegation.Entries d) (i + 1)) as [back|]|].
  - destruct Hat as [Hrange Hdel]. split.
    + split; [discriminate | lia].
    + intros d' Hd'. injection Hd' as <-.
      cbn [UnbondingDelegation.DelegatorAddress
           UnbondingDelegation.ValidatorAddress UnbondingDelegation.Entries].
      rewrite Hdel. repeat split.
      * rewrite length_delete; [lia|].
        apply lookup_lt_is_Some. lia.
      * intros j Hj. apply list_lookup_delete_lt. lia.
      * intros j Hj. apply list_lookup_delete_ge. lia.
  - split; [split; [intros _; exact Hat | reflexivity] | discriminate].
  - split; [split; [intros _; exact Hat | reflexivity] | discriminate].
Qed.

(** X19. [AddEntry] appends: the entries already there keep their index,
    and the new last entry has the given height and time with both its
    initial and its current balance set to the given balance. Removing
    the entry at that last index gives back the unbonding delegation as
    it was. *)
Theorem UnbondingDelegation_AddEntry_RemoveEntry (d : UnbondingDelegation.t)
    (creationHeight : Z) (minTime : Time) (balance : Z) :
  let d' := UnbondingDelegation.AddEntry d creationHeight minTime balance in
  let last := length (UnbondingDelegation.Entries d) in
  (forall (j : nat) e,
     UnbondingDelegation.Entries d !! j = Some e ->
     UnbondingDelegation.Entries d' !! j = Some e)
  /\ UnbondingDelegation.Entries d' !! last
     = Some (UnbondingDelegationEntry.mk creationHeight minTime balance balance)
  /\ length (UnbondingDelegation.Entries d') = S last
  /\ UnbondingDelegation.RemoveEntry d' (Z.of_nat last) = Some d.
Proof.
  intros d' last. subst d' last. destruct d as [da va entries].
  unfold UnbondingDelegation.AddEntry, UnbondingDelegation.RemoveEntry.
  cbn [UnbondingDelegation.DelegatorAddress
       UnbondingDelegation.ValidatorAddress UnbondingDelegation.Entries].
  split; [|split; [|split]].
  - intros j e Hj. apply lookup_app_l_Some. exact Hj.
  - rewrite lookup_app_r by lia. rewrite Nat.sub_diag. reflexivity.
  - rewrite length_app. simpl. lia.
  - pose proof (remove_at (entries ++ [NewUnbondingDelegationEntry creationHeight
                                       minTime balance])
                          (Z.of_nat (length entries))) as Hat.
    destruct (sliceTo _ _) as [front|]; [destruct (sliceFrom _ _) as [back|]|].
    + destruct Hat as [_ ->]. rewrite Nat2Z.id.
      rewrite delete_take_drop, take_app_length.
      rewrite drop_app_ge by lia.
      replace (S (length entries) - length entries)%nat with 1%nat by lia.
      simpl. rewrite app_nil_r. reflexivity.
    + rewrite length_app in Hat. simpl in Hat. lia.
    + rewrite length_app in Hat. simpl in Hat. lia.
Qed.

(** X20. [Redelegation.RemoveEntry] and [Redelegation.AddEntry] behave on
    the entries of a redelegation alike: removal panics exactly when the
    index is negative or not below the number of entries and otherwise
    drops that one entry, keeping the order of the others; an added entry
    comes last and removing it gives back the redelegation as it was. *)
Theorem Redelegation_RemoveEntry_AddEntry (d : Redelegation.t) (i : Z)
    (creationHeight : Z) (minTime : Time) (balance sharesDst : Z) :
  let n := Z.of_nat (length (Redelegation.Entries d)) in
  (Redelegation.RemoveEntry d i = None <-> i < 0 \/ n <= i)
  /\ (forall d',
        Redelegation.RemoveEntry d i = Some d' ->
        d' = Redelegation.mk (Redelegation.DelegatorAddress d)
               (Redelegation.ValidatorSrcAddress d)
               (Redelegation.ValidatorDstAddress d)
               (Redelegation.Entries d')
        /\ Z.of_nat (length (Redelegation.Entries d')) = n - 1
        /\ (forall j : nat,
              Z.of_nat j < i ->
              Redelegation.Entries d' !! j = Redelegation.Entries d !! j)
        /\ (forall j : nat,
              i <= Z.of_nat j ->
              Redelegation.Entries d' !! j = Redelegation.Entries d !! S j))
  /\ Redelegation.Entries
       (Redelegation.AddEntry d creationHeight minTime balance sharesDst)
     = Redelegation.Entries d
       ++ [RedelegationEntry.mk creationHeight minTime balance sharesDst]
  /\ Redelegation.RemoveEntry
       (Redelegation.AddEntry d creationHeight minTime balance sharesDst) n
     = Some d.
Proof.
  intros n. subst n. split; [|split; [|split]].
  - unfold Redelegation.RemoveEntry.
    pose proof (remove_at (Redelegation.Entries d) i) as Hat.
    destruct (sliceTo (Redelegation.Entries d) i) as [front|];
      [destruct (sliceFrom (Redelegation.Entries d) (i + 1)) as [back|]|].
    + split; [discriminate | lia].
    + split; [intros _; exact Hat | reflexivity].
    + split; [intros _; exact Hat | reflexivity].
  - unfold Redelegation.RemoveEntry.
    pose proof (remove_at (Redelegation.Entries d) i) as Hat.
    destruct (sliceTo (Redelegation.Entries d) i) as [front|];
      [destruct (sliceFrom (Redelegation.Entries d) (i + 1)) as [back|]|];
      try discriminate.
    destruct Hat as [Hrange Hdel].
    intros d' Hd'. injection Hd' as <-.
    cbn [Redelegation.DelegatorAddress Redelegation.ValidatorSrcAddress
         Redelegation.ValidatorDstAddress Redelegation.Entries].
    rewrite Hdel. repeat split.
    + rewrite length_delete; [lia|]. apply lookup_lt_is_Some. lia.
    + intros j Hj. apply list_lookup_delete_lt. lia.
    + intros j Hj. apply list_lookup_delete_ge. lia.
  - reflexivity.
  - destruct d as [da vs vd entries].
    unfold Redelegation.AddEntry, Redelegation.RemoveEntry.
    cbn [Redelegation.DelegatorAddress Redelegation.ValidatorSrcAddress
         Redelegation.ValidatorDstAddress Redelegation.Entries].
    pose proof (remove_at (entries ++ [NewRedelegationEntry creationHeight
                                       minTime balance sharesDst])
                          (Z.of_nat (length entries))) as Hat.
    destruct (sliceTo _ _) as [front|]; [destruct (sliceFrom _ _) as [back|]|].
    + destruct Hat as [_ ->]. rewrite Nat2Z.id.
      rewrite delete_take_drop, take_app_length.
      rewrite drop_app_ge by lia.
      replace (S (length entries) - length entries)%nat with 1%nat by lia.
      simpl. rewrite app_nil_r. reflexivity.
    + rewrite length_app in Hat. simpl in Hat. lia.
    + rewrite length_app in Hat. simpl in Hat. lia.
Qed.

(** X21. An entry matures at its completion time and stays mature:
    [IsMature] holds exactly at the times that are not before the
    completion time, the completion time itself included, for unbonding
    and redelegation entries alike; the single entry of a new unbonding
    delegation or redelegation matures at the [minTime] given. *)
Theorem IsMature_from_completion_time
    (u : UnbondingDelegationEntry.t) (r : RedelegationEntry.t)
    (delegator : AccAddress) (validator validatorDst : ValAddress)
    (creationHeight : Z) (minTime t t' : Time) (balance sharesDst : Z) :
  (UnbondingDelegationEntry.IsMature u t = true
   <-> UnbondingDelegationEntry.CompletionTime u <= t)
  /\ (RedelegationEntry.IsMature r t = true
      <-> RedelegationEntry.CompletionTime r <= t)
  /\ (t <= t' ->
      (UnbondingDelegationEntry.IsMature u t = true ->
       UnbondingDelegationEntry.IsMature u t' = true)
      /\ (RedelegationEntry.IsMature r t = true ->
          RedelegationEntry.IsMature r t' = true))
  /\ (forall e,
        e ∈ UnbondingDelegation.Entries
              (NewUnbondingDelegation delegator validator creationHeight
                 minTime balance) ->
        (UnbondingDelegationEntry.IsMature e t = true <-> minTime <= t))
  /\ (forall e,
        e ∈ Redelegation.Entries
              (NewRedelegation delegator validator validatorDst creationHeight
                 minTime balance sharesDst) ->
        (RedelegationEntry.IsMature e t = true <-> minTime <= t)).
Proof.
  assert (forall ct x : Z, negb (After ct x) = true <-> ct <= x) as Hmature.
  { intros ct x. unfold After. rewrite negb_true_iff, Z.ltb_ge. reflexivity. }
  unfold UnbondingDelegationEntry.IsMature, RedelegationEntry.IsMature.
  split; [apply Hmature|]. split; [apply Hmature|]. split; [|split].
  - intros Hle. rewrite !Hmature. split; lia.
  - intros e He. apply list_elem_of_singleton in He as ->. apply Hmature.
  - intros e He. apply list_elem_of_singleton in He as ->. apply Hmature.
Qed.

End staking_facts.

(** * The further properties on concrete inputs *)

Module more_examples.

Import fixture fixture_more.

Lemma fixture_recv_prechecks (ord : exported.Order) (height : Z)
    (nextSend nextRecv : option Z) (seq : Z) :
  recv_prechecks
    (store (channelEnd exported.OPEN ord) connectionexported.OPEN
           nextSend nextRecv ∅)
    (packet seq) (channelEnd exported.OPEN ord)
    (mkConnectionEnd connectionexported.OPEN testClient).
Proof.
  constructor; try reflexivity.
  exists testConnection. split; reflexivity.
Qed.

Lemma fixture_cleanup_prechecks (ord : exported.Order)
    (connState : connectionexported.State) :
  cleanup_prechecks commitPacket (kvStore (sentContext ord connState))
    (packet 3) 4 (channelEnd exported.OPEN ord)
    (mkConnectionEnd connState testClient).
Proof.
  constructor; try reflexivity.
  constructor; try reflexivity.
  exists testConnection. split; reflexivity.
Qed.

(** Witness for [RecvPacket_timeout]: block height 200, timeout height
    100. *)
Lemma RecvPacket_timeout_witness :
  let c := lateContext (store (channelEnd exported.OPEN exported.UNORDERED)
                              connectionexported.OPEN (Some 1) (Some 1) ∅) in
  RecvPacket commitPacket acceptAll (packet 1) [] 5 c = (Err ErrPacketTimeout, c).
Proof.
  intros c.
  apply (RecvPacket_timeout commitPacket acceptAll c (packet 1) [] 5 _ _
           (fixture_recv_prechecks exported.UNORDERED 200 (Some 1) (Some 1) 1)).
  vm_compute. discriminate.
Defined.

(** Witness for [RecvPacket_verification]: an accepted proof. *)
Lemma RecvPacket_verification_witness :
  let c := context (store (channelEnd exported.OPEN exported.UNORDERED)
                          connectionexported.OPEN (Some 1) (Some 1) ∅) in
  fst (RecvPacket commitPacket acceptAll (packet 1) [] 5 c) = Ok (packet 1)
  /\ fst (RecvPacket commitPacket rejectAll (packet 1) [] 5 c)
     = Err ErrCommitmentVerificationFailed.
Proof.
  intros c. split.
  - rewrite (RecvPacket_verification commitPacket acceptAll c (packet 1) [] 5 _ _
               (fixture_recv_prechecks exported.UNORDERED 20 (Some 1) (Some 1) 1)
               ltac:(reflexivity)).
    reflexivity.
  - rewrite (RecvPacket_verification commitPacket rejectAll c (packet 1) [] 5 _ _
               (fixture_recv_prechecks exported.UNORDERED 20 (Some 1) (Some 1) 1)
               ltac:(reflexivity)).
    reflexivity.
Defined.

(** Witness for [CleanupPacket_not_yet_received]: claimed receive sequence
    3 for the packet with sequence 3. *)
Lemma CleanupPacket_not_yet_received_witness :
  let c := sentContext exported.ORDERED connectionexported.OPEN in
  CleanupPacket commitPacket acceptAll (packet 3) [] 5 3 [] c
  = (Err ErrInvalidPacket, c).
Proof.
  intros c.
  apply (CleanupPacket_not_yet_received commitPacket acceptAll c (packet 3)
           [] 5 3 [] (channelEnd exported.OPEN exported.ORDERED)
           (mkConnectionEnd connectionexported.OPEN testClient)).
  - constructor; try reflexivity.
    exists testConnection. split; reflexivity.
  - vm_compute. discriminate.
Defined.

(** Witness for [CleanupPacket_proof_rejected]. *)
Lemma CleanupPacket_proof_rejected_witness :
  let c := sentContext exported.ORDERED connectionexported.OPEN in
  let r := CleanupPacket commitPacket rejectAll (packet 3) [] 5 4 [] c in
  fst r = Err ErrCommitmentVerificationFailed
  /\ packetCommitments (kvStore (snd r)) !! (testPort, testChannel, 3)
     = Some (commitPacket packetData).
Proof.
  intros c r.
  destruct (CleanupPacket_proof_rejected commitPacket rejectAll c (packet 3)
              [] 5 4 [] _ _ _ ErrCommitmentVerificationFailed
              (fixture_cleanup_prechecks exported.ORDERED connectionexported.OPEN)
              eq_refl eq_refl) as [Hrun Hkept].
  split; [subst r; rewrite Hrun; reflexivity | exact Hkept].
Defined.

(** Witness for [AcknowledgePacket_verification]: a nil acknowledgement. *)
Lemma AcknowledgePacket_verification_witness :
  let c := sentContext exported.ORDERED connectionexported.OPEN in
  AcknowledgePacket commitPacket acceptAll (packet 3) None [] 5 c
  = (Panic PanicNilDereference, c)
  /\ fst (AcknowledgePacket commitPacket acceptAll (packet 3) (Some []) [] 5 c)
     = Ok (packet 3).
Proof.
  intros c.
  assert (ack_prechecks (kvStore c) (packet 3)
            (channelEnd exported.OPEN exported.ORDERED)
            (mkConnectionEnd connectionexported.OPEN testClient)) as Hpre.
  { constructor; try reflexivity. exists testConnection. split; reflexivity. }
  split.
  - apply (AcknowledgePacket_verification commitPacket acceptAll c (packet 3)
             None [] 5 _ _ Hpre eq_refl).
  - rewrite (AcknowledgePacket_verification commitPacket acceptAll c (packet 3)
               (Some []) [] 5 _ _ Hpre eq_refl).
    reflexivity.
Defined.

(** Witness for [empty_ConnectionHops_panic]: a store whose only channel
    has no connection hops, and a packet arriving on that channel from a
    source that names no channel of the store. *)
Lemma empty_ConnectionHops_panic_witness :
  let c := context noHopsStore in
  let incoming :=
    mkPacket 1 100 testPort "channel-9" testPort testChannel packetData in
  let c2 :=
    context (mkKVStore
               {[ (testPort, testChannel)
                  := mkChannel exported.OPEN exported.ORDERED
                       (mkCounterparty testPort "channel-9") [] ]}
               ∅ ∅ ∅ ∅ ∅ ∅) in
  (SendPacket commitPacket (packet 1) c = (Panic PanicIndexOutOfRange, c)
   /\ RecvPacket commitPacket acceptAll (packet 1) [] 5 c
      = (Panic PanicIndexOutOfRange, c)
   /\ AcknowledgePacket commitPacket acceptAll (packet 1) None [] 5 c
      = (Panic PanicIndexOutOfRange, c)
   /\ CleanupPacket commitPacket acceptAll (packet 1) [] 5 2 [] c
      = (Panic PanicIndexOutOfRange, c))
  /\ (channels (kvStore c2)
      !! (GetSourcePort incoming, GetSourceChannel incoming) = None
      /\ RecvPacket commitPacket acceptAll incoming [] 5 c2
         = (Panic PanicIndexOutOfRange, c2)).
Proof.
  intros c incoming c2. split.
  - destruct (empty_ConnectionHops_panic commitPacket acceptAll c (packet 1)
                None [] 5 2 []) as (Hsource & Hdest).
    destruct (Hsource _ eq_refl eq_refl) as (Hsend & Hack & Hcleanup).
    split; [apply Hsend; first [reflexivity | discriminate]|].
    split; [apply (Hdest _ eq_refl); reflexivity|].
    split; [apply Hack; reflexivity | apply Hcleanup; reflexivity].
  - split; [reflexivity|].
    destruct (empty_ConnectionHops_panic commitPacket acceptAll c2 incoming
                None [] 5 2 []) as (_ & Hdest).
    apply (Hdest _ eq_refl); reflexivity.
Defined.

(** Witness for [SendPacket_then_CleanupPacket]: sequence 5 sent, then
    cleaned up with the receive sequence claimed at 6. *)
Lemma SendPacket_then_CleanupPacket_witness :
  let c := context (store (channelEnd exported.OPEN exported.ORDERED)
                          connectionexported.OPEN (Some 5) None ∅) in
  let c1 := snd (SendPacket commitPacket (packet 5) c) in
  let r := CleanupPacket commitPacket acceptAll (packet 5) [] 5 6 [] c1 in
  fst r = Ok (packet 5)
  /\ packetCommitments (kvStore (snd r)) = packetCommitments (kvStore c).
Proof.
  intros c c1 r.
  destruct (SendPacket_then_CleanupPacket commitPacket acceptAll c (packet 5)
              [] 5 6 [] (channelEnd exported.OPEN exported.ORDERED)
              (mkConnectionEnd connectionexported.OPEN testClient)
              testConnection
              (CallVerifyNextSequenceRecv
                 (mkConnectionEnd connectionexported.OPEN testClient)
                 5 [] testPort testChannel 6)
              eq_refl eq_refl eq_refl eq_refl eq_refl eq_refl eq_refl eq_refl)
    as [Hok Hstore].
  split; [exact Hok|].
  subst r c1. rewrite (Hstore eq_refl). reflexivity.
Defined.

(** Witness for [AcknowledgePacket_needs_equal_ends]: the fixture channel,
    whose two ends are named alike. *)
Lemma AcknowledgePacket_needs_equal_ends_witness :
  GetSourcePort (packet 5) = GetDestPort (packet 5)
  /\ GetSourceChannel (packet 5) = GetDestChannel (packet 5).
Proof.
  pose (c := context (store (channelEnd exported.OPEN exported.ORDERED)
                            connectionexported.OPEN (Some 5) None ∅)).
  apply (AcknowledgePacket_needs_equal_ends commitPacket acceptAll c
           (snd (SendPacket commitPacket (packet 5) c)) (packet 5) (packet 5)
           (Some []) [] 5); reflexivity.
Defined.

(** Witness for [PacketExecuted_unordered_replay]. *)
Lemma PacketExecuted_unordered_replay_witness :
  let c := context (store (channelEnd exported.OPEN exported.UNORDERED)
                          connectionexported.OPEN (Some 1) (Some 1) ∅) in
  let c1 := snd (PacketExecuted commitAcknowledgement (packet 9) None c) in
  PacketExecuted commitAcknowledgement (packet 9) None c1 = (Ok tt, c1).
Proof.
  intros c c1.
  destruct (PacketExecuted_unordered_replay commitAcknowledgement c (packet 9)
              None None (channelEnd exported.OPEN exported.UNORDERED)
              eq_refl eq_refl eq_refl) as (_ & Hagain & _).
  exact Hagain.
Defined.

(** Witness for [PacketExecuted_ordered_once]. *)
Lemma PacketExecuted_ordered_once_witness :
  let c := context (store (channelEnd exported.OPEN exported.ORDERED)
                          connectionexported.OPEN (Some 1) (Some 7) ∅) in
  let c1 := snd (PacketExecuted commitAcknowledgement (packet 7) None c) in
  fst (PacketExecuted commitAcknowledgement (packet 7) (Some []) c1)
  = Err ErrInvalidPacket.
Proof.
  intros c c1.
  apply (PacketExecuted_ordered_once commitAcknowledgement c (packet 7) (packet 7)
           None (Some []) (channelEnd exported.OPEN exported.ORDERED));
    reflexivity.
Defined.

(** Witness for [PacketExecuted_receipt]: an ORDERED channel executed
    without an acknowledgement. *)
Lemma PacketExecuted_receipt_witness :
  let c := context (store (channelEnd exported.OPEN exported.ORDERED)
                          connectionexported.OPEN (Some 1) (Some 7) ∅) in
  let r := PacketExecuted commitAcknowledgement (packet 7) None c in
  fst r = Ok tt
  /\ packetAcknowledgements (kvStore (snd r)) = packetAcknowledgements (kvStore c).
Proof.
  intros c r.
  destruct (PacketExecuted_receipt commitAcknowledgement c (packet 7) None
              (channelEnd exported.OPEN exported.ORDERED) eq_refl)
    as [_ Hreceipt].
  split; [reflexivity|].
  destruct (Hreceipt eq_refl) as [_ Hnone].
  apply Hnone; [reflexivity | discriminate].
Defined.

(** Witness for [call_writes_own_keys]: a send on channel-0 leaves the
    counter of another channel and the commitment of another sequence as
    they were. *)
Lemma call_writes_own_keys_witness :
  let c := sentContext exported.ORDERED connectionexported.OPEN in
  let s' := kvStore (snd (call commitPacket commitAcknowledgement acceptAll
                            (DoSendPacket (packet 4)) c)) in
  nextSequenceSend s' !! (testPort, "channel-1"%string)
  = nextSequenceSend (kvStore c) !! (testPort, "channel-1"%string)
  /\ packetCommitments s' !! (testPort, testChannel, 3)
     = Some (commitPacket packetData).
Proof.
  intros c s'.
  destruct (call_writes_own_keys commitPacket commitAcknowledgement acceptAll
              (DoSendPacket (packet 4)) c) as (Hsend & _ & Hcommit & _).
  split.
  - apply Hsend. discriminate.
  - subst s'. rewrite Hcommit by discriminate. reflexivity.
Defined.

(** Witness for [returned_packet_was_verified]: a packet received under an
    accepting verifier. *)
Lemma returned_packet_was_verified_witness :
  let c := context (store (channelEnd exported.OPEN exported.UNORDERED)
                          connectionexported.OPEN (Some 1) (Some 1) ∅) in
  exists conn,
    acceptAll (BlockHeight c) (kvStore c)
      (CallVerifyPacketCommitment conn 5 [] testPort testChannel 1
         (commitPacket packetData)) = None.
Proof.
  intros c.
  destruct (returned_packet_was_verified commitPacket commitAcknowledgement
              acceptAll c (packet 1) (packet 1) None [] 5 2 [])
    as (Hrecv & _).
  destruct (Hrecv eq_refl) as [_ Hasked].
  exact Hasked.
Defined.

(** Witness for [sentOn_consecutive]: from send counter 5, sequence 5 sent
    twice and then sequence 6. *)
Lemma sentOn_consecutive_witness :
  let c := context (store (channelEnd exported.OPEN exported.ORDERED)
                          connectionexported.OPEN (Some 5) None ∅) in
  let calls := [DoSendPacket (packet 5); DoSendPacket (packet 5);
                DoSendPacket (packet 6)] in
  sentOn commitPacket commitAcknowledgement acceptAll testPort testChannel
    calls c = [5; 6]
  /\ 6 = 5 + Z.of_nat 1 /\ 6 < U64_MOD.
Proof.
  intros c calls. split; [reflexivity|].
  destruct (sentOn_consecutive commitPacket commitAcknowledgement acceptAll
              testPort testChannel calls c) as [_ Hfrom].
  apply (Hfrom 5 eq_refl); [split; [discriminate | reflexivity] | reflexivity].
Defined.

(** Witness for [call_keeps_commitments_claimed]: sequence 3 committed
    below send counter 4, and sequence 4 sent. *)
Lemma call_keeps_commitments_claimed_witness :
  let c := sentContext exported.ORDERED connectionexported.OPEN in
  let s' := kvStore (snd (call commitPacket commitAcknowledgement acceptAll
                            (DoSendPacket (packet 4)) c)) in
  exists n, nextSequenceSend s' !! (testPort, testChannel) = Some n /\ 4 < n.
Proof.
  intros c s'.
  assert (commitments_claimed (kvStore c)) as Hclaimed.
  { intros portID channelID sequence bz Hlookup.
    change (packetCommitments (kvStore c))
      with ({[ (testPort, testChannel, 3) := commitPacket packetData ]}
            : gmap (string * string * Z) (list Byte.byte)) in Hlookup.
    apply lookup_singleton_Some in Hlookup as [Hkey _].
    injection Hkey as <- <- <-.
    exists 4. split; reflexivity. }
  apply (call_keeps_commitments_claimed commitPacket commitAcknowledgement
           acceptAll (DoSendPacket (packet 4)) c Hclaimed)
    with (bz := commitPacket packetData).
  - intros p Hp. injection Hp as <-. reflexivity.
  - reflexivity.
Defined.

(** Witness for [executedOn_in_order]: from receive counter 7, sequences
    7, 9 and 8 offered in that order. *)
Lemma executedOn_in_order_witness :
  let c := context (store (channelEnd exported.OPEN exported.ORDERED)
                          connectionexported.OPEN (Some 1) (Some 7) ∅) in
  let calls := [DoPacketExecuted (packet 7) None;
                DoPacketExecuted (packet 9) None;
                DoPacketExecuted (packet 8) None] in
  executedOn commitPacket commitAcknowledgement acceptAll testPort testChannel
    calls c = [7; 8]
  /\ 8 = wrap64 (7 + Z.of_nat 1).
Proof.
  intros c calls. split; [reflexivity|].
  apply (executedOn_in_order commitPacket commitAcknowledgement acceptAll
           testPort testChannel calls c
           (channelEnd exported.OPEN exported.ORDERED) 7);
    first [reflexivity | split; [discriminate | reflexivity]].
Defined.

(** Witness for [staking_facts.UnbondingDelegation_RemoveEntry]: three
    entries, index 3 out of range and index 1 removed. *)
Lemma UnbondingDelegation_RemoveEntry_witness :
  staking.UnbondingDelegation.RemoveEntry unbonding 3 = None
  /\ exists d',
       staking.UnbondingDelegation.RemoveEntry unbonding 1 = Some d'
       /\ staking.UnbondingDelegation.Entries d' !! 1%nat
          = Some (staking.NewUnbondingDelegationEntry 3 30 300).
Proof.
  split.
  - destruct (staking_facts.UnbondingDelegation_RemoveEntry unbonding 3)
      as [[_ Hpanic] _].
    apply Hpanic. right. discriminate.
  - eexists. split; [reflexivity|].
    destruct (staking_facts.UnbondingDelegation_RemoveEntry unbonding 1)
      as [_ Hremoved].
    destruct (Hremoved _ eq_refl) as (_ & _ & _ & _ & Hafter).
    rewrite (Hafter 1%nat) by discriminate. reflexivity.
Defined.

(** Witness for [staking_facts.UnbondingDelegation_AddEntry_RemoveEntry]:
    the first entry is still first after an entry is added. *)
Lemma UnbondingDelegation_AddEntry_RemoveEntry_witness :
  staking.UnbondingDelegation.Entries
    (staking.UnbondingDelegation.AddEntry unbonding 4 40 400) !! 0%nat
  = Some (staking.NewUnbondingDelegationEntry 1 10 100).
Proof.
  destruct (staking_facts.UnbondingDelegation_AddEntry_RemoveEntry
              unbonding 4 40 400) as [Hkept _].
  apply Hkept. reflexivity.
Defined.

(** Witness for [staking_facts.Redelegation_RemoveEntry_AddEntry]: two
    entries, index 2 out of range and index 0 removed. *)
Lemma Redelegation_RemoveEntry_AddEntry_witness :
  staking.Redelegation.RemoveEntry redelegation 2 = None
  /\ exists d',
       staking.Redelegation.RemoveEntry redelegation 0 = Some d'
       /\ staking.Redelegation.Entries d' !! 0%nat
          = Some (staking.NewRedelegationEntry 2 20 200 8).
Proof.
  destruct (staking_facts.Redelegation_RemoveEntry_AddEntry redelegation 2
              0 0 0 0) as [[_ Hpanic] _].
  destruct (staking_facts.Redelegation_RemoveEntry_AddEntry redelegation 0
              0 0 0 0) as (_ & Hremoved & _).
  split.
  - apply Hpanic. right. discriminate.
  - eexists. split; [reflexivity|].
    destruct (Hremoved _ eq_refl) as (_ & _ & _ & Hafter).
    rewrite (Hafter 0%nat) by discriminate. reflexivity.
Defined.

(** Witness for [staking_facts.IsMature_from_completion_time]: an entry
    completing at time 20, seen at times 20 and 25. *)
Lemma IsMature_from_completion_time_witness :
  staking.UnbondingDelegationEntry.IsMature
    (staking.NewUnbondingDelegationEntry 2 20 200) 25 = true
  /\ staking.RedelegationEntry.IsMature
       (staking.NewRedelegationEntry 2 20 200 8) 25 = true.
Proof.
  destruct (staking_facts.IsMature_from_completion_time
              (staking.NewUnbondingDelegationEntry 2 20 200)
              (staking.NewRedelegationEntry 2 20 200 8)
              [] [] [] 2 20 20 25 200 8) as (_ & _ & Hlater & _).
  destruct (Hlater ltac:(discriminate)) as [Hunbonding Hredelegation].
  split; [apply Hunbonding | apply Hredelegation]; reflexivity.
Defined.


End more_examples.
